(** * StarFive camera subsystem, VIN module (stf_vin.c): the output buffer engine

    A shallow embedding of the per-line output engine of stf_vin.c: the
    pending/ready queues, the two hardware slots, the output state machine,
    the two interrupt handlers, the flush path and the stream/power
    reference counters.

    Conventions of the embedding:
    - a C function that mutates [struct vin_line] (and calls into the
      hardware or into videobuf2) is a function from the line to the new
      line and the list of calls it made, in program order;
    - a [struct stfcamss_buffer *] is an [option stfcamss_buffer] (NULL is
      [None]); the descriptor keeps its own address in [ptr], so that two
      descriptors with equal contents stay distinguishable;
    - a [struct list_head] queue is the list of its entries, head first;
    - the spin locks and mutexes are not modelled: every function below is
      one critical section. *)

From Stdlib Require Import ZArith List Bool Lia.
Import ListNotations.
Local Open Scope Z_scope.

(** ** Constants of stf_vin.h

    The header that declares [enum vin_line_id] is not part of the sources
    at hand, so the enumerators the code compares line ids with are taken
    as parameters. *)
Class stf_vin_h := {
  VIN_LINE_WR : Z;
  VIN_LINE_ISP : Z;
  VIN_LINE_MAX : Z
}.

(** ** Machine integers *)

(** [u32] arithmetic: the value of an unsigned 32-bit expression. *)
Definition u32 (x : Z) : Z := x mod 2 ^ 32.

(** [int] arithmetic: the value of a signed 32-bit expression (the kernel
    is built with wrapping signed overflow). *)
Definition s32 (x : Z) : Z := (x + 2 ^ 31) mod 2 ^ 32 - 2 ^ 31.

(** ** Enumerations *)

Inductive vin_output_state :=
| VIN_OUTPUT_OFF
| VIN_OUTPUT_RESERVED
| VIN_OUTPUT_SINGLE
| VIN_OUTPUT_CONTINUOUS
| VIN_OUTPUT_IDLE
| VIN_OUTPUT_STOPPING.

(** The states videobuf2 lets a driver return a buffer with. *)
Inductive vb2_buffer_state :=
| VB2_BUF_STATE_QUEUED
| VB2_BUF_STATE_DONE
| VB2_BUF_STATE_ERROR.

Inductive isp_line_id :=
| STF_ISP_LINE_INVALID
| STF_ISP_LINE_SRC.

Inductive link :=
| LINK_ERROR
| LINK_DVP_TO_WR
| LINK_DVP_TO_ISP
| LINK_CSI_TO_WR
| LINK_CSI_TO_ISP.

Inductive dummy_module :=
| STF_DUMMY_VIN
| STF_DUMMY_ISP.

(** The two pad arguments [vin_set_stream] passes to
    [vin_set_dummy_buffer]: the constant [STF_VIN_PAD_SINK], and the value
    of [stf_vin_map_isp_pad(line->id, STF_ISP_PAD_SINK)]. *)
Inductive dummy_pad :=
| pad_STF_VIN_PAD_SINK
| pad_stf_vin_map_isp_pad.

(** ** Data *)

(** [struct stfcamss_buffer]: [vb.vb2_buf.timestamp], [vb.sequence] and
    [addr[0..1]]; [ptr] is the address of the descriptor itself. *)
Record stfcamss_buffer := mk_buffer {
  ptr : nat;
  vb_timestamp : Z;
  vb_sequence : Z;
  addr0 : Z;
  addr1 : Z
}.

(** [struct vin_output].  [active_buf] is an [int] that is only ever
    assigned [0] or [!active_buf]: [false] is 0 and [true] is 1.
    [sequence] is the unsigned 32-bit counter copied into the [__u32]
    field [vb.sequence]. *)
Record vin_output := mk_output {
  active_buf : bool;
  buf0 : option stfcamss_buffer;
  buf1 : option stfcamss_buffer;
  last_buffer : option stfcamss_buffer;
  pending_bufs : list stfcamss_buffer;
  ready_bufs : list stfcamss_buffer;
  state : vin_output_state;
  sequence : Z
}.

(** The part of [struct vin_line] the engine uses; the two counters are C
    [int]s. *)
Record vin_line := mk_line {
  id : Z;
  output : vin_output;
  stream_count : Z;
  power_count : Z
}.

(** The part of [struct stf_vin_dev] the reference counters use:
    [power_count] and [dummy_buffer[m].stream_count]. *)
Record stf_vin_dev := mk_dev {
  dev_power_count : Z;
  dummy_stream_count : dummy_module -> Z
}.

(** Diagnostics written with [dev_warn] and [dev_err]. *)
Inductive diag :=
| missing_ready_buf (active_index : bool) (st : vin_output_state)
| missing_ready_buf2 (active_index : bool) (st : vin_output_state)
| line_power_off_on_zero
| vin_dev_power_off_on_zero.

(** The calls a function makes outside the engine. *)
Inductive event :=
| vb2_buffer_done (b : stfcamss_buffer) (st : vb2_buffer_state)
| stf_vin_wr_set_ping_addr (a : Z)
| stf_vin_wr_set_pong_addr (a : Z)
| stf_vin_isp_set_yuv_addr (y uv : Z)
| dev_warn (d : diag)
| dev_err (d : diag)
| pm_runtime_get_sync
| pm_runtime_put_sync
| stf_vin_clk_enable (l : link)
| stf_vin_clk_disable (l : link)
| vin_alloc_dummy_buffer (m : dummy_module)
| vin_free_dummy_buffer (m : dummy_module)
| vin_set_dummy_buffer (p : dummy_pad)
| frame_skip_set (m : dummy_module) (v : Z)
| stf_vin_stream_set (l : link)
| stf_vin_wr_irq_enable (en : bool)
| stf_vin_wr_stream_set.

(** Writes to the DMA address sink (the address registers). *)
Definition is_dma_write (e : event) : bool :=
  match e with
  | stf_vin_wr_set_ping_addr _
  | stf_vin_wr_set_pong_addr _
  | stf_vin_isp_set_yuv_addr _ _
  | vin_set_dummy_buffer _ => true
  | _ => false
  end.

Definition dma_writes (evs : list event) : list event :=
  filter is_dma_write evs.

(** Descriptors handed back to videobuf2, with the state they carry. *)
Definition returned (evs : list event)
  : list (stfcamss_buffer * vb2_buffer_state) :=
  flat_map (fun e => match e with
                     | vb2_buffer_done b st => [(b, st)]
                     | _ => []
                     end) evs.

(** Diagnostics reported. *)
Definition reported (evs : list event) : list diag :=
  flat_map (fun e => match e with
                     | dev_warn d | dev_err d => [d]
                     | _ => []
                     end) evs.

(** ** Field updates *)

Definition set_active_buf (o : vin_output) (a : bool) : vin_output :=
  mk_output a (buf0 o) (buf1 o) (last_buffer o) (pending_bufs o)
            (ready_bufs o) (state o) (sequence o).

Definition set_last_buffer (o : vin_output) (b : option stfcamss_buffer)
  : vin_output :=
  mk_output (active_buf o) (buf0 o) (buf1 o) b (pending_bufs o)
            (ready_bufs o) (state o) (sequence o).

Definition set_pending_bufs (o : vin_output) (q : list stfcamss_buffer)
  : vin_output :=
  mk_output (active_buf o) (buf0 o) (buf1 o) (last_buffer o) q
            (ready_bufs o) (state o) (sequence o).

Definition set_ready_bufs (o : vin_output) (q : list stfcamss_buffer)
  : vin_output :=
  mk_output (active_buf o) (buf0 o) (buf1 o) (last_buffer o)
            (pending_bufs o) q (state o) (sequence o).

Definition set_state (o : vin_output) (s : vin_output_state) : vin_output :=
  mk_output (active_buf o) (buf0 o) (buf1 o) (last_buffer o)
            (pending_bufs o) (ready_bufs o) s (sequence o).

Definition set_sequence (o : vin_output) (n : Z) : vin_output :=
  mk_output (active_buf o) (buf0 o) (buf1 o) (last_buffer o)
            (pending_bufs o) (ready_bufs o) (state o) n.

(** [output->buf[i]] *)
Definition get_buf (o : vin_output) (i : bool) : option stfcamss_buffer :=
  if i then buf1 o else buf0 o.

(** [output->buf[i] = b] *)
Definition set_buf (o : vin_output) (i : bool) (b : option stfcamss_buffer)
  : vin_output :=
  if i
  then mk_output (active_buf o) (buf0 o) b (last_buffer o) (pending_bufs o)
                 (ready_bufs o) (state o) (sequence o)
  else mk_output (active_buf o) b (buf1 o) (last_buffer o) (pending_bufs o)
                 (ready_bufs o) (state o) (sequence o).

Definition set_output (l : vin_line) (o : vin_output) : vin_line :=
  mk_line (id l) o (stream_count l) (power_count l).

Definition set_stream_count (l : vin_line) (n : Z) : vin_line :=
  mk_line (id l) (output l) n (power_count l).

Definition set_power_count (l : vin_line) (n : Z) : vin_line :=
  mk_line (id l) (output l) (stream_count l) n.

Definition set_dev_power_count (d : stf_vin_dev) (n : Z) : stf_vin_dev :=
  mk_dev n (dummy_stream_count d).

Definition dummy_module_eqb (a b : dummy_module) : bool :=
  match a, b with
  | STF_DUMMY_VIN, STF_DUMMY_VIN | STF_DUMMY_ISP, STF_DUMMY_ISP => true
  | _, _ => false
  end.

Definition set_dummy_stream_count (d : stf_vin_dev) (m : dummy_module) (n : Z)
  : stf_vin_dev :=
  mk_dev (dev_power_count d)
         (fun m' => if dummy_module_eqb m' m then n
                    else dummy_stream_count d m').

(** ** The engine *)

Section Engine.
Context {hdr : stf_vin_h}.

Definition vin_map_isp_line (line : Z) : isp_line_id :=
  if (VIN_LINE_WR <? line) && (line <? VIN_LINE_MAX)
  then STF_ISP_LINE_SRC
  else STF_ISP_LINE_INVALID.

(** The [switch (vin_map_isp_line(line->id))] that ends both
    [vin_output_init_addrs] and [vin_change_buffer]: the address pair goes
    to the ISP Y/UV registers, or its first address to the ping and pong
    registers of the write line. *)
Definition vin_set_addrs (line_id : Z) (a0 a1 : Z) : list event :=
  match vin_map_isp_line line_id with
  | STF_ISP_LINE_SRC => [stf_vin_isp_set_yuv_addr a0 a1]
  | _ =>
      if line_id =? VIN_LINE_WR
      then [stf_vin_wr_set_ping_addr a0; stf_vin_wr_set_pong_addr a0]
      else []
  end.

Definition vin_output_init_addrs (line : vin_line) : vin_line * list event :=
  let out := set_active_buf (output line) false in
  match buf0 out with
  | Some b => (set_output line out,
               vin_set_addrs (id line) (addr0 b) (addr1 b))
  | None => (set_output line out, [])
  end.

Definition vin_init_outputs (line : vin_line) : vin_line :=
  let out := output line in
  set_output line
    (mk_output false None None (last_buffer out) [] []
               VIN_OUTPUT_OFF (sequence out)).

Definition vin_buf_add_ready (out : vin_output) (buffer : stfcamss_buffer)
  : vin_output :=
  set_ready_bufs out (ready_bufs out ++ [buffer]).

Definition vin_buf_get_ready (out : vin_output)
  : option stfcamss_buffer * vin_output :=
  match ready_bufs out with
  | [] => (None, out)
  | buffer :: rest => (Some buffer, set_ready_bufs out rest)
  end.

Definition vin_buf_add_pending (out : vin_output) (buffer : stfcamss_buffer)
  : vin_output :=
  set_pending_bufs out (pending_bufs out ++ [buffer]).

Definition vin_buf_get_pending (out : vin_output)
  : option stfcamss_buffer * vin_output :=
  match pending_bufs out with
  | [] => (None, out)
  | buffer :: rest => (Some buffer, set_pending_bufs out rest)
  end.

Definition vin_buf_update_on_last (line : vin_line) : vin_line :=
  let out := output line in
  match state out with
  | VIN_OUTPUT_CONTINUOUS =>
      set_output line
        (set_active_buf (set_state out VIN_OUTPUT_SINGLE)
                        (negb (active_buf out)))
  | VIN_OUTPUT_SINGLE =>
      set_output line (set_state out VIN_OUTPUT_STOPPING)
  | _ => line
  end.

Definition vin_buf_update_on_next (line : vin_line) : vin_line :=
  let out := output line in
  match state out with
  | VIN_OUTPUT_CONTINUOUS =>
      set_output line (set_active_buf out (negb (active_buf out)))
  | _ => line
  end.

Definition vin_buf_update_on_new (line : vin_line) (new_buf : stfcamss_buffer)
  : vin_line * list event :=
  let out := output line in
  match state out with
  | VIN_OUTPUT_SINGLE =>
      (set_output line (vin_buf_add_pending out new_buf), [])
  | VIN_OUTPUT_IDLE =>
      match buf0 out with
      | None =>
          let '(line1, evs) :=
            vin_output_init_addrs
              (set_output line (set_buf out false (Some new_buf))) in
          (set_output line1 (set_state (output line1) VIN_OUTPUT_SINGLE),
           evs)
      | Some _ =>
          (set_output line (vin_buf_add_pending out new_buf), [])
      end
  | VIN_OUTPUT_STOPPING =>
      let out1 :=
        match last_buffer out with
        | Some last =>
            set_last_buffer (set_buf out (active_buf out) (Some last)) None
        | None => out
        end in
      (set_output line
         (vin_buf_add_pending (set_state out1 VIN_OUTPUT_SINGLE) new_buf),
       [])
  | _ =>
      (set_output line (vin_buf_add_pending out new_buf), [])
  end.

(** One [list_for_each_entry_safe] loop of [vin_buf_flush]: every entry is
    handed to [vb2_buffer_done] and unlinked; what is left of the queue is
    returned with the calls made. *)
Fixpoint vin_buf_flush_queue (q : list stfcamss_buffer)
                             (st : vb2_buffer_state)
  : list stfcamss_buffer * list event :=
  match q with
  | [] => ([], [])
  | buf :: t =>
      let '(rest, evs) := vin_buf_flush_queue t st in
      (rest, vb2_buffer_done buf st :: evs)
  end.

Definition vin_buf_flush (out : vin_output) (st : vb2_buffer_state)
  : vin_output * list event :=
  let '(pend, evs1) := vin_buf_flush_queue (pending_bufs out) st in
  let out1 := set_pending_bufs out pend in
  let '(rdy, evs2) := vin_buf_flush_queue (ready_bufs out1) st in
  (set_ready_bufs out1 rdy, evs1 ++ evs2).

(** The [while ((ready_buf = vin_buf_get_ready(output)))] loop of
    [vin_buffer_done], with [fuel] bounding the number of iterations. *)
Fixpoint vin_buffer_done_loop (fuel : nat) (ts : Z) (out : vin_output)
  : vin_output * list event :=
  match fuel with
  | O => (out, [])
  | S fuel' =>
      match vin_buf_get_ready out with
      | (Some ready_buf, out1) =>
          let stamped :=
            mk_buffer (ptr ready_buf) ts (sequence out1)
                      (addr0 ready_buf) (addr1 ready_buf) in
          let out2 := set_sequence out1 (u32 (sequence out1 + 1)) in
          let '(out3, evs) := vin_buffer_done_loop fuel' ts out2 in
          (out3, vb2_buffer_done stamped VB2_BUF_STATE_DONE :: evs)
      | (None, out1) => (out1, [])
      end
  end.

(** [ts] is the value [ktime_get_ns()] returns at entry.  The loop is run
    with one more unit of fuel than the ready queue has entries. *)
Definition vin_buffer_done (line : vin_line) (ts : Z) : vin_line * list event :=
  let out := output line in
  match state out with
  | VIN_OUTPUT_OFF | VIN_OUTPUT_RESERVED => (line, [])
  | _ =>
      let '(out1, evs) :=
        vin_buffer_done_loop (S (length (ready_bufs out))) ts out in
      (set_output line out1, evs)
  end.

Definition vin_change_buffer (line : vin_line) : vin_line * list event :=
  let out := output line in
  match state out with
  | VIN_OUTPUT_OFF | VIN_OUTPUT_STOPPING
  | VIN_OUTPUT_RESERVED | VIN_OUTPUT_IDLE => (line, [])
  | _ =>
      let '(active_index, ready, log) :=
        match get_buf out (active_buf out) with
        | Some b => (active_buf out, Some b, [])
        | None =>
            (negb (active_buf out), get_buf out (negb (active_buf out)),
             [dev_warn (missing_ready_buf (active_buf out) (state out))])
        end in
      match ready with
      | None =>
          (line, log ++ [dev_err (missing_ready_buf2 active_index (state out))])
      | Some ready_buf =>
          (* Get next buffer *)
          let '(next, out1) := vin_buf_get_pending out in
          let line1 := set_output line (set_buf out1 active_index next) in
          let '(new_addr, line2) :=
            match next with
            | None =>
                (* No next buffer - set same address *)
                ((addr0 ready_buf, addr1 ready_buf),
                 vin_buf_update_on_last line1)
            | Some nb =>
                ((addr0 nb, addr1 nb), vin_buf_update_on_next line1)
            end in
          match state (output line2) with
          | VIN_OUTPUT_STOPPING =>
              (set_output line2
                 (set_last_buffer (output line2) (Some ready_buf)),
               log)
          | _ =>
              (set_output line2 (vin_buf_add_ready (output line2) ready_buf),
               log ++ vin_set_addrs (id line2) (fst new_addr) (snd new_addr))
          end
      end
  end.

Definition vin_queue_buffer (line : vin_line) (buf : stfcamss_buffer)
  : vin_line * list event :=
  vin_buf_update_on_new line buf.

Definition opt_done (b : option stfcamss_buffer) (st : vb2_buffer_state)
  : list event :=
  match b with
  | Some buf => [vb2_buffer_done buf st]
  | None => []
  end.

Definition vin_flush_buffers (line : vin_line) (st : vb2_buffer_state)
  : vin_line * list event :=
  let '(out1, evs) := vin_buf_flush (output line) st in
  let evs0 := opt_done (buf0 out1) st in
  let evs1 := opt_done (buf1 out1) st in
  let evsl := opt_done (last_buffer out1) st in
  let out2 := set_last_buffer out1 None in
  (set_output line (set_buf (set_buf out2 false None) true None),
   evs ++ evs0 ++ evs1 ++ evsl).

Definition vin_enable_output (line : vin_line) : vin_line * list event :=
  let out := set_state (output line) VIN_OUTPUT_IDLE in
  let '(first, out1) := vin_buf_get_pending out in
  let out2 := set_buf out1 false first in
  let out3 :=
    match buf0 out2, buf1 out2 with
    | None, Some b => set_buf (set_buf out2 false (Some b)) true None
    | _, _ => out2
    end in
  let out4 :=
    match buf0 out3 with
    | Some _ => set_state out3 VIN_OUTPUT_SINGLE
    | None => out3
    end in
  vin_output_init_addrs (set_output line (set_sequence out4 0)).

Definition vin_disable_output (line : vin_line) : vin_line * list event :=
  (set_output line (set_state (output line) VIN_OUTPUT_OFF), []).

(** ** Stream and power reference counters *)

Definition vin_line_to_dummy_module (line : vin_line) : dummy_module :=
  if id line =? VIN_LINE_WR then STF_DUMMY_VIN
  else if id line =? VIN_LINE_ISP then STF_DUMMY_ISP
  else STF_DUMMY_VIN.

(** [lnk] is what [vin_get_link(&sd->entity)] returns. *)
Definition vin_set_power (vin_dev : stf_vin_dev) (line : vin_line)
                         (on : bool) (lnk : link)
  : stf_vin_dev * vin_line * list event :=
  let '(line1, evs1) :=
    if on then
      let line0 :=
        if power_count line =? 0 then vin_init_outputs line else line in
      (set_power_count line0 (s32 (power_count line0 + 1)), [])
    else if power_count line =? 0 then
      (line, [dev_err line_power_off_on_zero])
    else
      (set_power_count line (s32 (power_count line - 1)), []) in
  let '(dev1, evs2) :=
    match lnk with
    | LINK_ERROR => (vin_dev, [])
    | _ =>
        if on then
          (set_dev_power_count vin_dev (s32 (dev_power_count vin_dev + 1)),
           if dev_power_count vin_dev =? 0
           then [pm_runtime_get_sync; stf_vin_clk_enable lnk]
           else [])
        else if dev_power_count vin_dev =? 0 then
          (vin_dev, [dev_err vin_dev_power_off_on_zero])
        else
          (set_dev_power_count vin_dev (s32 (dev_power_count vin_dev - 1)),
           if dev_power_count vin_dev =? 1
           then [stf_vin_clk_disable lnk; pm_runtime_put_sync]
           else [])
    end in
  (dev1, line1, evs1 ++ evs2).

Definition VIN_FRAME_DROP_MIN_VAL : Z := 4.

(** [lnk] is what [vin_get_link(&sd->entity)] returns.  The dummy-buffer
    helpers are recorded as calls. *)
Definition vin_set_stream (vin_dev : stf_vin_dev) (line : vin_line)
                          (enable : bool) (lnk : link)
  : stf_vin_dev * vin_line * list event :=
  let dummy := vin_line_to_dummy_module line in
  let count := dummy_stream_count vin_dev dummy in
  let '(dev1, evs1) :=
    if enable then
      (set_dummy_stream_count vin_dev dummy (s32 (count + 1)),
       if count =? 0
       then [vin_alloc_dummy_buffer dummy;
             vin_set_dummy_buffer pad_STF_VIN_PAD_SINK;
             frame_skip_set dummy (VIN_FRAME_DROP_MIN_VAL + 30)]
       else [])
    else
      (set_dummy_stream_count vin_dev dummy (s32 (count - 1)),
       if count =? 1
       then [vin_free_dummy_buffer dummy;
             (* set buffer addr to zero *)
             vin_set_dummy_buffer pad_STF_VIN_PAD_SINK]
       else [vin_set_dummy_buffer pad_stf_vin_map_isp_pad]) in
  let '(line1, evs2) :=
    match lnk with
    | LINK_ERROR => (line, [])
    | _ =>
        if enable then
          (set_stream_count line (s32 (stream_count line + 1)),
           if stream_count line =? 0
           then stf_vin_stream_set lnk
                :: (if id line =? VIN_LINE_WR
                    then [stf_vin_wr_irq_enable true; stf_vin_wr_stream_set]
                    else [])
           else [])
        else
          (set_stream_count line (s32 (stream_count line - 1)),
           if (stream_count line =? 1) && (id line =? VIN_LINE_WR)
           then [stf_vin_wr_irq_enable false]
           else [])
    end in
  let '(line2, evs3) :=
    if enable then vin_enable_output line1 else vin_disable_output line1 in
  (dev1, line2, evs1 ++ evs2 ++ evs3).

(** ** Sequences of engine operations *)

Inductive op :=
| op_enable
| op_disable
| op_queue_buffer (buf : stfcamss_buffer)
| op_buffer_done (ts : Z)
| op_change_buffer
| op_flush_buffers (st : vb2_buffer_state).

Definition step (line : vin_line) (o : op) : vin_line * list event :=
  match o with
  | op_enable => vin_enable_output line
  | op_disable => vin_disable_output line
  | op_queue_buffer buf => vin_queue_buffer line buf
  | op_buffer_done ts => vin_buffer_done line ts
  | op_change_buffer => vin_change_buffer line
  | op_flush_buffers st => vin_flush_buffers line st
  end.

Fixpoint run (line : vin_line) (ops : list op) : vin_line * list event :=
  match ops with
  | [] => (line, [])
  | o :: rest =>
      let '(line1, evs1) := step line o in
      let '(line2, evs2) := run line1 rest in
      (line2, evs1 ++ evs2)
  end.

(** Every descriptor the engine holds: both queues, both slots and the
    frozen last buffer. *)
Definition opt_list (b : option stfcamss_buffer) : list stfcamss_buffer :=
  match b with
  | Some buf => [buf]
  | None => []
  end.

Definition outstanding (out : vin_output) : list stfcamss_buffer :=
  pending_bufs out ++ ready_bufs out ++ opt_list (buf0 out)
  ++ opt_list (buf1 out) ++ opt_list (last_buffer out).

(** The descriptors queued by a sequence of operations, in call order. *)
Definition queued (ops : list op) : list stfcamss_buffer :=
  flat_map (fun o => match o with
                     | op_queue_buffer b => [b]
                     | _ => []
                     end) ops.

Definition running (st : vin_output_state) : bool :=
  match st with
  | VIN_OUTPUT_SINGLE | VIN_OUTPUT_CONTINUOUS => true
  | _ => false
  end.

(** A sequence of [queue_buffer] calls, rotation events and completion
    events in which every [queue_buffer] call finds the output state
    [SINGLE] or [CONTINUOUS]. *)
Fixpoint queue_while_running (line : vin_line) (ops : list op) : bool :=
  match ops with
  | [] => true
  | o :: rest =>
      match o with
      | op_queue_buffer _ => running (state (output line))
      | op_buffer_done _ | op_change_buffer => true
      | _ => false
      end && queue_while_running (fst (step line o)) rest
  end.

(** The descriptor a rotation event at [line] takes off the pending queue:
    the head of the queue, when the handler leaves the queue shorter. *)
Definition rotation_fetch (line : vin_line) : option stfcamss_buffer :=
  let line1 := fst (vin_change_buffer line) in
  if (length (pending_bufs (output line1))
      <? length (pending_bufs (output line)))%nat
  then hd_error (pending_bufs (output line))
  else None.

(** The descriptors the rotation events of a sequence take off the pending
    queue, each with the writes to the DMA address sink that event makes. *)
Fixpoint installs (line : vin_line) (ops : list op)
  : list (stfcamss_buffer * list event) :=
  match ops with
  | [] => []
  | o :: rest =>
      match o, rotation_fetch line with
      | op_change_buffer, Some b =>
          [(b, dma_writes (snd (vin_change_buffer line)))]
      | _, _ => []
      end ++ installs (fst (step line o)) rest
  end.

(** The register writes that install the addresses of descriptor [b] on
    line [line_id]: ping and pong on the write line, Y/UV on an ISP line. *)
Definition install_writes (line_id : Z) (b : stfcamss_buffer) : list event :=
  if line_id =? VIN_LINE_WR
  then [stf_vin_wr_set_ping_addr (addr0 b); stf_vin_wr_set_pong_addr (addr0 b)]
  else [stf_vin_isp_set_yuv_addr (addr0 b) (addr1 b)].

(** The counter [output->sequence] after [n] executions of
    [output->sequence++]. *)
Definition seq_after (s : Z) (n : nat) : Z :=
  Nat.iter n (fun x => u32 (x + 1)) s.

(** Descriptor [b] with the timestamp and the sequence number the
    completion handler writes into it. *)
Definition stamp (ts s : Z) (b : stfcamss_buffer) : stfcamss_buffer :=
  mk_buffer (ptr b) ts s (addr0 b) (addr1 b).

(** A queue stamped head first, the counter starting at [s]. *)
Fixpoint stamp_queue (ts s : Z) (q : list stfcamss_buffer)
  : list stfcamss_buffer :=
  match q with
  | [] => []
  | b :: t => stamp ts s b :: stamp_queue ts (u32 (s + 1)) t
  end.

(** The line with the other slot taken as the active one. *)
Definition other_slot_active (line : vin_line) : vin_line :=
  set_output line
    (set_active_buf (output line) (negb (active_buf (output line)))).

(** Single buffering: the state is not CONTINUOUS, the active slot is
    slot 0 and slot 1 is empty. *)
Definition single_buffered (out : vin_output) : Prop :=
  state out <> VIN_OUTPUT_CONTINUOUS
  /\ active_buf out = false
  /\ buf1 out = None.

(** How many entries of [l] are the descriptor at address [x]. *)
Definition held (x : nat) (l : list stfcamss_buffer) : nat :=
  count_occ Nat.eq_dec (map ptr l) x.

(** A line the driver creates: the write line, or a line [vin_map_isp_line]
    sends to the ISP. *)
Definition line_id_ok (line_id : Z) : Prop :=
  line_id = VIN_LINE_WR \/ VIN_LINE_WR < line_id < VIN_LINE_MAX.

End Engine.

From Stdlib Require Import Permutation.
From Stdlib Require String.
Import String.StringSyntax.
Delimit Scope string_scope with string.

(** ** Further notions for sequences of operations *)

(** The two interrupt handlers. *)
Definition is_irq (o : op) : bool :=
  match o with
  | op_buffer_done _ | op_change_buffer => true
  | _ => false
  end.

(** [queue_buffer] calls and the two interrupt handlers. *)
Definition is_queue_or_irq (o : op) : bool :=
  match o with
  | op_queue_buffer _ | op_buffer_done _ | op_change_buffer => true
  | _ => false
  end.

(** Every operation but enable and disable. *)
Definition keeps_stream (o : op) : bool :=
  match o with
  | op_enable | op_disable => false
  | _ => true
  end.

(** The frozen last buffer is only there in state STOPPING, and in state
    STOPPING the active slot is empty. *)
Definition frozen_consistent (out : vin_output) : Prop :=
  (state out <> VIN_OUTPUT_STOPPING -> last_buffer out = None)
  /\ (state out = VIN_OUTPUT_STOPPING ->
      get_buf out (active_buf out) = None).

(** In state IDLE slot 0 and the pending queue are empty. *)
Definition idle_empty (out : vin_output) : Prop :=
  state out = VIN_OUTPUT_IDLE ->
  buf0 out = None /\ pending_bufs out = [].

(** The descriptors of a single-buffered output from the oldest to the
    newest: those awaiting completion, the frozen one, the one in slot 0,
    those pending. *)
Definition pipeline (out : vin_output) : list stfcamss_buffer :=
  ready_bufs out ++ opt_list (last_buffer out) ++ opt_list (buf0 out)
  ++ pending_bufs out.

(** ** Repeated power and stream calls *)

Section Repeated.
Context {hdr : stf_vin_h}.


(** [n] calls of [vin_set_stream] in a row with the same [enable] and
    link. *)
Fixpoint set_stream_times (n : nat) (vin_dev : stf_vin_dev) (line : vin_line)
                          (enable : bool) (lnk : link)
  : stf_vin_dev * vin_line * list event :=
  match n with
  | O => (vin_dev, line, [])
  | S n' =>
      let '(dev1, line1, evs1) := vin_set_stream vin_dev line enable lnk in
      let '(dev2, line2, evs2) := set_stream_times n' dev1 line1 enable lnk in
      (dev2, line2, evs1 ++ evs2)
  end.

End Repeated.

(** The calls that switch the capture path of a line: the stream and
    interrupt switches and the allocation of the dummy buffers. *)
Definition is_stream_switch (e : event) : bool :=
  match e with
  | stf_vin_stream_set _ | stf_vin_wr_irq_enable _ | stf_vin_wr_stream_set
  | vin_alloc_dummy_buffer _ | vin_free_dummy_buffer _ => true
  | _ => false
  end.

(** ** Formats: [vin_try_format] and the pad operations

    The frame limits of stf_camss.h and the media-bus, field and
    colorspace codes of the V4L2 headers are not part of the sources at
    hand; they are taken as parameters. *)
Class stfcamss_h := {
  STFCAMSS_FRAME_MIN_WIDTH : Z;
  STFCAMSS_FRAME_MAX_WIDTH : Z;
  STFCAMSS_FRAME_MIN_HEIGHT : Z;
  STFCAMSS_FRAME_MAX_HEIGHT : Z;
  V4L2_FIELD_NONE : Z;
  V4L2_COLORSPACE_SRGB : Z;
  MEDIA_BUS_FMT_SRGGB10_1X10 : Z;
  MEDIA_BUS_FMT_SGRBG10_1X10 : Z;
  MEDIA_BUS_FMT_SGBRG10_1X10 : Z;
  MEDIA_BUS_FMT_SBGGR10_1X10 : Z;
  MEDIA_BUS_FMT_Y12_1X12 : Z;
  MEDIA_BUS_FMT_RGB565_2X8_LE : Z
}.

(** The two pads of a VIN subdevice. *)
Inductive vin_pad :=
| STF_VIN_PAD_SINK
| STF_VIN_PAD_SRC.

Inductive v4l2_subdev_format_whence :=
| V4L2_SUBDEV_FORMAT_TRY
| V4L2_SUBDEV_FORMAT_ACTIVE.

(** The value a pad operation returns: 0 or [-EINVAL]. *)
Inductive retcode :=
| RET_OK
| RET_EINVAL.

(** [struct v4l2_mbus_framefmt]; [width], [height] and [code] are
    unsigned 32-bit fields. *)
Record v4l2_mbus_framefmt := mk_framefmt {
  mbus_width : Z;
  mbus_height : Z;
  mbus_code : Z;
  mbus_field : Z;
  mbus_colorspace : Z;
  mbus_ycbcr_enc : Z;
  mbus_quantization : Z;
  mbus_xfer_func : Z;
  mbus_flags : Z
}.

(** [struct vin_format]: a media-bus code and its bits per pixel. *)
Record vin_format := mk_vin_format {
  vf_code : Z;
  vf_bpp : Z
}.

(** The formats a pad operation reads and writes: [line->fmt[pad]] for
    [V4L2_SUBDEV_FORMAT_ACTIVE], the try formats of the subdevice state for
    [V4L2_SUBDEV_FORMAT_TRY].  [__vin_get_format] returns the address of
    one of these four, never NULL, so the [if (!format) return -EINVAL]
    of its callers is not taken. *)
Record vin_fmt_store := mk_fmt_store {
  active_sink : v4l2_mbus_framefmt;
  active_src : v4l2_mbus_framefmt;
  try_sink : v4l2_mbus_framefmt;
  try_src : v4l2_mbus_framefmt
}.

(** [struct v4l2_subdev_mbus_code_enum] *)
Record v4l2_subdev_mbus_code_enum := mk_code_enum {
  ce_pad : vin_pad;
  ce_index : Z;
  ce_code : Z;
  ce_flags : Z;
  ce_which : v4l2_subdev_format_whence
}.

(** [struct v4l2_subdev_frame_size_enum] *)
Record v4l2_subdev_frame_size_enum := mk_size_enum {
  fse_index : Z;
  fse_pad : vin_pad;
  fse_code : Z;
  fse_min_width : Z;
  fse_max_width : Z;
  fse_min_height : Z;
  fse_max_height : Z;
  fse_which : v4l2_subdev_format_whence
}.

(** [struct v4l2_subdev_format] *)
Record v4l2_subdev_format := mk_subdev_format {
  sf_which : v4l2_subdev_format_whence;
  sf_pad : vin_pad;
  sf_format : v4l2_mbus_framefmt
}.

Definition set_mbus_colorspace (f : v4l2_mbus_framefmt) (c : Z)
  : v4l2_mbus_framefmt :=
  mk_framefmt (mbus_width f) (mbus_height f) (mbus_code f) (mbus_field f) c
              (mbus_ycbcr_enc f) (mbus_quantization f) (mbus_xfer_func f)
              (mbus_flags f).

(** [clamp_t(u32, val, lo, hi)] *)
Definition clamp_t_u32 (val lo hi : Z) : Z :=
  Z.min (Z.max (u32 val) (u32 lo)) (u32 hi).

(** [formats[i]]; the zero entry stands for a read past the table. *)
Definition format_at (formats : list vin_format) (i : nat) : vin_format :=
  nth i formats (mk_vin_format 0 0).

(** The loop [for (i = 0; i < nformats; i++) if (code == formats[i].code)
    break;] started at index [i]: the value of [i] after the loop. *)
Fixpoint find_code (code : Z) (formats : list vin_format) (i : nat) : nat :=
  match formats with
  | [] => i
  | f :: rest => if code =? vf_code f then i else find_code code rest (S i)
  end.

Section Formats.
Context {cam : stfcamss_h}.

Definition vin_formats_wr : list vin_format :=
  [ mk_vin_format MEDIA_BUS_FMT_SRGGB10_1X10 10;
    mk_vin_format MEDIA_BUS_FMT_SGRBG10_1X10 10;
    mk_vin_format MEDIA_BUS_FMT_SGBRG10_1X10 10;
    mk_vin_format MEDIA_BUS_FMT_SBGGR10_1X10 10 ].

Definition vin_formats_uo : list vin_format :=
  [ mk_vin_format MEDIA_BUS_FMT_Y12_1X12 8 ].

(** [vin_formats_table]: the formats of the write line, then those of the
    ISP line. *)
Definition vin_formats_table : list (list vin_format) :=
  [ vin_formats_wr; vin_formats_uo ].

Definition __vin_get_format (store : vin_fmt_store) (pad : vin_pad)
                            (which : v4l2_subdev_format_whence)
  : v4l2_mbus_framefmt :=
  match which, pad with
  | V4L2_SUBDEV_FORMAT_TRY, STF_VIN_PAD_SINK => try_sink store
  | V4L2_SUBDEV_FORMAT_TRY, STF_VIN_PAD_SRC => try_src store
  | V4L2_SUBDEV_FORMAT_ACTIVE, STF_VIN_PAD_SINK => active_sink store
  | V4L2_SUBDEV_FORMAT_ACTIVE, STF_VIN_PAD_SRC => active_src store
  end.

(** [*__vin_get_format(line, state, pad, which) = f] *)
Definition store_format (store : vin_fmt_store) (pad : vin_pad)
                        (which : v4l2_subdev_format_whence)
                        (f : v4l2_mbus_framefmt) : vin_fmt_store :=
  match which, pad with
  | V4L2_SUBDEV_FORMAT_TRY, STF_VIN_PAD_SINK =>
      mk_fmt_store (active_sink store) (active_src store) f (try_src store)
  | V4L2_SUBDEV_FORMAT_TRY, STF_VIN_PAD_SRC =>
      mk_fmt_store (active_sink store) (active_src store) (try_sink store) f
  | V4L2_SUBDEV_FORMAT_ACTIVE, STF_VIN_PAD_SINK =>
      mk_fmt_store f (active_src store) (try_sink store) (try_src store)
  | V4L2_SUBDEV_FORMAT_ACTIVE, STF_VIN_PAD_SRC =>
      mk_fmt_store (active_sink store) f (try_sink store) (try_src store)
  end.

(** [formats] is [line->formats], of length [line->nformats]; the result
    is [*fmt] after the call. *)
Definition vin_try_format (formats : list vin_format) (store : vin_fmt_store)
                          (pad : vin_pad) (fmt : v4l2_mbus_framefmt)
                          (which : v4l2_subdev_format_whence)
  : v4l2_mbus_framefmt :=
  let fmt1 :=
    match pad with
    | STF_VIN_PAD_SINK =>
        (* Set format on sink pad *)
        let i := find_code (mbus_code fmt) formats 0 in
        let code :=
          if (length formats <=? i)%nat
          then vf_code (format_at formats 0)
          else mbus_code fmt in
        mk_framefmt
          (clamp_t_u32 (mbus_width fmt) STFCAMSS_FRAME_MIN_WIDTH
                       STFCAMSS_FRAME_MAX_WIDTH)
          (clamp_t_u32 (mbus_height fmt) STFCAMSS_FRAME_MIN_HEIGHT
                       STFCAMSS_FRAME_MAX_HEIGHT)
          code V4L2_FIELD_NONE V4L2_COLORSPACE_SRGB
          (mbus_ycbcr_enc fmt) (mbus_quantization fmt) (mbus_xfer_func fmt)
          0
    | STF_VIN_PAD_SRC =>
        (* Set and return a format same as sink pad *)
        __vin_get_format store STF_VIN_PAD_SINK which
    end in
  set_mbus_colorspace fmt1 V4L2_COLORSPACE_SRGB.

Definition vin_enum_mbus_code (formats : list vin_format)
                              (store : vin_fmt_store)
                              (code : v4l2_subdev_mbus_code_enum)
  : retcode * v4l2_subdev_mbus_code_enum :=
  if Z.of_nat (length formats) <=? ce_index code then (RET_EINVAL, code)
  else
    match ce_pad code with
    | STF_VIN_PAD_SINK =>
        (RET_OK,
         mk_code_enum (ce_pad code) (ce_index code)
           (vf_code (format_at formats (Z.to_nat (ce_index code))))
           0 (ce_which code))
    | _ =>
        let sink_fmt :=
          __vin_get_format store STF_VIN_PAD_SINK (ce_which code) in
        if mbus_code sink_fmt =? 0
        then (RET_EINVAL,
              mk_code_enum (ce_pad code) (ce_index code)
                (mbus_code sink_fmt) (ce_flags code) (ce_which code))
        else (RET_OK,
              mk_code_enum (ce_pad code) (ce_index code)
                (mbus_code sink_fmt) 0 (ce_which code))
    end.

(** The local [format] of [vin_enum_frame_size] with its [code], [width]
    and [height] assigned; its other fields are not read before
    [vin_try_format] overwrites them. *)
Definition probe_format (code w h : Z) : v4l2_mbus_framefmt :=
  mk_framefmt w h code 0 0 0 0 0 0.

Definition vin_enum_frame_size (formats : list vin_format)
                               (store : vin_fmt_store)
                               (fse : v4l2_subdev_frame_size_enum)
  : retcode * v4l2_subdev_frame_size_enum :=
  if negb (fse_index fse =? 0) then (RET_EINVAL, fse)
  else
    let format :=
      vin_try_format formats store (fse_pad fse)
                     (probe_format (fse_code fse) 1 1) (fse_which fse) in
    let fse1 :=
      mk_size_enum (fse_index fse) (fse_pad fse) (fse_code fse)
                   (mbus_width format) (fse_max_width fse)
                   (mbus_height format) (fse_max_height fse)
                   (fse_which fse) in
    if negb (mbus_code format =? fse_code fse) then (RET_EINVAL, fse1)
    else
      let format2 :=
        vin_try_format formats store (fse_pad fse)
          (mk_framefmt (u32 (-1)) (u32 (-1)) (fse_code fse)
                       (mbus_field format) (mbus_colorspace format)
                       (mbus_ycbcr_enc format) (mbus_quantization format)
                       (mbus_xfer_func format) (mbus_flags format))
          (fse_which fse) in
      (RET_OK,
       mk_size_enum (fse_index fse1) (fse_pad fse1) (fse_code fse1)
                    (fse_min_width fse1) (mbus_width format2)
                    (fse_min_height fse1) (mbus_height format2)
                    (fse_which fse1)).

Definition vin_get_format (store : vin_fmt_store) (fmt : v4l2_subdev_format)
  : retcode * v4l2_subdev_format :=
  (RET_OK,
   mk_subdev_format (sf_which fmt) (sf_pad fmt)
                    (__vin_get_format store (sf_pad fmt) (sf_which fmt))).

(** [line] gives [line->stream_count]; the result is the return value, the
    formats stored afterwards and [*fmt] after the call. *)
Definition vin_set_format (line : vin_line) (formats : list vin_format)
                          (store : vin_fmt_store) (fmt : v4l2_subdev_format)
  : retcode * vin_fmt_store * v4l2_subdev_format :=
  if negb (stream_count line =? 0) then
    (RET_OK, store,
     mk_subdev_format (sf_which fmt) (sf_pad fmt)
                      (__vin_get_format store (sf_pad fmt) (sf_which fmt)))
  else
    let f := vin_try_format formats store (sf_pad fmt) (sf_format fmt)
                            (sf_which fmt) in
    let store1 := store_format store (sf_pad fmt) (sf_which fmt) f in
    let fmt1 := mk_subdev_format (sf_which fmt) (sf_pad fmt) f in
    match sf_pad fmt with
    | STF_VIN_PAD_SINK =>
        (* Propagate the format from sink to source *)
        let store2 :=
          store_format store1 STF_VIN_PAD_SRC (sf_which fmt) f in
        let src :=
          vin_try_format formats store2 STF_VIN_PAD_SRC
            (__vin_get_format store2 STF_VIN_PAD_SRC (sf_which fmt))
            (sf_which fmt) in
        (RET_OK, store_format store2 STF_VIN_PAD_SRC (sf_which fmt) src,
         fmt1)
    | _ => (RET_OK, store1, fmt1)
    end.

(** [with_fh] tells whether [fh] is non-NULL. *)
Definition vin_init_formats (line : vin_line) (formats : list vin_format)
                            (store : vin_fmt_store) (with_fh : bool)
  : retcode * vin_fmt_store * v4l2_subdev_format :=
  vin_set_format line formats store
    (mk_subdev_format
       (if with_fh then V4L2_SUBDEV_FORMAT_TRY
        else V4L2_SUBDEV_FORMAT_ACTIVE)
       STF_VIN_PAD_SINK
       (mk_framefmt 1920 1080 MEDIA_BUS_FMT_RGB565_2X8_LE 0 0 0 0 0 0)).

(** The frame limits are unsigned 32-bit values in increasing order. *)
Definition frame_limits_ok : Prop :=
  0 <= STFCAMSS_FRAME_MIN_WIDTH <= STFCAMSS_FRAME_MAX_WIDTH
  /\ STFCAMSS_FRAME_MAX_WIDTH < 2 ^ 32
  /\ 0 <= STFCAMSS_FRAME_MIN_HEIGHT <= STFCAMSS_FRAME_MAX_HEIGHT
  /\ STFCAMSS_FRAME_MAX_HEIGHT < 2 ^ 32.

End Formats.

(** ** The link of a line: [vin_get_link]

    The media graph as the function reads it.  An entity is known by a
    number; for each entity the graph gives whether [pads[0]] is a sink
    pad, the entity [media_pad_remote_pad_first(&pads[0])] leads to (if
    any), whether the entity is a V4L2 subdevice, and the name of its
    subdevice.  The three name prefixes of stf_camss.h are parameters. *)
Record media_entity := mk_entity {
  pad0_is_sink : bool;
  pad0_remote : option nat;
  is_v4l2_subdev : bool;
  subdev_name : String.string
}.

Class stf_names_h := {
  STF_CSI_NAME : String.string;
  STF_DVP_NAME : String.string;
  STF_ISP_NAME : String.string
}.

Section Link.
Context {names : stf_names_h}.

(** [!strncmp(name, prefix, strlen(prefix))] *)
Definition has_prefix (name pre : String.string) : bool :=
  String.prefix pre name.

(** The [while (1)] loop of [vin_get_link], with [fuel] bounding the
    number of iterations; [None] when the fuel runs out. *)
Fixpoint vin_get_link_loop (fuel : nat) (graph : nat -> media_entity)
                           (entity : nat) (isp : bool) : option link :=
  match fuel with
  | O => None
  | S fuel' =>
      if negb (pad0_is_sink (graph entity)) then Some LINK_ERROR
      else
        match pad0_remote (graph entity) with
        | None => Some LINK_ERROR
        | Some remote =>
            if negb (is_v4l2_subdev (graph remote)) then Some LINK_ERROR
            else
              let name := subdev_name (graph remote) in
              if has_prefix name STF_CSI_NAME then
                Some (if isp then LINK_CSI_TO_ISP else LINK_CSI_TO_WR)
              else if has_prefix name STF_DVP_NAME then
                Some (if isp then LINK_DVP_TO_ISP else LINK_DVP_TO_WR)
              else if has_prefix name STF_ISP_NAME then
                vin_get_link_loop fuel' graph remote true
              else Some LINK_ERROR
        end
  end.

Definition vin_get_link (fuel : nat) (graph : nat -> media_entity)
                        (entity : nat) : option link :=
  vin_get_link_loop fuel graph entity false.

(** One step upstream: [pads[0]] of [e] is a sink pad whose first remote
    pad belongs to the subdevice [r]. *)
Definition hop (graph : nat -> media_entity) (e r : nat) : Prop :=
  pad0_is_sink (graph e) = true
  /\ pad0_remote (graph e) = Some r
  /\ is_v4l2_subdev (graph r) = true.

(** [e] followed upstream through the entities of [path], in order. *)
Fixpoint walk (graph : nat -> media_entity) (e : nat) (path : list nat)
  : Prop :=
  match path with
  | [] => True
  | r :: rest => hop graph e r /\ walk graph r rest
  end.

(** An entity the loop passes through: named as an ISP, and as neither a
    CSI nor a DVP. *)
Definition is_isp (graph : nat -> media_entity) (e : nat) : Prop :=
  has_prefix (subdev_name (graph e)) STF_CSI_NAME = false
  /\ has_prefix (subdev_name (graph e)) STF_DVP_NAME = false
  /\ has_prefix (subdev_name (graph e)) STF_ISP_NAME = true.

(** The link the loop reports when it stops at entity [e], having passed
    an ISP or not: [None] when [e] is neither a CSI nor a DVP. *)
Definition source_link (graph : nat -> media_entity) (e : nat) (isp : bool)
  : option link :=
  if has_prefix (subdev_name (graph e)) STF_CSI_NAME then
    Some (if isp then LINK_CSI_TO_ISP else LINK_CSI_TO_WR)
  else if has_prefix (subdev_name (graph e)) STF_DVP_NAME then
    Some (if isp then LINK_DVP_TO_ISP else LINK_DVP_TO_WR)
  else None.

End Link.

(** ** Example data

    The enumerators of the header as the driver numbers its two lines (the
    write line is line 0, the ISP line is line 1), three descriptors, and
    the lines the closed examples below start from. *)

Definition stf_vin_h_two_lines : stf_vin_h :=
  {| VIN_LINE_WR := 0; VIN_LINE_ISP := 1; VIN_LINE_MAX := 2 |}.

Definition buf_A : stfcamss_buffer := mk_buffer 1 0 0 4096 6144.
Definition buf_B : stfcamss_buffer := mk_buffer 2 0 0 8192 10240.
Definition buf_C : stfcamss_buffer := mk_buffer 3 0 0 12288 14336.

(** A line that is off with both queues, both slots and the last buffer
    empty and all counters at zero. *)
Definition line_zero (line_id : Z) : vin_line :=
  mk_line line_id
          (mk_output false None None None [] [] VIN_OUTPUT_OFF 0) 0 0.

(** The write line streaming with [buf_A] in slot 0. *)
Definition line_single_A : vin_line :=
  mk_line 0 (mk_output false (Some buf_A) None None [] []
                       VIN_OUTPUT_SINGLE 0) 1 1.

(** The write line streaming with [buf_A] in slot 0 and [buf_B] pending. *)
Definition line_single_A_pending_B : vin_line :=
  mk_line 0 (mk_output false (Some buf_A) None None [buf_B] []
                       VIN_OUTPUT_SINGLE 0) 1 1.

(** The write line stopped on [buf_A]. *)
Definition line_stopping_A : vin_line :=
  mk_line 0 (mk_output false None None (Some buf_A) [] []
                       VIN_OUTPUT_STOPPING 0) 1 1.

(** The write line with two descriptors awaiting completion. *)
Definition line_ready_AB : vin_line :=
  mk_line 0 (mk_output false (Some buf_C) None None [] [buf_A; buf_B]
                       VIN_OUTPUT_SINGLE 7) 1 1.

(** The write line streaming with both slots empty and [buf_B] pending. *)
Definition line_underflow : vin_line :=
  mk_line 0 (mk_output false None None None [buf_B] []
                       VIN_OUTPUT_SINGLE 0) 1 1.

(** Two buffers queued on a running line, then rotation and completion
    events. *)
Definition ops_queue_BC : list op :=
  [op_queue_buffer buf_B; op_queue_buffer buf_C; op_change_buffer;
   op_buffer_done 5; op_change_buffer].

Definition dev_zero : stf_vin_dev := mk_dev 0 (fun _ => 0).


(** Rotation and completion events only. *)
Definition ops_irq : list op :=
  [op_change_buffer; op_buffer_done 3; op_change_buffer].

(** A buffer queued and completed, a second one queued, then a flush. *)
Definition ops_queue_flush : list op :=
  [op_queue_buffer buf_B; op_change_buffer; op_buffer_done 5;
   op_change_buffer; op_queue_buffer buf_C;
   op_flush_buffers VB2_BUF_STATE_ERROR].

(** Two completion events with a rotation in between. *)
Definition ops_done_twice : list op :=
  [op_buffer_done 10; op_change_buffer; op_buffer_done 11].

(** Frame limits 64..1920 by 64..1080 and the codes of the V4L2 headers. *)
Definition stfcamss_h_example : stfcamss_h :=
  {| STFCAMSS_FRAME_MIN_WIDTH := 64;
     STFCAMSS_FRAME_MAX_WIDTH := 1920;
     STFCAMSS_FRAME_MIN_HEIGHT := 64;
     STFCAMSS_FRAME_MAX_HEIGHT := 1080;
     V4L2_FIELD_NONE := 1;
     V4L2_COLORSPACE_SRGB := 8;
     MEDIA_BUS_FMT_SRGGB10_1X10 := 12303;
     MEDIA_BUS_FMT_SGRBG10_1X10 := 12298;
     MEDIA_BUS_FMT_SGBRG10_1X10 := 12302;
     MEDIA_BUS_FMT_SBGGR10_1X10 := 12295;
     MEDIA_BUS_FMT_Y12_1X12 := 8211;
     MEDIA_BUS_FMT_RGB565_2X8_LE := 4104 |}.

Definition fmt_zero : v4l2_mbus_framefmt := mk_framefmt 0 0 0 0 0 0 0 0 0.

(** A request for 4000 x 20 in a code the write line does not have. *)
Definition fmt_request : v4l2_mbus_framefmt :=
  mk_framefmt 4000 20 4104 0 0 0 0 0 0.

(** 1280 x 720 SGRBG10 stored on both active pads. *)
Definition fmt_720p : v4l2_mbus_framefmt :=
  mk_framefmt 1280 720 12298 1 8 0 0 0 0.

Definition store_720p : vin_fmt_store :=
  mk_fmt_store fmt_720p fmt_720p fmt_zero fmt_zero.

Definition stf_names_h_example : stf_names_h :=
  {| STF_CSI_NAME := "stf_csi"%string;
     STF_DVP_NAME := "stf_dvp"%string;
     STF_ISP_NAME := "stf_isp"%string |}.

(** Entity 0 is a VIN line fed by the ISP (entity 1), which is fed by the
    CSI receiver (entity 2). *)
Definition graph_csi_isp (e : nat) : media_entity :=
  match e with
  | O => mk_entity true (Some 1%nat) true "stf_vin0_isp0"%string
  | S O => mk_entity true (Some 2%nat) true "stf_isp0"%string
  | _ => mk_entity true None true "stf_csi0"%string
  end.

(** * Properties *)

(** Comparing how often a descriptor occurs in two lists of descriptors
    built with [++] and [::]. *)
Ltac held_tac :=
  unfold held, outstanding; simpl;
  repeat (rewrite map_app || rewrite count_occ_app); simpl;
  repeat match goal with
         | |- context [Nat.eq_dec ?a ?b] => destruct (Nat.eq_dec a b)
         end;
  simpl; lia.

Section Properties.
Context {hdr : stf_vin_h}.

(** ** Helpers *)

Lemma vin_buf_flush_queue_spec (q : list stfcamss_buffer)
                                (st : vb2_buffer_state) :
  vin_buf_flush_queue q st = ([], map (fun b => vb2_buffer_done b st) q).
Proof.
  induction q as [|b q IH]; simpl; [reflexivity|].
  rewrite IH. reflexivity.
Qed.

Lemma returned_app (e1 e2 : list event) :
  returned (e1 ++ e2) = returned e1 ++ returned e2.
Proof. unfold returned. apply flat_map_app. Qed.

Lemma dma_writes_app (e1 e2 : list event) :
  dma_writes (e1 ++ e2) = dma_writes e1 ++ dma_writes e2.
Proof. unfold dma_writes. apply filter_app. Qed.

Lemma returned_done_map (q : list stfcamss_buffer) (st : vb2_buffer_state) :
  returned (map (fun b => vb2_buffer_done b st) q)
  = map (fun b => (b, st)) q.
Proof. induction q as [|b q IH]; simpl; [|rewrite IH]; reflexivity. Qed.

Lemma dma_writes_done_map (q : list stfcamss_buffer) (st : vb2_buffer_state) :
  dma_writes (map (fun b => vb2_buffer_done b st) q) = [].
Proof. induction q as [|b q IH]; simpl; auto. Qed.

Lemma opt_done_map (b : option stfcamss_buffer) (st : vb2_buffer_state) :
  opt_done b st = map (fun x => vb2_buffer_done x st) (opt_list b).
Proof. destruct b; reflexivity. Qed.

Lemma vin_set_addrs_dma (line_id a0 a1 : Z) :
  dma_writes (vin_set_addrs line_id a0 a1) = vin_set_addrs line_id a0 a1.
Proof.
  unfold vin_set_addrs.
  destruct (vin_map_isp_line line_id); [destruct (line_id =? VIN_LINE_WR)|];
    reflexivity.
Qed.

Lemma vin_set_addrs_returned (line_id a0 a1 : Z) :
  returned (vin_set_addrs line_id a0 a1) = [].
Proof.
  unfold vin_set_addrs.
  destruct (vin_map_isp_line line_id); [destruct (line_id =? VIN_LINE_WR)|];
    reflexivity.
Qed.

(** On a line of the driver the address pair reaches the registers. *)
Lemma vin_set_addrs_ok (line_id a0 a1 : Z) :
  line_id_ok line_id ->
  vin_set_addrs line_id a0 a1
  = (if line_id =? VIN_LINE_WR
     then [stf_vin_wr_set_ping_addr a0; stf_vin_wr_set_pong_addr a0]
     else [stf_vin_isp_set_yuv_addr a0 a1]).
Proof.
  unfold line_id_ok, vin_set_addrs, vin_map_isp_line.
  intros [->|[Hlo Hhi]].
  - rewrite Z.ltb_irrefl, Z.eqb_refl. reflexivity.
  - apply Z.ltb_lt in Hhi. rewrite Hhi.
    assert (Hne : (line_id =? VIN_LINE_WR) = false) by (apply Z.eqb_neq; lia).
    apply Z.ltb_lt in Hlo. rewrite Hlo, Hne. reflexivity.
Qed.

(** ** Flush *)

(** C1, with the output state left as it is.  From every output state and for every content of the
    queues, the slots and the frozen last buffer, [vin_flush_buffers] hands
    each outstanding descriptor to [vb2_buffer_done] exactly once, with the
    given state, in the order pending, ready, slot 0, slot 1, last buffer;
    it makes no other call, empties both queues, clears both slots and the
    last buffer, and leaves the output state as it found it (the state is
    set to OFF by [vin_disable_output], not by the flush). *)
Theorem vin_flush_buffers_returns_outstanding
        (line : vin_line) (st : vb2_buffer_state) :
  let line' := fst (vin_flush_buffers line st) in
  let evs := snd (vin_flush_buffers line st) in
  evs = map (fun b => vb2_buffer_done b st) (outstanding (output line))
  /\ returned evs = map (fun b => (b, st)) (outstanding (output line))
  /\ dma_writes evs = []
  /\ pending_bufs (output line') = []
  /\ ready_bufs (output line') = []
  /\ buf0 (output line') = None
  /\ buf1 (output line') = None
  /\ last_buffer (output line') = None
  /\ state (output line') = state (output line)
  /\ active_buf (output line') = active_buf (output line)
  /\ sequence (output line') = sequence (output line).
Proof.
  destruct line as [i [a b0 b1 lb p r s q] sc pc].
  unfold vin_flush_buffers, vin_buf_flush, outstanding; simpl.
  rewrite !vin_buf_flush_queue_spec; simpl.
  rewrite !opt_done_map, <- !map_app, <- !app_assoc.
  split; [reflexivity|].
  split; [apply returned_done_map|].
  split; [apply dma_writes_done_map|].
  repeat split.
Qed.

(** ** Rotation *)

(** The handler with the pending queue empty, in state SINGLE. *)
Lemma vin_change_buffer_last_single (line : vin_line) (rb : stfcamss_buffer) :
  state (output line) = VIN_OUTPUT_SINGLE ->
  get_buf (output line) (active_buf (output line)) = Some rb ->
  pending_bufs (output line) = [] ->
  vin_change_buffer line
  = (set_output line
       (set_last_buffer
          (set_state (set_buf (output line) (active_buf (output line)) None)
                     VIN_OUTPUT_STOPPING)
          (Some rb)),
     []).
Proof.
  destruct line as [i [a b0 b1 lb p r s q] sc pc]; simpl.
  intros -> Hb ->. unfold vin_change_buffer; simpl.
  destruct a; simpl in *; rewrite Hb; reflexivity.
Qed.

(** The handler with the pending queue empty, in state CONTINUOUS. *)
Lemma vin_change_buffer_last_continuous
      (line : vin_line) (rb : stfcamss_buffer) :
  state (output line) = VIN_OUTPUT_CONTINUOUS ->
  get_buf (output line) (active_buf (output line)) = Some rb ->
  pending_bufs (output line) = [] ->
  vin_change_buffer line
  = (set_output line
       (vin_buf_add_ready
          (set_active_buf
             (set_state
                (set_buf (output line) (active_buf (output line)) None)
                VIN_OUTPUT_SINGLE)
             (negb (active_buf (output line))))
          rb),
     vin_set_addrs (id line) (addr0 rb) (addr1 rb)).
Proof.
  destruct line as [i [a b0 b1 lb p r s q] sc pc]; simpl.
  intros -> Hb ->. unfold vin_change_buffer; simpl.
  destruct a; simpl in *; rewrite Hb; reflexivity.
Qed.

(** The handler with a pending descriptor, in state SINGLE. *)
Lemma vin_change_buffer_next_single
      (line : vin_line) (rb nb : stfcamss_buffer)
      (rest : list stfcamss_buffer) :
  state (output line) = VIN_OUTPUT_SINGLE ->
  get_buf (output line) (active_buf (output line)) = Some rb ->
  pending_bufs (output line) = nb :: rest ->
  vin_change_buffer line
  = (set_output line
       (vin_buf_add_ready
          (set_buf (set_pending_bufs (output line) rest)
                   (active_buf (output line)) (Some nb))
          rb),
     vin_set_addrs (id line) (addr0 nb) (addr1 nb)).
Proof.
  destruct line as [i [a b0 b1 lb p r s q] sc pc]; simpl.
  intros -> Hb ->. unfold vin_change_buffer; simpl.
  destruct a; simpl in *; rewrite Hb; reflexivity.
Qed.

(** The handler with a pending descriptor, in state CONTINUOUS. *)
Lemma vin_change_buffer_next_continuous
      (line : vin_line) (rb nb : stfcamss_buffer)
      (rest : list stfcamss_buffer) :
  state (output line) = VIN_OUTPUT_CONTINUOUS ->
  get_buf (output line) (active_buf (output line)) = Some rb ->
  pending_bufs (output line) = nb :: rest ->
  vin_change_buffer line
  = (set_output line
       (vin_buf_add_ready
          (set_active_buf
             (set_buf (set_pending_bufs (output line) rest)
                      (active_buf (output line)) (Some nb))
             (negb (active_buf (output line))))
          rb),
     vin_set_addrs (id line) (addr0 nb) (addr1 nb)).
Proof.
  destruct line as [i [a b0 b1 lb p r s q] sc pc]; simpl.
  intros -> Hb ->. unfold vin_change_buffer; simpl.
  destruct a; simpl in *; rewrite Hb; reflexivity.
Qed.

Lemma running_cases (st : vin_output_state) :
  running st = true ->
  st = VIN_OUTPUT_SINGLE \/ st = VIN_OUTPUT_CONTINUOUS.
Proof. destruct st; simpl; intros; try discriminate; auto. Qed.

(** C2.  The rotation handler in state SINGLE or CONTINUOUS, with a
    descriptor [rb] in the active slot, on a line of the driver.  It
    returns no descriptor to videobuf2.  With the pending queue empty the
    active slot is emptied and the on-last-buffer transition is applied:
    CONTINUOUS becomes SINGLE with the active index toggled, the address of
    [rb] is written again and [rb] joins the ready queue; SINGLE becomes
    STOPPING, nothing is written to the DMA address sink and [rb] is kept as
    [last_buffer], the ready queue being left alone.  With a pending
    descriptor [nb], [nb] leaves the pending queue for the active slot, its
    addresses are written to the DMA address sink, the on-next-buffer
    transition is applied (the state is kept; CONTINUOUS toggles the active
    index, SINGLE does not) and [rb] is appended to the ready queue. *)
Theorem vin_change_buffer_rotation (line : vin_line) (rb : stfcamss_buffer) :
  running (state (output line)) = true ->
  get_buf (output line) (active_buf (output line)) = Some rb ->
  line_id_ok (id line) ->
  let out := output line in
  let a := active_buf out in
  let out' := output (fst (vin_change_buffer line)) in
  let evs := snd (vin_change_buffer line) in
  returned evs = []
  /\ get_buf out' (negb a) = get_buf out (negb a)
  /\ match pending_bufs out with
     | [] =>
         get_buf out' a = None
         /\ pending_bufs out' = []
         /\ match state out with
            | VIN_OUTPUT_CONTINUOUS =>
                state out' = VIN_OUTPUT_SINGLE
                /\ active_buf out' = negb a
                /\ dma_writes evs = install_writes (id line) rb
                /\ ready_bufs out' = ready_bufs out ++ [rb]
                /\ last_buffer out' = last_buffer out
            | _ =>
                state out' = VIN_OUTPUT_STOPPING
                /\ active_buf out' = a
                /\ dma_writes evs = []
                /\ last_buffer out' = Some rb
                /\ ready_bufs out' = ready_bufs out
            end
     | nb :: rest =>
         pending_bufs out' = rest
         /\ get_buf out' a = Some nb
         /\ dma_writes evs = install_writes (id line) nb
         /\ state out' = state out
         /\ active_buf out'
            = match state out with
              | VIN_OUTPUT_CONTINUOUS => negb a
              | _ => a
              end
         /\ ready_bufs out' = ready_bufs out ++ [rb]
         /\ last_buffer out' = last_buffer out
     end.
Proof.
  intros Hrun Hb Hid. cbv zeta.
  destruct (pending_bufs (output line)) as [|nb rest] eqn:Hp;
    destruct (running_cases _ Hrun) as [Hs|Hs].
  - rewrite (vin_change_buffer_last_single line rb Hs Hb Hp).
    rewrite Hs.
    destruct line as [i [a b0 b1 lb p r s q] sc pc]; simpl in *; subst.
    destruct a; simpl; repeat split; reflexivity.
  - rewrite (vin_change_buffer_last_continuous line rb Hs Hb Hp).
    rewrite Hs.
    destruct line as [i [a b0 b1 lb p r s q] sc pc]; simpl in *; subst.
    rewrite vin_set_addrs_dma, vin_set_addrs_returned,
      (vin_set_addrs_ok _ _ _ Hid).
    destruct a; simpl; repeat split; reflexivity.
  - rewrite (vin_change_buffer_next_single line rb nb rest Hs Hb Hp).
    rewrite Hs.
    destruct line as [i [a b0 b1 lb p r s q] sc pc]; simpl in *; subst.
    rewrite vin_set_addrs_dma, vin_set_addrs_returned,
      (vin_set_addrs_ok _ _ _ Hid).
    destruct a; simpl; repeat split; reflexivity.
  - rewrite (vin_change_buffer_next_continuous line rb nb rest Hs Hb Hp).
    rewrite Hs.
    destruct line as [i [a b0 b1 lb p r s q] sc pc]; simpl in *; subst.
    rewrite vin_set_addrs_dma, vin_set_addrs_returned,
      (vin_set_addrs_ok _ _ _ Hid).
    destruct a; simpl; repeat split; reflexivity.
Qed.

(** ** Completion *)

Lemma seq_after_succ_l (s : Z) (n : nat) :
  seq_after (u32 (s + 1)) n = seq_after s (S n).
Proof.
  unfold seq_after. induction n as [|n IH]; simpl in *; [reflexivity|].
  rewrite IH. reflexivity.
Qed.

Lemma seq_after_no_wrap (s : Z) (n : nat) :
  0 <= s -> s + Z.of_nat n < 2 ^ 32 -> seq_after s n = s + Z.of_nat n.
Proof.
  intros Hs. induction n as [|n IH]; intros Hn.
  - simpl. lia.
  - unfold seq_after in *. simpl Nat.iter. rewrite IH by lia.
    unfold u32. rewrite Z.mod_small; lia.
Qed.

Lemma stamp_queue_length (ts s : Z) (q : list stfcamss_buffer) :
  length (stamp_queue ts s q) = length q.
Proof.
  revert s. induction q as [|b q IH]; intros s; simpl; [|rewrite IH];
    reflexivity.
Qed.

Lemma stamp_queue_nth (ts : Z) (q : list stfcamss_buffer) :
  forall (s : Z) (i : nat),
    nth_error (stamp_queue ts s q) i
    = option_map (stamp ts (seq_after s i)) (nth_error q i).
Proof.
  induction q as [|b q IH]; intros s i.
  - destruct i; reflexivity.
  - destruct i as [|i]; simpl; [reflexivity|].
    rewrite IH, seq_after_succ_l. reflexivity.
Qed.

(** With more fuel than the ready queue has entries the loop empties the
    queue: it never stops for lack of fuel. *)
Lemma vin_buffer_done_loop_spec (ts : Z) :
  forall (fuel : nat) (out : vin_output),
    (length (ready_bufs out) < fuel)%nat ->
    vin_buffer_done_loop fuel ts out
    = (set_sequence (set_ready_bufs out [])
                    (seq_after (sequence out) (length (ready_bufs out))),
       map (fun b => vb2_buffer_done b VB2_BUF_STATE_DONE)
           (stamp_queue ts (sequence out) (ready_bufs out))).
Proof.
  induction fuel as [|fuel IH]; intros out Hlen; [lia|].
  destruct out as [a b0 b1 lb p r s q].
  destruct r as [|b r]; simpl in *; [reflexivity|].
  unfold vin_buf_get_ready; simpl.
  rewrite IH by (simpl; lia). simpl.
  rewrite seq_after_succ_l. reflexivity.
Qed.

Lemma vin_buffer_done_active (line : vin_line) (ts : Z) :
  state (output line) <> VIN_OUTPUT_OFF ->
  state (output line) <> VIN_OUTPUT_RESERVED ->
  vin_buffer_done line ts
  = (set_output line
       (set_sequence (set_ready_bufs (output line) [])
          (seq_after (sequence (output line))
                     (length (ready_bufs (output line))))),
     map (fun b => vb2_buffer_done b VB2_BUF_STATE_DONE)
         (stamp_queue ts (sequence (output line))
                      (ready_bufs (output line)))).
Proof.
  intros Hoff Hres. unfold vin_buffer_done.
  rewrite vin_buffer_done_loop_spec by lia.
  destruct (state (output line)); try reflexivity; congruence.
Qed.

(** C3.  The completion handler called with the timestamp [ts] read at
    entry.  In state OFF or RESERVED it leaves the line as it is and makes
    no call.  In every other state it empties the ready queue and changes
    nothing else but the sequence counter; it calls nothing but
    [vb2_buffer_done], once per descriptor of the ready queue and in queue
    order, each time with VB2_BUF_STATE_DONE; the i-th descriptor returned
    carries the timestamp [ts] and the value of the counter after [i]
    increments, each increment being [+ 1] on an unsigned 32-bit counter
    (so the numbers are [sequence], [sequence + 1], ... as long as the
    counter does not pass 2^32 - 1). *)
Theorem vin_buffer_done_drains_ready (line : vin_line) (ts : Z) :
  let out := output line in
  let line' := fst (vin_buffer_done line ts) in
  let evs := snd (vin_buffer_done line ts) in
  match state out with
  | VIN_OUTPUT_OFF | VIN_OUTPUT_RESERVED => line' = line /\ evs = []
  | _ =>
      line' = set_output line
                (set_sequence (set_ready_bufs out [])
                   (seq_after (sequence out) (length (ready_bufs out))))
      /\ evs = map (fun r => vb2_buffer_done (fst r) (snd r)) (returned evs)
      /\ length (returned evs) = length (ready_bufs out)
      /\ (forall (i : nat) (b : stfcamss_buffer),
             nth_error (ready_bufs out) i = Some b ->
             nth_error (returned evs) i
             = Some (stamp ts (seq_after (sequence out) i) b,
                     VB2_BUF_STATE_DONE))
      /\ (forall i : nat,
             seq_after (sequence out) (S i)
             = u32 (seq_after (sequence out) i + 1))
      /\ (0 <= sequence out ->
          sequence out + Z.of_nat (length (ready_bufs out)) < 2 ^ 32 ->
          forall i : nat,
            (i <= length (ready_bufs out))%nat ->
            seq_after (sequence out) i = sequence out + Z.of_nat i)
  end.
Proof.
  cbv zeta.
  assert (Hact :
    state (output line) <> VIN_OUTPUT_OFF ->
    state (output line) <> VIN_OUTPUT_RESERVED ->
    fst (vin_buffer_done line ts)
    = set_output line
        (set_sequence (set_ready_bufs (output line) [])
           (seq_after (sequence (output line))
                      (length (ready_bufs (output line)))))
    /\ snd (vin_buffer_done line ts)
       = map (fun r => vb2_buffer_done (fst r) (snd r))
             (returned (snd (vin_buffer_done line ts)))
    /\ length (returned (snd (vin_buffer_done line ts)))
       = length (ready_bufs (output line))
    /\ (forall (i : nat) (b : stfcamss_buffer),
           nth_error (ready_bufs (output line)) i = Some b ->
           nth_error (returned (snd (vin_buffer_done line ts))) i
           = Some (stamp ts (seq_after (sequence (output line)) i) b,
                   VB2_BUF_STATE_DONE))
    /\ (forall i : nat,
           seq_after (sequence (output line)) (S i)
           = u32 (seq_after (sequence (output line)) i + 1))
    /\ (0 <= sequence (output line) ->
        sequence (output line)
        + Z.of_nat (length (ready_bufs (output line))) < 2 ^ 32 ->
        forall i : nat,
          (i <= length (ready_bufs (output line)))%nat ->
          seq_after (sequence (output line)) i
          = sequence (output line) + Z.of_nat i)).
  { intros Hoff Hres.
    rewrite (vin_buffer_done_active line ts Hoff Hres); simpl.
    rewrite returned_done_map.
    split; [reflexivity|].
    split; [rewrite map_map; reflexivity|].
    split; [rewrite length_map; apply stamp_queue_length|].
    split.
    { intros i b Hb.
      rewrite nth_error_map, stamp_queue_nth, Hb. reflexivity. }
    split; [intros i; reflexivity|].
    intros Hs Hn i Hi. apply seq_after_no_wrap; lia. }
  destruct (state (output line)) eqn:Hs;
    try (apply Hact; congruence);
    unfold vin_buffer_done; rewrite Hs; split; reflexivity.
Qed.

(** ** Rotation: gate and underflow *)

(** C5.  The rotation handler changes nothing and makes no call in state
    OFF, STOPPING, RESERVED or IDLE.  In state SINGLE or CONTINUOUS with the
    active slot empty it reports the missing descriptor and then: when the
    other slot holds a descriptor [rb], it rotates that slot exactly as it
    would had that slot been the active one (the slot takes the head of the
    pending queue, [rb] goes to the ready queue or is kept as
    [last_buffer]); when both slots are empty it reports a second time and
    returns with the line unchanged, nothing written to the DMA address sink
    and nothing returned to videobuf2. *)
Theorem vin_change_buffer_gate_and_underflow (line : vin_line) :
  let out := output line in
  let a := active_buf out in
  (state out = VIN_OUTPUT_OFF \/ state out = VIN_OUTPUT_STOPPING
   \/ state out = VIN_OUTPUT_RESERVED \/ state out = VIN_OUTPUT_IDLE ->
   vin_change_buffer line = (line, []))
  /\ (running (state out) = true ->
      get_buf out a = None ->
      match get_buf out (negb a) with
      | Some rb =>
          let r := vin_change_buffer (other_slot_active line) in
          let out' := output (fst (vin_change_buffer line)) in
          fst (vin_change_buffer line) = other_slot_active (fst r)
          /\ snd (vin_change_buffer line)
             = dev_warn (missing_ready_buf a (state out)) :: snd r
          /\ get_buf out' a = None
          /\ get_buf out' (negb a) = hd_error (pending_bufs out)
          /\ pending_bufs out' = tl (pending_bufs out)
          /\ (ready_bufs out' = ready_bufs out ++ [rb]
              /\ last_buffer out' = last_buffer out
              \/ state out' = VIN_OUTPUT_STOPPING
                 /\ ready_bufs out' = ready_bufs out
                 /\ last_buffer out' = Some rb)
      | None =>
          fst (vin_change_buffer line) = line
          /\ snd (vin_change_buffer line)
             = [dev_warn (missing_ready_buf a (state out));
                dev_err (missing_ready_buf2 (negb a) (state out))]
          /\ dma_writes (snd (vin_change_buffer line)) = []
          /\ returned (snd (vin_change_buffer line)) = []
      end).
Proof.
  cbv zeta. split.
  - intros Hst. unfold vin_change_buffer.
    destruct Hst as [H|[H|[H|H]]]; rewrite H; reflexivity.
  - intros Hrun Hact.
    destruct line as [i [a b0 b1 lb p r s q] sc pc]; simpl in *.
    destruct (running_cases _ Hrun); subst s;
      destruct a; simpl in *; subst;
      unfold vin_change_buffer, other_slot_active; simpl;
      [ destruct b0 as [rb|] | destruct b1 as [rb|]
      | destruct b0 as [rb|] | destruct b1 as [rb|] ];
      simpl; try (repeat split; reflexivity);
      destruct p as [|nb rest]; simpl;
      repeat split; auto.
Qed.

(** ** Queueing a buffer *)

(** C6.  [vin_queue_buffer] in state STOPPING: a frozen [last_buffer] is
    put back into the active slot (with no frozen buffer the slot keeps its
    content), [last_buffer] ends up NULL, the state becomes SINGLE and the
    new descriptor is appended to the pending queue; the other slot, the
    ready queue, the active index and the sequence counter are unchanged
    and no call is made, so nothing is written to the DMA address sink. *)
Theorem vin_queue_buffer_stopping (line : vin_line) (buf : stfcamss_buffer) :
  state (output line) = VIN_OUTPUT_STOPPING ->
  let out := output line in
  let a := active_buf out in
  let line' := fst (vin_queue_buffer line buf) in
  let out' := output line' in
  snd (vin_queue_buffer line buf) = []
  /\ state out' = VIN_OUTPUT_SINGLE
  /\ pending_bufs out' = pending_bufs out ++ [buf]
  /\ last_buffer out' = None
  /\ get_buf out' a
     = match last_buffer out with
       | Some last => Some last
       | None => get_buf out a
       end
  /\ get_buf out' (negb a) = get_buf out (negb a)
  /\ ready_bufs out' = ready_bufs out
  /\ active_buf out' = a
  /\ sequence out' = sequence out
  /\ id line' = id line
  /\ stream_count line' = stream_count line
  /\ power_count line' = power_count line.
Proof.
  destruct line as [i [a b0 b1 lb p r s q] sc pc]; simpl.
  intros ->. unfold vin_queue_buffer, vin_buf_update_on_new; simpl.
  destruct lb as [last|]; destruct a; simpl; repeat split; reflexivity.
Qed.

(** C10.  [vin_queue_buffer] in state OFF or RESERVED appends the
    descriptor to the pending queue and changes nothing else: the state,
    both slots, [last_buffer] and the rest of the line are as before, and
    no call is made, so the installed addresses are untouched and nothing
    is returned to videobuf2. *)
Theorem vin_queue_buffer_off_reserved
        (line : vin_line) (buf : stfcamss_buffer) :
  state (output line) = VIN_OUTPUT_OFF
  \/ state (output line) = VIN_OUTPUT_RESERVED ->
  vin_queue_buffer line buf
  = (set_output line
       (set_pending_bufs (output line)
                         (pending_bufs (output line) ++ [buf])),
     [])
  /\ let out := output line in
     let out' := output (fst (vin_queue_buffer line buf)) in
     pending_bufs out' = pending_bufs out ++ [buf]
     /\ state out' = state out
     /\ buf0 out' = buf0 out
     /\ buf1 out' = buf1 out
     /\ last_buffer out' = last_buffer out
     /\ ready_bufs out' = ready_bufs out
     /\ active_buf out' = active_buf out
     /\ sequence out' = sequence out
     /\ dma_writes (snd (vin_queue_buffer line buf)) = []
     /\ returned (snd (vin_queue_buffer line buf)) = [].
Proof.
  destruct line as [i [a b0 b1 lb p r s q] sc pc]; simpl.
  unfold vin_queue_buffer, vin_buf_update_on_new; simpl.
  intros [->| ->]; simpl; repeat split; reflexivity.
Qed.

(** ** Enable and disable *)

(** C8.  With the pending queue and slot 1 empty (as on a line that is OFF
    with both queues and both slots empty), [vin_enable_output] leaves the
    state IDLE, [vin_disable_output] called next leaves it OFF, and neither
    call makes any call of its own: nothing is written to the DMA address
    sink. *)
Theorem vin_enable_disable_round_trip (line : vin_line) :
  state (output line) = VIN_OUTPUT_OFF ->
  pending_bufs (output line) = [] ->
  ready_bufs (output line) = [] ->
  buf0 (output line) = None ->
  buf1 (output line) = None ->
  let en := vin_enable_output line in
  let dis := vin_disable_output (fst en) in
  state (output (fst en)) = VIN_OUTPUT_IDLE
  /\ state (output (fst dis)) = VIN_OUTPUT_OFF
  /\ snd en = []
  /\ snd dis = []
  /\ dma_writes (snd en ++ snd dis) = []
  /\ pending_bufs (output (fst dis)) = []
  /\ ready_bufs (output (fst dis)) = []
  /\ buf0 (output (fst dis)) = None
  /\ buf1 (output (fst dis)) = None.
Proof.
  destruct line as [i [a b0 b1 lb p r s q] sc pc]; simpl.
  intros -> -> -> -> ->.
  unfold vin_enable_output, vin_disable_output, vin_output_init_addrs; simpl.
  repeat split; reflexivity.
Qed.

(** ** Sequences of operations *)

Lemma run_cons (line : vin_line) (o : op) (rest : list op) :
  run line (o :: rest)
  = (fst (run (fst (step line o)) rest),
     snd (step line o) ++ snd (run (fst (step line o)) rest)).
Proof.
  simpl. destruct (step line o) as [line1 evs1]; simpl.
  destruct (run line1 rest); reflexivity.
Qed.

Lemma run_app (ops1 ops2 : list op) :
  forall line : vin_line,
    run line (ops1 ++ ops2)
    = (fst (run (fst (run line ops1)) ops2),
       snd (run line ops1) ++ snd (run (fst (run line ops1)) ops2)).
Proof.
  induction ops1 as [|o ops1 IH]; intros line.
  - simpl. destruct (run line ops2); reflexivity.
  - rewrite <- app_comm_cons, !run_cons, IH; simpl.
    rewrite app_assoc. reflexivity.
Qed.

Lemma vin_flush_buffers_line (line : vin_line) (st : vb2_buffer_state) :
  fst (vin_flush_buffers line st)
  = set_output line
      (mk_output (active_buf (output line)) None None None [] []
                 (state (output line)) (sequence (output line))).
Proof.
  destruct line as [i [a b0 b1 lb p r s q] sc pc].
  unfold vin_flush_buffers, vin_buf_flush; simpl.
  rewrite !vin_buf_flush_queue_spec; reflexivity.
Qed.

Lemma vin_buffer_done_line (line : vin_line) (ts : Z) :
  let out' := output (fst (vin_buffer_done line ts)) in
  state out' = state (output line)
  /\ active_buf out' = active_buf (output line)
  /\ buf0 out' = buf0 (output line)
  /\ buf1 out' = buf1 (output line)
  /\ last_buffer out' = last_buffer (output line)
  /\ pending_bufs out' = pending_bufs (output line)
  /\ id (fst (vin_buffer_done line ts)) = id line.
Proof.
  cbv zeta. unfold vin_buffer_done.
  rewrite vin_buffer_done_loop_spec by lia.
  destruct line as [i [a b0 b1 lb p r s q] sc pc]; simpl.
  destruct s; simpl; repeat split; reflexivity.
Qed.

Lemma step_single_buffered (line : vin_line) (o : op) :
  single_buffered (output line) ->
  single_buffered (output (fst (step line o))).
Proof.
  unfold single_buffered. intros (Hs & Ha & Hb).
  destruct o as [| |buf|ts| |st]; simpl.
  - destruct line as [i [a b0 b1 lb p r s q] sc pc]; simpl in *; subst.
    unfold vin_enable_output, vin_output_init_addrs; simpl.
    destruct p as [|nb rest]; simpl; repeat split; congruence.
  - simpl. repeat split; auto; congruence.
  - destruct line as [i [a b0 b1 lb p r s q] sc pc]; simpl in *; subst.
    unfold vin_queue_buffer, vin_buf_update_on_new, vin_output_init_addrs;
      simpl.
    destruct s; simpl; try (repeat split; congruence).
    + destruct b0; simpl; repeat split; congruence.
    + destruct lb; simpl; repeat split; congruence.
  - destruct (vin_buffer_done_line line ts) as (E1 & E2 & _ & E3 & _).
    rewrite E1, E2, E3. auto.
  - destruct line as [i [a b0 b1 lb p r s q] sc pc]; simpl in *; subst.
    unfold vin_change_buffer; simpl.
    destruct s; simpl; try (repeat split; congruence).
    destruct b0 as [rb|]; simpl; [|repeat split; congruence].
    destruct p as [|nb rest]; simpl; repeat split; congruence.
  - rewrite vin_flush_buffers_line; simpl. auto.
Qed.

(** C9.  On a line set up by [vin_init_outputs], after every sequence of
    enable, disable, queue_buffer, buffer-done, buffer-changed and flush
    calls (hence at every point of every such sequence) the output state
    is not CONTINUOUS, the active slot index is 0 and slot 1 is empty. *)
Theorem init_outputs_never_continuous (line : vin_line) (ops : list op) :
  let out := output (fst (run (vin_init_outputs line) ops)) in
  state out <> VIN_OUTPUT_CONTINUOUS
  /\ active_buf out = false
  /\ buf1 out = None.
Proof.
  cbv zeta.
  assert (Hinit : single_buffered (output (vin_init_outputs line))).
  { unfold single_buffered; simpl. repeat split; congruence. }
  revert Hinit. generalize (vin_init_outputs line). clear line.
  induction ops as [|o ops IH]; intros line Hinv.
  - exact Hinv.
  - rewrite run_cons; simpl. apply IH. apply step_single_buffered, Hinv.
Qed.

(** ** Arrival order *)

Lemma ltb_length_tail {A : Type} (l : list A) :
  (length l <? S (length l))%nat = true.
Proof. apply Nat.ltb_lt. lia. Qed.

Lemma step_id (line : vin_line) (o : op) :
  id (fst (step line o)) = id line.
Proof.
  destruct o as [| |buf|ts| |st]; simpl.
  - unfold vin_enable_output, vin_output_init_addrs.
    destruct (vin_buf_get_pending _) as [first out1]; simpl.
    match goal with
    | |- context [buf0 ?o] => destruct (buf0 o); reflexivity
    end.
  - reflexivity.
  - destruct line as [i [a b0 b1 lb p r s q] sc pc].
    unfold vin_queue_buffer, vin_buf_update_on_new, vin_output_init_addrs;
      simpl.
    destruct s; simpl; try reflexivity.
    destruct b0; reflexivity.
  - apply vin_buffer_done_line.
  - destruct line as [i [a b0 b1 lb p r s q] sc pc].
    unfold vin_change_buffer; simpl.
    destruct s; simpl; try reflexivity;
      destruct a, b0, b1, p; reflexivity.
  - rewrite vin_flush_buffers_line. reflexivity.
Qed.

(** What a rotation event takes off the pending queue is the head of the
    queue, and the event writes the addresses of that descriptor. *)
Lemma rotation_fetch_spec (line : vin_line) :
  pending_bufs (output line)
  = opt_list (rotation_fetch line)
    ++ pending_bufs (output (fst (vin_change_buffer line)))
  /\ forall b : stfcamss_buffer,
       rotation_fetch line = Some b ->
       dma_writes (snd (vin_change_buffer line))
       = vin_set_addrs (id line) (addr0 b) (addr1 b).
Proof.
  destruct line as [i [a b0 b1 lb p r s q] sc pc].
  unfold rotation_fetch, vin_change_buffer; simpl.
  destruct s; simpl; rewrite ?Nat.ltb_irrefl; simpl;
    try (split; [reflexivity | discriminate]);
    destruct a, b0 as [x0|], b1 as [x1|]; simpl;
    rewrite ?Nat.ltb_irrefl; simpl;
    try (split; [reflexivity | discriminate]);
    destruct p as [|nb rest]; simpl;
    rewrite ?Nat.ltb_irrefl, ?ltb_length_tail; simpl;
    try (split; [reflexivity | discriminate]);
    (split; [reflexivity|]); intros b [= <-];
    rewrite ?vin_set_addrs_dma; reflexivity.
Qed.

Lemma held_app (x : nat) (l1 l2 : list stfcamss_buffer) :
  held x (l1 ++ l2) = (held x l1 + held x l2)%nat.
Proof. unfold held. rewrite map_app. apply count_occ_app. Qed.

Lemma NoDup_held (l : list stfcamss_buffer) :
  NoDup (map ptr l) <-> forall x : nat, (held x l <= 1)%nat.
Proof. unfold held. apply NoDup_count_occ. Qed.

Lemma vin_queue_buffer_running (line : vin_line) (buf : stfcamss_buffer) :
  running (state (output line)) = true ->
  vin_queue_buffer line buf
  = (set_output line (vin_buf_add_pending (output line) buf), []).
Proof.
  intros Hrun. unfold vin_queue_buffer, vin_buf_update_on_new.
  destruct (running_cases _ Hrun) as [-> | ->]; reflexivity.
Qed.

Lemma held_add_pending (line : vin_line) (b : stfcamss_buffer) (x : nat) :
  held x (outstanding
            (output (set_output line
                       (vin_buf_add_pending (output line) b))))
  = (held x (outstanding (output line)) + held x [b])%nat.
Proof.
  destruct line as [i [a b0 b1 lb p r s q] sc pc]; simpl.
  unfold outstanding; simpl. rewrite !held_app. lia.
Qed.

Lemma vin_buffer_done_held (line : vin_line) (ts : Z) (x : nat) :
  (held x (outstanding (output (fst (vin_buffer_done line ts))))
   <= held x (outstanding (output line)))%nat.
Proof.
  unfold vin_buffer_done. rewrite vin_buffer_done_loop_spec by lia.
  destruct line as [i [a b0 b1 lb p r s q] sc pc]; simpl.
  destruct s; held_tac.
Qed.

Lemma vin_buffer_done_calls (line : vin_line) (ts : Z) :
  dma_writes (snd (vin_buffer_done line ts)) = [].
Proof.
  unfold vin_buffer_done. rewrite vin_buffer_done_loop_spec by lia.
  destruct (state (output line)); simpl;
    try reflexivity; apply dma_writes_done_map.
Qed.

Lemma vin_change_buffer_held (line : vin_line) (x : nat) :
  (held x (outstanding (output (fst (vin_change_buffer line))))
   <= held x (outstanding (output line)))%nat.
Proof.
  destruct line as [i [a b0 b1 lb p r s q] sc pc].
  unfold vin_change_buffer; simpl.
  destruct s; simpl; try lia;
    destruct a, b0 as [x0|], b1 as [x1|], p as [|nb rest]; simpl;
    held_tac.
Qed.

(** The three kinds of call of such a sequence. *)
Lemma queue_while_running_cons (line : vin_line) (o : op) (rest : list op) :
  queue_while_running line (o :: rest) = true ->
  queue_while_running (fst (step line o)) rest = true
  /\ ((exists b, o = op_queue_buffer b
                 /\ running (state (output line)) = true)
      \/ (exists ts, o = op_buffer_done ts)
      \/ o = op_change_buffer).
Proof.
  simpl. intros H. apply andb_prop in H as [Ho Hrest].
  split; [exact Hrest|].
  destruct o; try discriminate; eauto.
Qed.

Lemma fifo_pending (ops : list op) :
  forall line : vin_line,
    queue_while_running line ops = true ->
    pending_bufs (output line) ++ queued ops
    = map fst (installs line ops)
      ++ pending_bufs (output (fst (run line ops))).
Proof.
  induction ops as [|o ops IH]; intros line Hq.
  - simpl. apply app_nil_r.
  - apply queue_while_running_cons in Hq as [Hrest Ho].
    rewrite run_cons. cbn [fst]. specialize (IH _ Hrest).
    destruct Ho as [(b & -> & Hrun)|[(ts & ->)| ->]].
    + cbn [queued flat_map installs app]. rewrite <- IH.
      cbn [step]. rewrite (vin_queue_buffer_running line b Hrun).
      destruct line as [i [a b0 b1 lb p r s q] sc pc]; simpl.
      rewrite <- app_assoc. reflexivity.
    + cbn [queued flat_map installs app]. rewrite <- IH.
      cbn [step].
      destruct (vin_buffer_done_line line ts) as (_ & _ & _ & _ & _ & E & _).
      rewrite E. reflexivity.
    + cbn [queued flat_map installs app step] in *.
      destruct (rotation_fetch_spec line) as [Hp _].
      rewrite Hp at 1.
      destruct (rotation_fetch line) as [b|]; simpl;
        rewrite <- IH; reflexivity.
Qed.

Lemma fifo_writes (ops : list op) :
  forall line : vin_line,
    queue_while_running line ops = true ->
    Forall (fun bw => snd bw
                      = vin_set_addrs (id line) (addr0 (fst bw))
                                      (addr1 (fst bw)))
           (installs line ops).
Proof.
  induction ops as [|o ops IH]; intros line Hq.
  - constructor.
  - apply queue_while_running_cons in Hq as [Hrest Ho].
    specialize (IH _ Hrest). rewrite step_id in IH.
    cbn [installs]. apply Forall_app. split; [|exact IH].
    destruct o; try constructor.
    destruct (rotation_fetch line) as [b|] eqn:Hf; constructor;
      [|constructor].
    apply (proj2 (rotation_fetch_spec line)), Hf.
Qed.

Lemma fifo_held (ops : list op) (x : nat) :
  forall line : vin_line,
    queue_while_running line ops = true ->
    (held x (outstanding (output (fst (run line ops))))
     <= held x (outstanding (output line) ++ queued ops))%nat.
Proof.
  induction ops as [|o ops IH]; intros line Hq.
  - simpl. rewrite app_nil_r. lia.
  - apply queue_while_running_cons in Hq as [Hrest Ho].
    rewrite run_cons. cbn [fst]. specialize (IH _ Hrest).
    rewrite held_app in *.
    destruct Ho as [(b & -> & Hrun)|[(ts & ->)| ->]];
      cbn [queued flat_map step] in *.
    + rewrite (vin_queue_buffer_running line b Hrun) in IH.
      cbn [fst] in IH. rewrite held_add_pending in IH.
      rewrite (vin_queue_buffer_running line b Hrun). cbn [fst].
      rewrite held_app. fold (queued ops). lia.
    + pose proof (vin_buffer_done_held line ts x).
      cbn [app]. fold (queued ops). lia.
    + pose proof (vin_change_buffer_held line x).
      cbn [app]. fold (queued ops). lia.
Qed.

Lemma vin_change_buffer_no_fetch (line : vin_line) :
  single_buffered (output line) ->
  rotation_fetch line = None ->
  dma_writes (snd (vin_change_buffer line)) = [].
Proof.
  destruct line as [i [a b0 b1 lb p r s q] sc pc].
  unfold single_buffered, rotation_fetch, vin_change_buffer; simpl.
  intros (Hs & -> & ->).
  destruct s; simpl; try reflexivity; try congruence.
  destruct b0 as [x0|]; simpl; [|reflexivity].
  destruct p as [|nb rest]; simpl; [reflexivity|].
  rewrite ltb_length_tail. discriminate.
Qed.

Lemma fifo_trace (ops : list op) :
  forall line : vin_line,
    queue_while_running line ops = true ->
    single_buffered (output line) ->
    dma_writes (snd (run line ops)) = flat_map snd (installs line ops).
Proof.
  induction ops as [|o ops IH]; intros line Hq Hinv.
  - reflexivity.
  - apply queue_while_running_cons in Hq as [Hrest Ho].
    rewrite run_cons. cbn [snd installs].
    rewrite dma_writes_app, flat_map_app.
    rewrite (IH _ Hrest (step_single_buffered line o Hinv)).
    f_equal.
    destruct Ho as [(b & -> & Hrun)|[(ts & ->)| ->]]; cbn [step].
    + rewrite (vin_queue_buffer_running line b Hrun). reflexivity.
    + apply vin_buffer_done_calls.
    + destruct (rotation_fetch line) as [b|] eqn:Hf.
      * simpl. rewrite app_nil_r. reflexivity.
      * apply (vin_change_buffer_no_fetch line Hinv Hf).
Qed.

Lemma flat_map_installs (line_id : Z)
      (l : list (stfcamss_buffer * list event)) :
  Forall (fun bw => snd bw = install_writes line_id (fst bw)) l ->
  flat_map snd l = flat_map (install_writes line_id) (map fst l).
Proof.
  induction 1 as [|bw l Hbw _ IH]; simpl; [reflexivity|].
  rewrite Hbw, IH. reflexivity.
Qed.

Lemma run_id (ops : list op) :
  forall line : vin_line, id (fst (run line ops)) = id line.
Proof.
  induction ops as [|o ops IH]; intros line; [reflexivity|].
  rewrite run_cons. cbn [fst]. rewrite IH. apply step_id.
Qed.

Lemma installs_app (ops1 ops2 : list op) :
  forall line : vin_line,
    installs line (ops1 ++ ops2)
    = installs line ops1 ++ installs (fst (run line ops1)) ops2.
Proof.
  induction ops1 as [|o ops1 IH]; intros line; [reflexivity|].
  rewrite <- app_comm_cons. cbn [installs].
  rewrite IH, run_cons. cbn [fst]. rewrite app_assoc. reflexivity.
Qed.

(** A rotation event in state SINGLE or CONTINUOUS that finds a
    descriptor in one of the slots and the pending queue not empty takes
    the head of the queue: it puts it into a slot, writes its addresses
    and keeps the state. *)
Lemma rotation_takes_head
      (line : vin_line) (nb : stfcamss_buffer)
      (rest : list stfcamss_buffer) :
  running (state (output line)) = true ->
  buf0 (output line) <> None \/ buf1 (output line) <> None ->
  pending_bufs (output line) = nb :: rest ->
  rotation_fetch line = Some nb
  /\ pending_bufs (output (fst (vin_change_buffer line))) = rest
  /\ (buf0 (output (fst (vin_change_buffer line))) = Some nb
      \/ buf1 (output (fst (vin_change_buffer line))) = Some nb)
  /\ dma_writes (snd (vin_change_buffer line))
     = vin_set_addrs (id line) (addr0 nb) (addr1 nb)
  /\ state (output (fst (vin_change_buffer line))) = state (output line).
Proof.
  destruct line as [i [a b0 b1 lb p r s q] sc pc]; simpl.
  intros Hrun Hslot ->.
  unfold rotation_fetch, vin_change_buffer; simpl.
  destruct (running_cases _ Hrun); subst s;
    destruct a, b0 as [x0|], b1 as [x1|]; simpl;
    try (destruct Hslot; congruence);
    rewrite ?ltb_length_tail; simpl;
    rewrite ?vin_set_addrs_dma; repeat split; auto.
Qed.

(** C4.  Take any sequence of [queue_buffer] calls, rotation events and
    completion events in which every [queue_buffer] call finds the state
    SINGLE or CONTINUOUS, on a line of the driver.  The descriptors the
    rotation events take off the pending queue, followed by those still
    pending at the end, are the descriptors pending at the start followed
    by the queued ones in call order: descriptors are installed in arrival
    order.  The rotation event that takes a descriptor writes the addresses
    of that descriptor to the DMA address sink, and with single buffering
    these are the only writes of the whole sequence, so the sink sees the
    descriptors in arrival order.  And when the descriptors held at the
    start and the queued ones are pairwise distinct, those held at the end
    are pairwise distinct too: none is in the pending and in the ready
    queue, twice in one of them, or in a queue and in a slot.  Finally
    every rotation event of the sequence that finds the state SINGLE or
    CONTINUOUS, a descriptor in one of the slots and the pending queue not
    empty does install: it takes the head [nb] of the pending queue,
    leaves the rest pending, puts [nb] into a slot, writes the addresses
    of [nb] to the DMA address sink and keeps the state. *)
Theorem queue_buffer_fifo (line : vin_line) (ops : list op) :
  queue_while_running line ops = true ->
  line_id_ok (id line) ->
  let line' := fst (run line ops) in
  let fetched := map fst (installs line ops) in
  pending_bufs (output line) ++ queued ops
  = fetched ++ pending_bufs (output line')
  /\ Forall (fun bw => snd bw = install_writes (id line) (fst bw))
            (installs line ops)
  /\ (single_buffered (output line) ->
      dma_writes (snd (run line ops))
      = flat_map (install_writes (id line)) fetched)
  /\ (NoDup (map ptr (outstanding (output line) ++ queued ops)) ->
      NoDup (map ptr (outstanding (output line'))))
  /\ (forall (pre post : list op) (nb : stfcamss_buffer)
             (rest : list stfcamss_buffer),
         ops = pre ++ op_change_buffer :: post ->
         let l := fst (run line pre) in
         let l' := fst (vin_change_buffer l) in
         running (state (output l)) = true ->
         buf0 (output l) <> None \/ buf1 (output l) <> None ->
         pending_bufs (output l) = nb :: rest ->
         installs line (pre ++ [op_change_buffer])
         = installs line pre ++ [(nb, install_writes (id line) nb)]
         /\ pending_bufs (output l') = rest
         /\ (buf0 (output l') = Some nb \/ buf1 (output l') = Some nb)
         /\ dma_writes (snd (vin_change_buffer l))
            = install_writes (id line) nb
         /\ state (output l') = state (output l)).
Proof.
  intros Hq Hid. cbv zeta.
  assert (Hw : Forall (fun bw => snd bw = install_writes (id line) (fst bw))
                      (installs line ops)).
  { eapply Forall_impl; [|apply (fifo_writes ops line Hq)].
    intros bw Hbw. simpl in Hbw. rewrite Hbw.
    apply (vin_set_addrs_ok _ _ _ Hid). }
  split; [apply (fifo_pending ops line Hq)|].
  split; [exact Hw|].
  split.
  { intros Hinv. rewrite (fifo_trace ops line Hq Hinv).
    apply flat_map_installs, Hw. }
  split.
  - intros Hnd. apply NoDup_held. intros x.
    pose proof (fifo_held ops x line Hq) as Hle.
    pose proof (proj1 (NoDup_held _) Hnd x). lia.
  - intros pre post nb rest _ Hrun Hslot Hpend.
    destruct (rotation_takes_head _ nb rest Hrun Hslot Hpend)
      as (Hf & Hp & Hs & Hd & Hst).
    assert (Hd' : dma_writes (snd (vin_change_buffer (fst (run line pre))))
                  = install_writes (id line) nb).
    { rewrite Hd, run_id. apply (vin_set_addrs_ok _ _ _ Hid). }
    repeat split; try assumption.
    rewrite installs_app. cbn [installs]. rewrite Hf, Hd'.
    reflexivity.
Qed.

(** ** Reference counters *)

(** Power-off with both power counters at zero: both branches report and
    leave the counters, the line and the hardware alone. *)
Lemma vin_set_power_off_at_zero
      (vin_dev : stf_vin_dev) (line : vin_line) (lnk : link) :
  power_count line = 0 ->
  dev_power_count vin_dev = 0 ->
  vin_set_power vin_dev line false lnk
  = (vin_dev, line,
     dev_err line_power_off_on_zero
     :: match lnk with
        | LINK_ERROR => []
        | _ => [dev_err vin_dev_power_off_on_zero]
        end).
Proof.
  intros Hl Hd. unfold vin_set_power. rewrite Hl, Hd; simpl.
  destruct lnk; reflexivity.
Qed.

(** Stream-off with both stream counters at zero: neither branch of
    [vin_set_stream] tests for zero, both counters are decremented and
    nothing is reported. *)
Lemma vin_set_stream_off_at_zero
      (vin_dev : stf_vin_dev) (line : vin_line) (lnk : link) :
  stream_count line = 0 ->
  dummy_stream_count vin_dev (vin_line_to_dummy_module line) = 0 ->
  lnk <> LINK_ERROR ->
  let r := vin_set_stream vin_dev line false lnk in
  stream_count (snd (fst r)) = -1
  /\ dummy_stream_count (fst (fst r)) (vin_line_to_dummy_module line) = -1
  /\ snd r = [vin_set_dummy_buffer pad_stf_vin_map_isp_pad]
  /\ reported (snd r) = [].
Proof.
  intros Hl Hd Hlnk. cbv zeta. unfold vin_set_stream.
  rewrite Hl, Hd; simpl.
  assert (Hm : dummy_module_eqb (vin_line_to_dummy_module line)
                                (vin_line_to_dummy_module line) = true)
    by (destruct (vin_line_to_dummy_module line); reflexivity).
  destruct lnk; try congruence; simpl; rewrite Hm; repeat split.
Qed.

End Properties.

(** * Further properties of the engine *)

Section EngineProperties.
Context {hdr : stf_vin_h}.

(** ** What the handlers leave alone *)

Lemma vin_change_buffer_returns_nothing (line : vin_line) :
  returned (snd (vin_change_buffer line)) = [].
Proof.
  destruct line as [i [a b0 b1 lb p r s q] sc pc].
  unfold vin_change_buffer; simpl.
  destruct s; simpl; try reflexivity;
    destruct a, b0 as [x0|], b1 as [x1|], p as [|nb rest]; simpl;
    rewrite ?returned_app, ?vin_set_addrs_returned; reflexivity.
Qed.

Lemma vin_queue_buffer_returns_nothing
      (line : vin_line) (buf : stfcamss_buffer) :
  returned (snd (vin_queue_buffer line buf)) = [].
Proof.
  destruct line as [i [a b0 b1 lb p r s q] sc pc].
  unfold vin_queue_buffer, vin_buf_update_on_new, vin_output_init_addrs;
    simpl.
  destruct s; simpl; try reflexivity.
  destruct b0; simpl; [reflexivity|apply vin_set_addrs_returned].
Qed.

(** X1.  A line in state STOPPING stays as it is under any number of
    rotation and completion events: the state, the frozen last buffer, the
    slots, the active index and the pending queue do not change, and
    nothing is written to the DMA address sink. *)
Theorem stopping_persists (line : vin_line) (ops : list op) :
  state (output line) = VIN_OUTPUT_STOPPING ->
  forallb is_irq ops = true ->
  let out' := output (fst (run line ops)) in
  state out' = VIN_OUTPUT_STOPPING
  /\ last_buffer out' = last_buffer (output line)
  /\ buf0 out' = buf0 (output line)
  /\ buf1 out' = buf1 (output line)
  /\ active_buf out' = active_buf (output line)
  /\ pending_bufs out' = pending_bufs (output line)
  /\ dma_writes (snd (run line ops)) = [].
Proof.
  cbv zeta. revert line.
  induction ops as [|o ops IH]; intros line Hs Hops.
  - simpl. repeat split; assumption.
  - simpl in Hops. apply andb_prop in Hops as [Ho Hops].
    rewrite run_cons. cbn [fst snd]. rewrite dma_writes_app.
    destruct o as [| |buf|ts| |st]; try discriminate; cbn [step] in *.
    + destruct (vin_buffer_done_line line ts)
        as (E1 & E2 & E3 & E4 & E5 & E6 & _).
      rewrite <- E1 in Hs.
      destruct (IH _ Hs Hops) as (I1 & I2 & I3 & I4 & I5 & I6 & I7).
      rewrite vin_buffer_done_calls, I7.
      repeat split; congruence.
    + assert (E : vin_change_buffer line = (line, [])).
      { unfold vin_change_buffer. rewrite Hs. reflexivity. }
      rewrite E in *. cbn [fst snd].
      destruct (IH _ Hs Hops) as (I1 & I2 & I3 & I4 & I5 & I6 & I7).
      rewrite I7. repeat split; assumption.
Qed.


(** The three outcomes of [vin_enable_output]. *)
Lemma vin_enable_output_cases (line : vin_line) :
  let out := output line in
  let r := vin_enable_output line in
  let out' := output (fst r) in
  active_buf out' = false
  /\ sequence out' = 0
  /\ ready_bufs out' = ready_bufs out
  /\ last_buffer out' = last_buffer out
  /\ pending_bufs out' = tl (pending_bufs out)
  /\ returned (snd r) = []
  /\ match pending_bufs out, buf1 out with
     | nb :: _, _ =>
         state out' = VIN_OUTPUT_SINGLE
         /\ buf0 out' = Some nb
         /\ buf1 out' = buf1 out
         /\ snd r = vin_set_addrs (id line) (addr0 nb) (addr1 nb)
     | [], Some b =>
         state out' = VIN_OUTPUT_SINGLE
         /\ buf0 out' = Some b
         /\ buf1 out' = None
         /\ snd r = vin_set_addrs (id line) (addr0 b) (addr1 b)
     | [], None =>
         state out' = VIN_OUTPUT_IDLE
         /\ buf0 out' = None
         /\ buf1 out' = None
         /\ snd r = []
     end.
Proof.
  destruct line as [i [a b0 b1 lb p r s q] sc pc]; simpl.
  unfold vin_enable_output, vin_output_init_addrs; simpl.
  destruct p as [|nb rest]; [destruct b1 as [b|]|]; simpl;
    rewrite ?vin_set_addrs_returned; repeat split; reflexivity.
Qed.


(** X4.  Flushing a line that has just been flushed returns nothing and
    leaves the line as it is. *)
Theorem vin_flush_buffers_twice
        (line : vin_line) (st st' : vb2_buffer_state) :
  vin_flush_buffers (fst (vin_flush_buffers line st)) st'
  = (fst (vin_flush_buffers line st), []).
Proof.
  rewrite (vin_flush_buffers_line line st).
  destruct line as [i [a b0 b1 lb p r s q] sc pc]; reflexivity.
Qed.


(** ** Ownership of descriptors *)

Lemma stamp_queue_ptr (ts : Z) (q : list stfcamss_buffer) :
  forall s : Z, map ptr (stamp_queue ts s q) = map ptr q.
Proof.
  induction q as [|b q IH]; intros s; simpl; [|rewrite IH]; reflexivity.
Qed.

Lemma held_stamp_queue (x : nat) (ts s : Z) (q : list stfcamss_buffer) :
  held x (stamp_queue ts s q) = held x q.
Proof. unfold held. rewrite stamp_queue_ptr. reflexivity. Qed.

Lemma held_returned_done (x : nat) (q : list stfcamss_buffer)
      (st : vb2_buffer_state) :
  held x (map fst (returned (map (fun b => vb2_buffer_done b st) q)))
  = held x q.
Proof.
  rewrite returned_done_map, map_map. simpl. rewrite map_id. reflexivity.
Qed.

Ltac held_solve :=
  unfold held, outstanding; simpl;
  repeat (rewrite app_nil_r || rewrite map_app || rewrite count_occ_app);
  simpl;
  repeat match goal with
         | |- context [Nat.eq_dec ?a ?b] => destruct (Nat.eq_dec a b)
         end;
  simpl; lia.

Ltac frozen_cases J1 J2 :=
  match goal with
  | lb : option stfcamss_buffer |- _ =>
      first
        [ assert (lb = None) by (apply J1; discriminate); subst lb
        | specialize (J2 eq_refl); simpl in J2 ]
  end.

Lemma vin_queue_buffer_conserves
      (line : vin_line) (buf : stfcamss_buffer) (x : nat) :
  frozen_consistent (output line) ->
  frozen_consistent (output (fst (vin_queue_buffer line buf)))
  /\ held x (outstanding (output (fst (vin_queue_buffer line buf))))
     = (held x (outstanding (output line)) + held x [buf])%nat.
Proof.
  destruct line as [i [a b0 b1 lb p r s q] sc pc].
  unfold frozen_consistent, vin_queue_buffer, vin_buf_update_on_new,
    vin_output_init_addrs; simpl.
  intros [J1 J2].
  destruct s; frozen_cases J1 J2;
    try (split; [split; [reflexivity|discriminate]|held_solve]).
  - destruct b0; simpl;
      (split; [split; [reflexivity|discriminate]|held_solve]).
  - destruct a, lb; simpl in *; subst;
      (split; [split; [reflexivity|discriminate]|held_solve]).
Qed.

Lemma vin_change_buffer_conserves (line : vin_line) (x : nat) :
  frozen_consistent (output line) ->
  frozen_consistent (output (fst (vin_change_buffer line)))
  /\ held x (outstanding (output (fst (vin_change_buffer line))))
     = held x (outstanding (output line)).
Proof.
  destruct line as [i [a b0 b1 lb p r s q] sc pc].
  unfold frozen_consistent, vin_change_buffer; simpl.
  intros [J1 J2].
  destruct s; frozen_cases J1 J2; simpl;
    try (split; [split; [intros; reflexivity|discriminate]|reflexivity]);
    try (split; [split; [congruence|intros; assumption]|reflexivity]);
    destruct a, b0 as [x0|], b1 as [x1|], p as [|nb rest]; simpl;
    (split; [split; [first [reflexivity|congruence]
                    |first [discriminate|reflexivity]]
            |held_solve]).
Qed.

Lemma vin_buffer_done_conserves (line : vin_line) (ts : Z) (x : nat) :
  frozen_consistent (output line) ->
  frozen_consistent (output (fst (vin_buffer_done line ts)))
  /\ (held x (outstanding (output (fst (vin_buffer_done line ts))))
      + held x (map fst (returned (snd (vin_buffer_done line ts)))))%nat
     = held x (outstanding (output line)).
Proof.
  intros [J1 J2]. split.
  - destruct (vin_buffer_done_line line ts) as (E1 & E2 & E3 & E4 & E5 & _).
    unfold frozen_consistent, get_buf in *.
    rewrite E1, E2, E3, E4, E5. split; assumption.
  - clear J1 J2.
    destruct (state (output line)) eqn:Hs;
      try (rewrite vin_buffer_done_active by congruence; cbn [fst snd];
           rewrite held_returned_done, held_stamp_queue;
           destruct line as [i [a b0 b1 lb p r s q] sc pc];
           unfold outstanding; simpl; rewrite !held_app;
           unfold held; simpl; lia);
      unfold vin_buffer_done; rewrite Hs; unfold held; simpl; lia.
Qed.

Lemma vin_flush_buffers_conserves
      (line : vin_line) (st : vb2_buffer_state) (x : nat) :
  frozen_consistent (output (fst (vin_flush_buffers line st)))
  /\ (held x (outstanding (output (fst (vin_flush_buffers line st))))
      + held x (map fst (returned (snd (vin_flush_buffers line st)))))%nat
     = held x (outstanding (output line)).
Proof.
  split.
  - rewrite vin_flush_buffers_line. unfold frozen_consistent; simpl.
    split; intros; [reflexivity|]. destruct (active_buf _); reflexivity.
  - destruct line as [i [a b0 b1 lb p r s q] sc pc].
    unfold vin_flush_buffers, vin_buf_flush; simpl.
    rewrite !vin_buf_flush_queue_spec; simpl.
    rewrite !opt_done_map, <- !map_app, held_returned_done.
    unfold outstanding; simpl. rewrite <- !app_assoc. reflexivity.
Qed.

Lemma run_conserves (ops : list op) (x : nat) :
  forall line : vin_line,
    frozen_consistent (output line) ->
    forallb keeps_stream ops = true ->
    frozen_consistent (output (fst (run line ops)))
    /\ (held x (outstanding (output (fst (run line ops))))
        + held x (map fst (returned (snd (run line ops)))))%nat
       = (held x (outstanding (output line)) + held x (queued ops))%nat.
Proof.
  induction ops as [|o ops IH]; intros line HJ Hops.
  - simpl. split; [exact HJ|]. unfold held; simpl. lia.
  - simpl in Hops. apply andb_prop in Hops as [Ho Hops].
    rewrite run_cons. cbn [fst snd].
    rewrite returned_app, map_app, held_app.
    unfold queued. cbn [flat_map]. fold (queued ops). rewrite held_app.
    destruct o as [| |buf|ts| |st]; try discriminate; cbn [step] in *.
    + destruct (vin_queue_buffer_conserves line buf x HJ) as [HJ1 E1].
      destruct (IH _ HJ1 Hops) as [HJ2 E2].
      rewrite vin_queue_buffer_returns_nothing.
      split; [exact HJ2|]. unfold held at 2. simpl. lia.
    + destruct (vin_buffer_done_conserves line ts x HJ) as [HJ1 E1].
      destruct (IH _ HJ1 Hops) as [HJ2 E2].
      split; [exact HJ2|]. unfold held at 5. simpl. lia.
    + destruct (vin_change_buffer_conserves line x HJ) as [HJ1 E1].
      destruct (IH _ HJ1 Hops) as [HJ2 E2].
      rewrite vin_change_buffer_returns_nothing.
      split; [exact HJ2|]. unfold held at 2 5. simpl. lia.
    + destruct (vin_flush_buffers_conserves line st x) as [HJ1 E1].
      destruct (IH _ HJ1 Hops) as [HJ2 E2].
      split; [exact HJ2|]. unfold held at 5. simpl. lia.
Qed.

(** X5.  No descriptor is lost or duplicated.  Start from a line whose
    frozen last buffer is consistent with its state and apply any sequence
    of queue_buffer, buffer-done, buffer-changed and flush calls.  Then the
    descriptors the line holds at the end together with those handed back
    to videobuf2 on the way are, counted with multiplicity, the descriptors
    held at the start together with those queued; and the frozen last
    buffer is again consistent with the state. *)
Theorem descriptors_conserved (line : vin_line) (ops : list op) :
  frozen_consistent (output line) ->
  forallb keeps_stream ops = true ->
  let r := run line ops in
  Permutation
    (map ptr (outstanding (output (fst r)))
     ++ map ptr (map fst (returned (snd r))))
    (map ptr (outstanding (output line)) ++ map ptr (queued ops))
  /\ frozen_consistent (output (fst r)).
Proof.
  intros HJ Hops. cbv zeta. split.
  - apply (Permutation_count_occ Nat.eq_dec). intros x.
    rewrite !count_occ_app.
    exact (proj2 (run_conserves ops x line HJ Hops)).
  - exact (proj1 (run_conserves ops 0%nat line HJ Hops)).
Qed.

(** X20.  No descriptor is handed back twice or while it is still held.
    Under the conditions of the previous property, when the descriptors
    held at the start and the queued ones are pairwise distinct, the
    descriptors held at the end and those handed back to videobuf2 on the
    way are pairwise distinct as well. *)
Theorem descriptors_returned_once (line : vin_line) (ops : list op) :
  frozen_consistent (output line) ->
  forallb keeps_stream ops = true ->
  NoDup (map ptr (outstanding (output line) ++ queued ops)) ->
  let r := run line ops in
  NoDup (map ptr (outstanding (output (fst r))
                  ++ map fst (returned (snd r)))).
Proof.
  intros HJ Hops Hnd. cbv zeta.
  apply NoDup_held. intros x.
  pose proof (proj1 (NoDup_held _) Hnd x) as Hx.
  pose proof (proj2 (run_conserves ops x line HJ Hops)) as He.
  rewrite held_app in *. lia.
Qed.

(** ** Completion order *)

Lemma step_idle_empty (line : vin_line) (o : op) :
  idle_empty (output line) ->
  idle_empty (output (fst (step line o))).
Proof.
  unfold idle_empty. intros HI.
  destruct o as [| |buf|ts| |st]; cbn [step].
  - destruct (vin_enable_output_cases line)
      as (_ & _ & _ & _ & Hp & _ & Hm).
    cbv zeta in *. rewrite Hp.
    destruct (pending_bufs (output line)) as [|nb rest];
      [destruct (buf1 (output line))|];
      destruct Hm as (Hs & Hb & _); rewrite Hs, Hb;
      intros; try discriminate; auto.
  - simpl. discriminate.
  - destruct line as [i [a b0 b1 lb p r s q] sc pc]; simpl in *.
    unfold vin_queue_buffer, vin_buf_update_on_new, vin_output_init_addrs;
      simpl.
    destruct s; simpl; try discriminate.
    destruct (HI eq_refl) as [-> ->]. simpl. discriminate.
  - destruct (vin_buffer_done_line line ts) as (E1 & _ & E3 & _ & _ & E6 & _).
    rewrite E1, E3, E6. exact HI.
  - destruct line as [i [a b0 b1 lb p r s q] sc pc]; simpl in *.
    unfold vin_change_buffer; simpl.
    destruct s; simpl; try discriminate; try exact HI;
      destruct a, b0 as [x0|], b1 as [x1|], p as [|nb rest]; simpl;
      discriminate.
  - rewrite vin_flush_buffers_line; simpl. auto.
Qed.

(** X6.  On a line set up by [vin_init_outputs], after every sequence of
    enable, disable, queue_buffer, buffer-done, buffer-changed and flush
    calls, a line in state IDLE has slot 0 and the pending queue empty: in
    state IDLE [vin_queue_buffer] always finds slot 0 free and installs the
    descriptor directly. *)
Theorem init_outputs_idle_empty (line : vin_line) (ops : list op) :
  let out := output (fst (run (vin_init_outputs line) ops)) in
  state out = VIN_OUTPUT_IDLE ->
  buf0 out = None /\ pending_bufs out = [].
Proof.
  cbv zeta.
  assert (Hinit : idle_empty (output (vin_init_outputs line))).
  { unfold idle_empty; simpl. discriminate. }
  revert Hinit. generalize (vin_init_outputs line). clear line.
  induction ops as [|o ops IH]; intros line Hinv.
  - exact Hinv.
  - rewrite run_cons; simpl. apply IH. apply step_idle_empty, Hinv.
Qed.

Lemma map_fst_pair (q : list stfcamss_buffer) (st : vb2_buffer_state) :
  map fst (map (fun b => (b, st)) q) = q.
Proof. induction q as [|b q IH]; simpl; [|rewrite IH]; reflexivity. Qed.

Ltac list_solve :=
  repeat (progress simpl || rewrite app_nil_r || rewrite map_app
          || rewrite <- app_assoc);
  reflexivity.

Lemma step_pipeline (line : vin_line) (o : op) :
  single_buffered (output line) ->
  frozen_consistent (output line) ->
  idle_empty (output line) ->
  is_queue_or_irq o = true ->
  map ptr (map fst (returned (snd (step line o))))
  ++ map ptr (pipeline (output (fst (step line o))))
  = map ptr (pipeline (output line)) ++ map ptr (queued [o])
  /\ Forall (fun r => snd r = VB2_BUF_STATE_DONE)
            (returned (snd (step line o))).
Proof.
  intros (Hs & Ha & Hb) [J1 J2] HI Ho.
  destruct o as [| |buf|ts| |st]; try discriminate; cbn [step].
  - rewrite vin_queue_buffer_returns_nothing.
    split; [|constructor].
    destruct line as [i [a b0 b1 lb p r s q] sc pc]; simpl in *; subst.
    unfold idle_empty in HI; simpl in HI.
    unfold vin_queue_buffer, vin_buf_update_on_new, vin_output_init_addrs,
      pipeline; simpl.
    destruct s; try congruence; frozen_cases J1 J2; subst;
      try list_solve.
    + destruct (HI eq_refl) as [-> ->]. list_solve.
    + destruct lb; list_solve.
  - assert (Hgate :
      vin_buffer_done line ts = (line, []) ->
      map ptr (map fst (returned (snd (vin_buffer_done line ts))))
      ++ map ptr (pipeline (output (fst (vin_buffer_done line ts))))
      = map ptr (pipeline (output line))
        ++ map ptr (queued [op_buffer_done ts])
      /\ Forall (fun r => snd r = VB2_BUF_STATE_DONE)
                (returned (snd (vin_buffer_done line ts)))).
    { intros ->. simpl. rewrite app_nil_r. split; [reflexivity|].
      apply Forall_nil. }
    destruct (state (output line)) eqn:Hst;
      try (apply Hgate; unfold vin_buffer_done; rewrite Hst; reflexivity);
      clear Hgate;
      rewrite vin_buffer_done_active by congruence; cbn [fst snd];
      rewrite returned_done_map;
      (split;
       [ rewrite map_fst_pair, stamp_queue_ptr;
         destruct line as [i [a b0 b1 lb p r s q] sc pc];
         unfold pipeline; list_solve
       | apply Forall_map, Forall_forall; reflexivity ]).
  - rewrite vin_change_buffer_returns_nothing.
    split; [|constructor].
    destruct line as [i [a b0 b1 lb p r s q] sc pc]; simpl in *; subst.
    unfold vin_change_buffer, pipeline; simpl.
    destruct s; try congruence; frozen_cases J1 J2; subst;
      try list_solve.
    destruct b0 as [x0|], p as [|nb rest]; list_solve.
Qed.

Lemma step_pipeline_done_state (line : vin_line) (ts : Z) :
  Forall (fun r => snd r = VB2_BUF_STATE_DONE)
         (returned (snd (vin_buffer_done line ts))).
Proof.
  destruct (state (output line)) eqn:Hst;
    try (rewrite vin_buffer_done_active by congruence; cbn [snd];
         rewrite returned_done_map;
         apply Forall_map, Forall_forall; reflexivity);
    unfold vin_buffer_done; rewrite Hst; apply Forall_nil.
Qed.

Lemma step_frozen_consistent (line : vin_line) (o : op) :
  frozen_consistent (output line) ->
  keeps_stream o = true ->
  frozen_consistent (output (fst (step line o))).
Proof.
  intros HJ Ho.
  destruct o as [| |buf|ts| |st]; try discriminate; cbn [step].
  - apply (vin_queue_buffer_conserves line buf 0%nat HJ).
  - apply (vin_buffer_done_conserves line ts 0%nat HJ).
  - apply (vin_change_buffer_conserves line 0%nat HJ).
  - apply (vin_flush_buffers_conserves line st 0%nat).
Qed.

Lemma queued_cons (o : op) (ops : list op) :
  queued (o :: ops) = queued [o] ++ queued ops.
Proof. unfold queued. simpl. rewrite app_nil_r. reflexivity. Qed.

Lemma is_queue_or_irq_keeps_stream (o : op) :
  is_queue_or_irq o = true -> keeps_stream o = true.
Proof. destruct o; simpl; congruence. Qed.

(** X7.  With single buffering, descriptors are completed in the order
    they arrived.  On a single-buffered line whose frozen buffer is
    consistent with its state and whose IDLE state means empty, take any
    sequence of queue_buffer, buffer-changed and buffer-done calls.  The
    descriptors handed back on the way, followed by the pipeline at the end
    (ready queue, frozen buffer, slot 0, pending queue), are the pipeline
    at the start followed by the queued descriptors in call order; and
    every descriptor handed back carries VB2_BUF_STATE_DONE. *)
Theorem completion_in_arrival_order (line : vin_line) (ops : list op) :
  single_buffered (output line) ->
  frozen_consistent (output line) ->
  idle_empty (output line) ->
  forallb is_queue_or_irq ops = true ->
  let r := run line ops in
  map ptr (map fst (returned (snd r)))
  ++ map ptr (pipeline (output (fst r)))
  = map ptr (pipeline (output line)) ++ map ptr (queued ops)
  /\ Forall (fun d => snd d = VB2_BUF_STATE_DONE) (returned (snd r)).
Proof.
  cbv zeta. revert line.
  induction ops as [|o ops IH]; intros line HS HJ HI Hops.
  - simpl. rewrite app_nil_r. split; [reflexivity|constructor].
  - simpl in Hops. apply andb_prop in Hops as [Ho Hops].
    rewrite run_cons. cbn [fst snd].
    destruct (step_pipeline line o HS HJ HI Ho) as [E1 F1].
    destruct (IH _ (step_single_buffered line o HS)
                 (step_frozen_consistent line o HJ
                    (is_queue_or_irq_keeps_stream o Ho))
                 (step_idle_empty line o HI) Hops) as [E2 F2].
    rewrite returned_app, !map_app. split.
    + rewrite <- app_assoc, E2, app_assoc, E1, <- app_assoc.
      rewrite (queued_cons o ops), map_app. reflexivity.
    + apply Forall_app. split; assumption.
Qed.

(** ** Sequence numbers across handler invocations *)

Lemma seq_after_add (s : Z) (a b : nat) :
  seq_after (seq_after s a) b = seq_after s (b + a).
Proof. unfold seq_after. rewrite Nat.iter_add. reflexivity. Qed.

Lemma vin_queue_buffer_sequence (line : vin_line) (buf : stfcamss_buffer) :
  sequence (output (fst (vin_queue_buffer line buf)))
  = sequence (output line).
Proof.
  destruct line as [i [a b0 b1 lb p r s q] sc pc].
  unfold vin_queue_buffer, vin_buf_update_on_new, vin_output_init_addrs;
    simpl.
  destruct s; simpl; try reflexivity; [destruct b0|destruct lb, a];
    reflexivity.
Qed.

Lemma vin_change_buffer_sequence (line : vin_line) :
  sequence (output (fst (vin_change_buffer line))) = sequence (output line).
Proof.
  destruct line as [i [a b0 b1 lb p r s q] sc pc].
  unfold vin_change_buffer; simpl.
  destruct s; simpl; try reflexivity;
    destruct a, b0 as [x0|], b1 as [x1|], p as [|nb rest]; reflexivity.
Qed.

Lemma vin_buffer_done_sequence (line : vin_line) (ts : Z) :
  let rs := returned (snd (vin_buffer_done line ts)) in
  sequence (output (fst (vin_buffer_done line ts)))
  = seq_after (sequence (output line)) (length rs)
  /\ forall (i : nat) (d : stfcamss_buffer * vb2_buffer_state),
       nth_error rs i = Some d ->
       vb_sequence (fst d) = seq_after (sequence (output line)) i
       /\ vb_timestamp (fst d) = ts.
Proof.
  cbv zeta.
  destruct (state (output line)) eqn:Hst;
    try (rewrite vin_buffer_done_active by congruence; cbn [fst snd];
         rewrite returned_done_map, length_map, stamp_queue_length;
         split; [reflexivity|];
         intros i d Hd; rewrite nth_error_map, stamp_queue_nth in Hd;
         destruct (nth_error (ready_bufs (output line)) i);
         [injection Hd as <-; split; reflexivity|discriminate]);
    (unfold vin_buffer_done; rewrite Hst; simpl;
     split; [reflexivity|]; intros [|i] d Hd; discriminate).
Qed.

Lemma step_sequence (line : vin_line) (o : op) :
  is_queue_or_irq o = true ->
  let rs := returned (snd (step line o)) in
  sequence (output (fst (step line o)))
  = seq_after (sequence (output line)) (length rs)
  /\ forall (i : nat) (d : stfcamss_buffer * vb2_buffer_state),
       nth_error rs i = Some d ->
       vb_sequence (fst d) = seq_after (sequence (output line)) i.
Proof.
  intros Ho. cbv zeta.
  destruct o as [| |buf|ts| |st]; try discriminate; cbn [step].
  - rewrite vin_queue_buffer_returns_nothing, vin_queue_buffer_sequence.
    split; [reflexivity|]. intros [|i] d Hd; discriminate.
  - destruct (vin_buffer_done_sequence line ts) as [E H].
    split; [exact E|]. intros i d Hd. apply (H i d Hd).
  - rewrite vin_change_buffer_returns_nothing, vin_change_buffer_sequence.
    split; [reflexivity|]. intros [|i] d Hd; discriminate.
Qed.

(** X8.  Sequence numbers run on across handler invocations.  Over any
    sequence of queue_buffer, buffer-changed and buffer-done calls the i-th
    descriptor handed back (counting from 0 over the whole sequence)
    carries the value of the sequence counter of the start after [i]
    increments, and the counter ends after as many increments as
    descriptors were handed back. *)
Theorem sequence_numbers_run_on (line : vin_line) (ops : list op) :
  forallb is_queue_or_irq ops = true ->
  let rs := returned (snd (run line ops)) in
  sequence (output (fst (run line ops)))
  = seq_after (sequence (output line)) (length rs)
  /\ forall (i : nat) (d : stfcamss_buffer * vb2_buffer_state),
       nth_error rs i = Some d ->
       vb_sequence (fst d) = seq_after (sequence (output line)) i.
Proof.
  cbv zeta. revert line.
  induction ops as [|o ops IH]; intros line Hops.
  - simpl. split; [reflexivity|]. intros [|i] d Hd; discriminate.
  - simpl in Hops. apply andb_prop in Hops as [Ho Hops].
    rewrite run_cons. cbn [fst snd].
    destruct (step_sequence line o Ho) as [E1 H1].
    destruct (IH (fst (step line o)) Hops) as [E2 H2].
    rewrite returned_app, length_app. split.
    + rewrite E2, E1, seq_after_add. f_equal. lia.
    + intros i d Hd.
      destruct (Nat.lt_ge_cases i (length (returned (snd (step line o)))))
        as [Hlt|Hge].
      * rewrite nth_error_app1 in Hd by exact Hlt. apply (H1 i d Hd).
      * rewrite nth_error_app2 in Hd by exact Hge.
        rewrite (H2 _ d Hd), E1, seq_after_add. f_equal. lia.
Qed.

End EngineProperties.

(** * Properties of the reference counters *)

Section CounterProperties.
Context {hdr : stf_vin_h}.

Lemma s32_small (x : Z) : - 2 ^ 31 <= x < 2 ^ 31 -> s32 x = x.
Proof. intros H. unfold s32. rewrite Z.mod_small; lia. Qed.








(** ** Stream calls *)

Lemma set_stream_times_succ (n : nat) (vin_dev : stf_vin_dev)
      (line : vin_line) (enable : bool) (lnk : link) :
  set_stream_times (S n) vin_dev line enable lnk
  = (let r1 := vin_set_stream vin_dev line enable lnk in
     let r2 := set_stream_times n (fst (fst r1)) (snd (fst r1)) enable lnk in
     (fst (fst r2), snd (fst r2), snd r1 ++ snd r2)).
Proof.
  simpl. destruct (vin_set_stream vin_dev line enable lnk) as [[d1 l1] e1].
  simpl. destruct (set_stream_times n d1 l1 enable lnk) as [[d2 l2] e2].
  reflexivity.
Qed.

Lemma set_stream_times_app (n m : nat) (enable : bool) (lnk : link) :
  forall (vin_dev : stf_vin_dev) (line : vin_line),
    set_stream_times (n + m) vin_dev line enable lnk
    = (let r1 := set_stream_times n vin_dev line enable lnk in
       let r2 := set_stream_times m (fst (fst r1)) (snd (fst r1))
                                  enable lnk in
       (fst (fst r2), snd (fst r2), snd r1 ++ snd r2)).
Proof.
  induction n as [|n IH]; intros vin_dev line.
  - simpl. destruct (set_stream_times m vin_dev line enable lnk) as [[d l] e].
    reflexivity.
  - change (S n + m)%nat with (S (n + m)).
    rewrite !set_stream_times_succ. cbv zeta. rewrite IH. cbv zeta.
    cbn [fst snd]. rewrite app_assoc. reflexivity.
Qed.

Lemma vin_set_addrs_no_switch (line_id a0 a1 : Z) :
  filter is_stream_switch (vin_set_addrs line_id a0 a1) = [].
Proof.
  unfold vin_set_addrs.
  destruct (vin_map_isp_line line_id); [destruct (line_id =? VIN_LINE_WR)|];
    reflexivity.
Qed.

Lemma vin_enable_output_line (line : vin_line) :
  id (fst (vin_enable_output line)) = id line
  /\ stream_count (fst (vin_enable_output line)) = stream_count line
  /\ power_count (fst (vin_enable_output line)) = power_count line
  /\ filter is_stream_switch (snd (vin_enable_output line)) = [].
Proof.
  destruct line as [i [a b0 b1 lb p r s q] sc pc].
  unfold vin_enable_output, vin_output_init_addrs; simpl.
  destruct p as [|nb rest]; [destruct b1 as [b|]|]; simpl;
    rewrite ?vin_set_addrs_no_switch; repeat split; reflexivity.
Qed.

(** What one [vin_set_stream] call does to the counters and to the
    switches of the capture path. *)
Lemma vin_set_stream_parts
      (vin_dev : stf_vin_dev) (line : vin_line) (enable : bool) (lnk : link) :
  lnk <> LINK_ERROR ->
  let m := vin_line_to_dummy_module line in
  let c := dummy_stream_count vin_dev m in
  let r := vin_set_stream vin_dev line enable lnk in
  id (snd (fst r)) = id line
  /\ power_count (snd (fst r)) = power_count line
  /\ stream_count (snd (fst r))
     = s32 (stream_count line + (if enable then 1 else -1))
  /\ dummy_stream_count (fst (fst r)) m
     = s32 (c + (if enable then 1 else -1))
  /\ filter is_stream_switch (snd r)
     = (if enable
        then (if c =? 0 then [vin_alloc_dummy_buffer m] else [])
             ++ (if stream_count line =? 0
                 then stf_vin_stream_set lnk
                      :: (if id line =? VIN_LINE_WR
                          then [stf_vin_wr_irq_enable true;
                                stf_vin_wr_stream_set]
                          else [])
                 else [])
        else (if c =? 1 then [vin_free_dummy_buffer m] else [])
             ++ (if (stream_count line =? 1) && (id line =? VIN_LINE_WR)
                 then [stf_vin_wr_irq_enable false]
                 else [])).
Proof.
  intros Hlnk. cbv zeta. unfold vin_set_stream.
  assert (Hm : forall n,
            dummy_stream_count
              (set_dummy_stream_count vin_dev
                 (vin_line_to_dummy_module line) n)
              (vin_line_to_dummy_module line) = n).
  { intros n. simpl.
    destruct (vin_line_to_dummy_module line); reflexivity. }
  destruct enable, lnk; try congruence;
    cbn -[vin_enable_output vin_disable_output s32 Z.add Z.eqb filter
          is_stream_switch vin_line_to_dummy_module set_dummy_stream_count];
    try match goal with
        | |- context [vin_enable_output ?l] =>
            pose proof (vin_enable_output_line l) as (H1 & H2 & H3 & H4);
            destruct (vin_enable_output l) as [line2 evs3];
            cbn [fst snd id stream_count power_count set_stream_count] in *;
            rewrite H1, H2, H3, Hm, !filter_app, H4, app_nil_r;
            (repeat split; try reflexivity);
            destruct (dummy_stream_count vin_dev
                        (vin_line_to_dummy_module line) =? 0),
                     (stream_count line =? 0), (id line =? VIN_LINE_WR);
            reflexivity
        end;
    unfold vin_disable_output;
    cbn [fst snd id stream_count power_count set_stream_count set_output];
    rewrite Hm, !filter_app;
    (repeat split; try reflexivity);
    destruct (dummy_stream_count vin_dev (vin_line_to_dummy_module line)
              =? 1),
             (stream_count line =? 1), (id line =? VIN_LINE_WR);
    reflexivity.
Qed.

Lemma vin_line_to_dummy_module_id (l1 l2 : vin_line) :
  id l1 = id l2 -> vin_line_to_dummy_module l1 = vin_line_to_dummy_module l2.
Proof. unfold vin_line_to_dummy_module. intros ->. reflexivity. Qed.

Lemma set_stream_times_on_again (n : nat) (lnk : link) :
  lnk <> LINK_ERROR ->
  forall (vin_dev : stf_vin_dev) (line : vin_line),
    let m := vin_line_to_dummy_module line in
    0 < stream_count line ->
    stream_count line + Z.of_nat n < 2 ^ 31 ->
    0 < dummy_stream_count vin_dev m ->
    dummy_stream_count vin_dev m + Z.of_nat n < 2 ^ 31 ->
    let r := set_stream_times n vin_dev line true lnk in
    id (snd (fst r)) = id line
    /\ stream_count (snd (fst r)) = stream_count line + Z.of_nat n
    /\ dummy_stream_count (fst (fst r)) m
       = dummy_stream_count vin_dev m + Z.of_nat n
    /\ filter is_stream_switch (snd r) = [].
Proof.
  intros Hlnk. induction n as [|n IH]; intros vin_dev line m Hs1 Hs2 Hc1 Hc2.
  - simpl. repeat split; lia.
  - cbv zeta. rewrite set_stream_times_succ. cbv zeta. cbn [fst snd].
    destruct (vin_set_stream_parts vin_dev line true lnk Hlnk)
      as (P1 & _ & P3 & P4 & P5).
    fold m in P4, P5.
    rewrite s32_small in P3, P4 by lia.
    assert (E1 : (dummy_stream_count vin_dev m =? 0) = false)
      by (apply Z.eqb_neq; lia).
    assert (E2 : (stream_count line =? 0) = false)
      by (apply Z.eqb_neq; lia).
    rewrite E1, E2 in P5. simpl in P5.
    pose proof (vin_line_to_dummy_module_id _ _ P1) as Pm. fold m in Pm.
    specialize (IH (fst (fst (vin_set_stream vin_dev line true lnk)))
                   (snd (fst (vin_set_stream vin_dev line true lnk)))).
    cbv zeta in IH. rewrite Pm, P3, P4, P1 in IH.
    destruct IH as (I1 & I2 & I3 & I4); try lia.
    rewrite filter_app, P5, I4, I1, I2, I3.
    repeat split; lia.
Qed.

Lemma set_stream_times_off_not_last (n : nat) (lnk : link) :
  lnk <> LINK_ERROR ->
  forall (vin_dev : stf_vin_dev) (line : vin_line),
    let m := vin_line_to_dummy_module line in
    Z.of_nat n < stream_count line < 2 ^ 31 ->
    Z.of_nat n < dummy_stream_count vin_dev m < 2 ^ 31 ->
    let r := set_stream_times n vin_dev line false lnk in
    id (snd (fst r)) = id line
    /\ stream_count (snd (fst r)) = stream_count line - Z.of_nat n
    /\ dummy_stream_count (fst (fst r)) m
       = dummy_stream_count vin_dev m - Z.of_nat n
    /\ filter is_stream_switch (snd r) = [].
Proof.
  intros Hlnk. induction n as [|n IH]; intros vin_dev line m Hs Hc.
  - simpl. repeat split; lia.
  - cbv zeta. rewrite set_stream_times_succ. cbv zeta. cbn [fst snd].
    destruct (vin_set_stream_parts vin_dev line false lnk Hlnk)
      as (P1 & _ & P3 & P4 & P5).
    fold m in P4, P5.
    rewrite s32_small in P3, P4 by lia.
    assert (E1 : (dummy_stream_count vin_dev m =? 1) = false)
      by (apply Z.eqb_neq; lia).
    assert (E2 : (stream_count line =? 1) = false)
      by (apply Z.eqb_neq; lia).
    rewrite E1, E2 in P5. simpl in P5.
    pose proof (vin_line_to_dummy_module_id _ _ P1) as Pm. fold m in Pm.
    specialize (IH (fst (fst (vin_set_stream vin_dev line false lnk)))
                   (snd (fst (vin_set_stream vin_dev line false lnk)))).
    cbv zeta in IH. rewrite Pm, P3, P4, P1 in IH.
    destruct IH as (I1 & I2 & I3 & I4); try lia.
    rewrite filter_app, P5, I4, I1, I2, I3.
    repeat split; lia.
Qed.

(** X10.  Nested stream calls.  On a line with its stream count and the
    stream count of its dummy-buffer module at zero and a valid link, [n]
    stream-on calls followed by [n] stream-off calls ([n] at least 1)
    switch the capture path on once, in the first call (the dummy buffers
    are allocated, the stream is set and, on the write line, its interrupt
    and stream are enabled), and off once, in the last call (the dummy
    buffers are freed and, on the write line, the interrupt is disabled).
    Both counts are [n] after the stream-on calls and zero after the
    stream-off calls. *)
Theorem stream_calls_nest
        (n : nat) (vin_dev : stf_vin_dev) (line : vin_line) (lnk : link) :
  let m := vin_line_to_dummy_module line in
  stream_count line = 0 ->
  dummy_stream_count vin_dev m = 0 ->
  lnk <> LINK_ERROR ->
  (0 < n)%nat ->
  Z.of_nat n < 2 ^ 31 ->
  let r1 := set_stream_times n vin_dev line true lnk in
  let r2 := set_stream_times n (fst (fst r1)) (snd (fst r1)) false lnk in
  filter is_stream_switch (snd r1)
  = vin_alloc_dummy_buffer m :: stf_vin_stream_set lnk
    :: (if id line =? VIN_LINE_WR
        then [stf_vin_wr_irq_enable true; stf_vin_wr_stream_set]
        else [])
  /\ stream_count (snd (fst r1)) = Z.of_nat n
  /\ dummy_stream_count (fst (fst r1)) m = Z.of_nat n
  /\ filter is_stream_switch (snd r2)
     = vin_free_dummy_buffer m
       :: (if id line =? VIN_LINE_WR
           then [stf_vin_wr_irq_enable false]
           else [])
  /\ stream_count (snd (fst r2)) = 0
  /\ dummy_stream_count (fst (fst r2)) m = 0.
Proof.
  intros m Hs Hc Hlnk Hn Hmax. cbv zeta.
  destruct n as [|n]; [lia|].
  (* the stream-on calls: the first one, then [n] more *)
  rewrite set_stream_times_succ. cbv zeta. cbn [fst snd].
  destruct (vin_set_stream_parts vin_dev line true lnk Hlnk)
    as (P1 & _ & P3 & P4 & P5).
  fold m in P4, P5. rewrite Hs in P3, P5. rewrite Hc in P4, P5.
  change (s32 (0 + 1)) with 1 in P3, P4. simpl in P5.
  pose proof (vin_line_to_dummy_module_id _ _ P1) as Pm. fold m in Pm.
  set (d1 := fst (fst (vin_set_stream vin_dev line true lnk))) in *.
  set (l1 := snd (fst (vin_set_stream vin_dev line true lnk))) in *.
  pose proof (set_stream_times_on_again n lnk Hlnk d1 l1) as I.
  cbv zeta in I. rewrite Pm, P3, P4 in I.
  destruct I as (I1 & I2 & I3 & I4); try lia.
  set (d2 := fst (fst (set_stream_times n d1 l1 true lnk))) in *.
  set (l2 := snd (fst (set_stream_times n d1 l1 true lnk))) in *.
  assert (Pm2 : vin_line_to_dummy_module l2 = m).
  { rewrite <- Pm. apply vin_line_to_dummy_module_id. exact I1. }
  (* the stream-off calls: [n] of them, then the last one *)
  assert (Hoff :
    let r2 := set_stream_times (S n) d2 l2 false lnk in
    filter is_stream_switch (snd r2)
    = vin_free_dummy_buffer m
      :: (if id line =? VIN_LINE_WR
          then [stf_vin_wr_irq_enable false]
          else [])
    /\ stream_count (snd (fst r2)) = 0
    /\ dummy_stream_count (fst (fst r2)) m = 0).
  { cbv zeta. rewrite <- (Nat.add_1_r n).
    rewrite set_stream_times_app. cbv zeta. cbn [fst snd].
    pose proof (set_stream_times_off_not_last n lnk Hlnk d2 l2) as O.
    cbv zeta in O. rewrite Pm2, I2, I3 in O.
    destruct O as (O1 & O2 & O3 & O4); try lia.
    set (d3 := fst (fst (set_stream_times n d2 l2 false lnk))) in *.
    set (l3 := snd (fst (set_stream_times n d2 l2 false lnk))) in *.
    assert (Pm3 : vin_line_to_dummy_module l3 = m).
    { rewrite <- Pm2. apply vin_line_to_dummy_module_id. exact O1. }
    rewrite (set_stream_times_succ 0 d3 l3 false lnk). cbv zeta.
    cbn [set_stream_times fst snd].
    destruct (vin_set_stream_parts d3 l3 false lnk Hlnk)
      as (Q1 & _ & Q3 & Q4 & Q5).
    rewrite Pm3, O2, O3 in *.
    replace (1 + Z.of_nat n - Z.of_nat n) with 1 in * by lia.
    change (s32 (1 + -1)) with 0 in Q3, Q4.
    rewrite O1, I1, P1 in Q5. simpl in Q5.
    rewrite !filter_app, O4, Q5, Q3, Q4. simpl.
    repeat split.
    destruct (id line =? VIN_LINE_WR); reflexivity. }
  cbv zeta in Hoff. destruct Hoff as (H1 & H2 & H3).
  rewrite filter_app, P5, I4, app_nil_r, I2, I3, H1, H2, H3.
  repeat split; lia.
Qed.

(** ** The output engine under stream calls and a missing link *)

Lemma vin_enable_output_set_stream_count (line : vin_line) (n : Z) :
  output (fst (vin_enable_output (set_stream_count line n)))
  = output (fst (vin_enable_output line)).
Proof.
  destruct line as [i [a b0 b1 lb p r s q] sc pc].
  unfold vin_enable_output, vin_output_init_addrs; simpl.
  destruct p as [|nb rest]; [destruct b1 as [b|]|]; reflexivity.
Qed.

(** X11.  Every [vin_set_stream] call switches the output engine, whatever
    the stream counts and the link are: a stream-on call leaves the output
    as [vin_enable_output] leaves it (state IDLE or SINGLE, sequence
    counter 0, active index 0), and a stream-off call leaves the output
    state OFF with the queues, the slots and the last buffer untouched,
    also when other stream-on calls are still outstanding. *)
Theorem vin_set_stream_switches_output
        (vin_dev : stf_vin_dev) (line : vin_line) (lnk : link) :
  let on := snd (fst (vin_set_stream vin_dev line true lnk)) in
  let off := snd (fst (vin_set_stream vin_dev line false lnk)) in
  output on = output (fst (vin_enable_output line))
  /\ (state (output on) = VIN_OUTPUT_IDLE
      \/ state (output on) = VIN_OUTPUT_SINGLE)
  /\ sequence (output on) = 0
  /\ active_buf (output on) = false
  /\ output off = set_state (output line) VIN_OUTPUT_OFF.
Proof.
  cbv zeta.
  assert (Hon : output (snd (fst (vin_set_stream vin_dev line true lnk)))
                = output (fst (vin_enable_output line))).
  { unfold vin_set_stream.
    destruct lnk;
      cbn -[vin_enable_output s32 Z.add Z.eqb vin_line_to_dummy_module
            set_dummy_stream_count];
      match goal with
      | |- context [vin_enable_output ?l] =>
          pose proof (vin_enable_output_set_stream_count line
                        (s32 (stream_count line + 1))) as E;
          destruct (vin_enable_output l) as [l2 e3] eqn:El
      end;
      cbn [fst snd] in *; try exact E; reflexivity. }
  split; [exact Hon|]. rewrite Hon.
  destruct (vin_enable_output_cases line) as (Ha & Hq & _ & _ & _ & _ & Hm).
  cbv zeta in *.
  split.
  { destruct (pending_bufs (output line)); [destruct (buf1 (output line))|];
      destruct Hm as (Hs & _); rewrite Hs; auto. }
  split; [exact Hq|]. split; [exact Ha|].
  unfold vin_set_stream, vin_disable_output.
  destruct lnk; reflexivity.
Qed.

(** X12.  With no valid link ([vin_get_link] returns LINK_ERROR) the
    device-level half of [vin_set_power] and the line-level half of
    [vin_set_stream] are skipped: the device power count and the line
    stream count keep their values and no clock, stream or interrupt
    switch is touched.  The other half still runs: the line power count
    and the dummy-buffer stream count are updated as with a valid link. *)
Theorem link_error_skips_half
        (vin_dev : stf_vin_dev) (line : vin_line) (on : bool) :
  let p := vin_set_power vin_dev line on LINK_ERROR in
  let s := vin_set_stream vin_dev line on LINK_ERROR in
  fst (fst p) = vin_dev
  /\ snd (fst p) = snd (fst (vin_set_power vin_dev line on LINK_CSI_TO_WR))
  /\ filter (fun e => match e with
                      | pm_runtime_get_sync | pm_runtime_put_sync
                      | stf_vin_clk_enable _ | stf_vin_clk_disable _ => true
                      | _ => false
                      end) (snd p) = []
  /\ stream_count (snd (fst s)) = stream_count line
  /\ fst (fst s) = fst (fst (vin_set_stream vin_dev line on LINK_CSI_TO_WR))
  /\ filter (fun e => match e with
                      | stf_vin_stream_set _ | stf_vin_wr_irq_enable _
                      | stf_vin_wr_stream_set => true
                      | _ => false
                      end) (snd s) = [].
Proof.
  cbv zeta. unfold vin_set_power.
  split; [destruct on, (power_count line =? 0); reflexivity|].
  split; [destruct on, (power_count line =? 0),
            (dev_power_count vin_dev =? 0); reflexivity|].
  split; [destruct on, (power_count line =? 0); reflexivity|].
  unfold vin_set_stream, vin_disable_output.
  destruct on.
  - cbn -[vin_enable_output s32 Z.add Z.eqb vin_line_to_dummy_module
          set_dummy_stream_count filter].
    match goal with
    | |- context [vin_enable_output (set_stream_count ?l ?n)] =>
        pose proof (vin_enable_output_line (set_stream_count l n))
          as (_ & _ & _ & G2);
        destruct (vin_enable_output (set_stream_count l n)) as [l2' e2']
    end.
    pose proof (vin_enable_output_line line) as (_ & G1 & _ & G3).
    destruct (vin_enable_output line) as [l2 e2].
    cbn [fst snd] in *.
    split; [exact G1|]. split; [reflexivity|].
    rewrite filter_app.
    assert (F : forall l, filter is_stream_switch l = [] ->
              filter (fun e => match e with
                               | stf_vin_stream_set _
                               | stf_vin_wr_irq_enable _
                               | stf_vin_wr_stream_set => true
                               | _ => false
                               end) l = []).
    { induction l as [|e l IH]; [reflexivity|]. simpl.
      destruct e; simpl; try discriminate; exact IH. }
    rewrite (F _ G3), app_nil_r.
    destruct (dummy_stream_count vin_dev (vin_line_to_dummy_module line)
              =? 0); reflexivity.
  - simpl. repeat split.
    destruct (dummy_stream_count vin_dev (vin_line_to_dummy_module line)
              =? 1); reflexivity.
Qed.

End CounterProperties.

(** * Properties of the format operations *)

Section FormatProperties.
Context {cam : stfcamss_h}.

Lemma find_code_bounds (code : Z) (formats : list vin_format) :
  forall i : nat,
    (i <= find_code code formats i <= i + length formats)%nat.
Proof.
  induction formats as [|f rest IH]; intros i; simpl; [lia|].
  destruct (code =? vf_code f); [lia|]. specialize (IH (S i)). lia.
Qed.

Lemma find_code_found (code : Z) (formats : list vin_format) :
  forall i : nat,
    (find_code code formats i < i + length formats)%nat
    <-> In code (map vf_code formats).
Proof.
  induction formats as [|f rest IH]; intros i; simpl.
  - split; [lia|tauto].
  - destruct (code =? vf_code f) eqn:E.
    + apply Z.eqb_eq in E. split; [auto|lia].
    + apply Z.eqb_neq in E. rewrite <- (IH (S i)).
      split; [intros H; right; lia|].
      intros [H|H]; [congruence|lia].
Qed.

Lemma find_code_missing (code : Z) (formats : list vin_format) :
  (length formats <=? find_code code formats 0)%nat = true
  <-> ~ In code (map vf_code formats).
Proof.
  rewrite <- (find_code_found code formats 0), Nat.leb_le. simpl. lia.
Qed.

Lemma clamp_t_u32_bounds (val lo hi : Z) :
  0 <= lo <= hi -> hi < 2 ^ 32 ->
  lo <= clamp_t_u32 val lo hi <= hi.
Proof.
  intros Hlo Hhi. unfold clamp_t_u32, u32.
  rewrite (Z.mod_small lo), (Z.mod_small hi) by lia. lia.
Qed.

Lemma clamp_t_u32_fixed (val lo hi : Z) :
  0 <= lo <= hi -> hi < 2 ^ 32 ->
  lo <= val <= hi ->
  clamp_t_u32 val lo hi = val.
Proof.
  intros Hlo Hhi Hval. unfold clamp_t_u32, u32.
  rewrite (Z.mod_small lo), (Z.mod_small hi), (Z.mod_small val) by lia.
  lia.
Qed.

Lemma vin_try_format_sink_size
      (formats : list vin_format) (store : vin_fmt_store)
      (fmt : v4l2_mbus_framefmt) (which : v4l2_subdev_format_whence) :
  mbus_width (vin_try_format formats store STF_VIN_PAD_SINK fmt which)
  = clamp_t_u32 (mbus_width fmt) STFCAMSS_FRAME_MIN_WIDTH
                STFCAMSS_FRAME_MAX_WIDTH
  /\ mbus_height (vin_try_format formats store STF_VIN_PAD_SINK fmt which)
     = clamp_t_u32 (mbus_height fmt) STFCAMSS_FRAME_MIN_HEIGHT
                   STFCAMSS_FRAME_MAX_HEIGHT.
Proof. split; reflexivity. Qed.

(** The result of [vin_try_format] on the sink pad. *)
Lemma vin_try_format_sink_spec
        (formats : list vin_format) (store : vin_fmt_store)
        (fmt : v4l2_mbus_framefmt) (which : v4l2_subdev_format_whence) :
  formats <> [] ->
  frame_limits_ok ->
  let f := vin_try_format formats store STF_VIN_PAD_SINK fmt which in
  In (mbus_code f) (map vf_code formats)
  /\ (In (mbus_code fmt) (map vf_code formats) ->
      mbus_code f = mbus_code fmt)
  /\ (~ In (mbus_code fmt) (map vf_code formats) ->
      mbus_code f = vf_code (format_at formats 0))
  /\ STFCAMSS_FRAME_MIN_WIDTH <= mbus_width f <= STFCAMSS_FRAME_MAX_WIDTH
  /\ STFCAMSS_FRAME_MIN_HEIGHT <= mbus_height f <= STFCAMSS_FRAME_MAX_HEIGHT
  /\ mbus_field f = V4L2_FIELD_NONE
  /\ mbus_colorspace f = V4L2_COLORSPACE_SRGB
  /\ mbus_flags f = 0.
Proof.
  intros Hne (Hw1 & Hw2 & Hh1 & Hh2). cbv zeta.
  unfold vin_try_format; simpl.
  destruct (length formats <=? find_code (mbus_code fmt) formats 0)%nat
    eqn:E.
  - apply find_code_missing in E.
    destruct formats as [|f0 rest]; [congruence|].
    repeat split; try (apply clamp_t_u32_bounds; lia); simpl; auto.
    intros Hin. contradiction.
  - assert (Hin : In (mbus_code fmt) (map vf_code formats)).
    { apply (find_code_found _ _ 0%nat). apply Nat.leb_gt in E. simpl. lia. }
    repeat split; try (apply clamp_t_u32_bounds; lia); auto.
    intros Hnot. contradiction.
Qed.

(** X13.  [vin_try_format] on the sink pad, for a non-empty format table
    and ordered 32-bit frame limits.  The resulting code is an entry of
    the table: the requested code when the table has it, the code of the
    first entry otherwise.  The resulting width and height lie within the
    frame limits, the field is V4L2_FIELD_NONE, the colorspace is
    V4L2_COLORSPACE_SRGB and the flags are 0. *)
Theorem vin_try_format_sink_result
        (formats : list vin_format) (store : vin_fmt_store)
        (fmt : v4l2_mbus_framefmt) (which : v4l2_subdev_format_whence) :
  formats <> [] ->
  frame_limits_ok ->
  let f := vin_try_format formats store STF_VIN_PAD_SINK fmt which in
  In (mbus_code f) (map vf_code formats)
  /\ (In (mbus_code fmt) (map vf_code formats) ->
      mbus_code f = mbus_code fmt)
  /\ (~ In (mbus_code fmt) (map vf_code formats) ->
      mbus_code f = vf_code (format_at formats 0))
  /\ STFCAMSS_FRAME_MIN_WIDTH <= mbus_width f <= STFCAMSS_FRAME_MAX_WIDTH
  /\ STFCAMSS_FRAME_MIN_HEIGHT <= mbus_height f <= STFCAMSS_FRAME_MAX_HEIGHT
  /\ mbus_field f = V4L2_FIELD_NONE
  /\ mbus_colorspace f = V4L2_COLORSPACE_SRGB
  /\ mbus_flags f = 0.
Proof. exact (vin_try_format_sink_spec formats store fmt which). Qed.

(** X14.  [vin_try_format] is idempotent on both pads: trying a format it
    has produced gives that format back. *)
Theorem vin_try_format_idempotent
        (formats : list vin_format) (store : vin_fmt_store) (pad : vin_pad)
        (fmt : v4l2_mbus_framefmt) (which : v4l2_subdev_format_whence) :
  formats <> [] ->
  frame_limits_ok ->
  vin_try_format formats store pad
                 (vin_try_format formats store pad fmt which) which
  = vin_try_format formats store pad fmt which.
Proof.
  intros Hne Hlim. destruct pad; [|reflexivity].
  destruct (vin_try_format_sink_spec formats store fmt which Hne Hlim)
    as (Hin & _ & _ & Hw & Hh & Hf & Hc & Hg).
  destruct Hlim as (Hw1 & Hw2 & Hh1 & Hh2).
  cbv zeta in *.
  remember (vin_try_format formats store STF_VIN_PAD_SINK fmt which) as f
    eqn:Ef.
  clear Ef. unfold vin_try_format. cbv zeta.
  assert (E : (length formats <=? find_code (mbus_code f) formats 0)%nat
              = false).
  { apply Nat.leb_gt. apply (find_code_found _ _ 0%nat) in Hin.
    simpl in Hin. exact Hin. }
  rewrite E, !clamp_t_u32_fixed by lia.
  destruct f; simpl in *; subst. reflexivity.
Qed.

(** X15.  [vin_get_format] after [vin_set_format] returns the format
    [vin_set_format] handed back, on either pad and for either kind of
    format, whether the line is streaming or not; on a streaming line
    [vin_set_format] leaves the stored formats as they are and hands back
    the stored one. *)
Theorem vin_get_after_set_format
        (line : vin_line) (formats : list vin_format)
        (store : vin_fmt_store) (fmt : v4l2_subdev_format) :
  let r := vin_set_format line formats store fmt in
  let store' := snd (fst r) in
  fst (fst r) = RET_OK
  /\ vin_get_format store' (snd r) = (RET_OK, snd r)
  /\ sf_pad (snd r) = sf_pad fmt
  /\ sf_which (snd r) = sf_which fmt
  /\ (stream_count line <> 0 ->
      store' = store
      /\ sf_format (snd r)
         = __vin_get_format store (sf_pad fmt) (sf_which fmt)).
Proof.
  cbv zeta. unfold vin_set_format, vin_get_format.
  destruct (stream_count line =? 0) eqn:Es; simpl.
  - apply Z.eqb_eq in Es.
    destruct fmt as [w p f]; destruct w, p; simpl;
      repeat split; try reflexivity; intros; congruence.
  - repeat split; reflexivity.
Qed.

(** X16.  The source pad follows the sink pad.  After [vin_set_format] on
    a line that is not streaming, whichever pad was addressed, the source
    format of the addressed kind (try or active) is the sink format of
    that kind with colorspace V4L2_COLORSPACE_SRGB; a call on the sink pad
    leaves the two equal; a call on the source pad leaves the sink format
    as it was, so the format requested for the source pad is ignored; and
    the formats of the other kind are untouched. *)
Theorem vin_set_format_source_follows_sink
        (line : vin_line) (formats : list vin_format)
        (store : vin_fmt_store) (fmt : v4l2_subdev_format) :
  stream_count line = 0 ->
  let store' := snd (fst (vin_set_format line formats store fmt)) in
  let which := sf_which fmt in
  let other := match which with
               | V4L2_SUBDEV_FORMAT_TRY => V4L2_SUBDEV_FORMAT_ACTIVE
               | V4L2_SUBDEV_FORMAT_ACTIVE => V4L2_SUBDEV_FORMAT_TRY
               end in
  __vin_get_format store' STF_VIN_PAD_SRC which
  = set_mbus_colorspace (__vin_get_format store' STF_VIN_PAD_SINK which)
                        V4L2_COLORSPACE_SRGB
  /\ match sf_pad fmt with
     | STF_VIN_PAD_SINK =>
         __vin_get_format store' STF_VIN_PAD_SRC which
         = __vin_get_format store' STF_VIN_PAD_SINK which
         /\ __vin_get_format store' STF_VIN_PAD_SINK which
            = vin_try_format formats store STF_VIN_PAD_SINK
                             (sf_format fmt) which
     | STF_VIN_PAD_SRC =>
         __vin_get_format store' STF_VIN_PAD_SINK which
         = __vin_get_format store STF_VIN_PAD_SINK which
     end
  /\ (forall pad : vin_pad,
        __vin_get_format store' pad other = __vin_get_format store pad other).
Proof.
  intros Hs. cbv zeta. unfold vin_set_format. rewrite Hs. simpl.
  destruct fmt as [w p f], store as [s1 s2 s3 s4]; destruct w, p; simpl;
    (split; [reflexivity|]); (split; [try split; reflexivity|]);
    intros []; reflexivity.
Qed.

Lemma clamp_t_u32_max (lo hi : Z) :
  0 <= lo <= hi -> hi < 2 ^ 32 ->
  clamp_t_u32 (u32 (-1)) lo hi = hi.
Proof.
  intros Hlo Hhi. unfold clamp_t_u32, u32.
  rewrite (Z.mod_small lo), (Z.mod_small hi) by lia.
  change ((-1) mod 2 ^ 32) with (2 ^ 32 - 1).
  rewrite (Z.mod_small (2 ^ 32 - 1)) by lia. lia.
Qed.

(** X17.  [vin_enum_frame_size] on the sink pad, for a non-empty format
    table and ordered 32-bit frame limits.  It succeeds exactly when the
    index is 0 and the code is an entry of the table.  On success the
    minimum sizes are the sizes 1 x 1 clamped to the frame limits, the
    maximum sizes are the upper frame limits, each minimum is at most its
    maximum, and the index, pad, code and kind are unchanged. *)
Theorem vin_enum_frame_size_sink
        (formats : list vin_format) (store : vin_fmt_store)
        (fse : v4l2_subdev_frame_size_enum) :
  formats <> [] ->
  frame_limits_ok ->
  fse_pad fse = STF_VIN_PAD_SINK ->
  let r := vin_enum_frame_size formats store fse in
  (fst r = RET_OK
   <-> fse_index fse = 0 /\ In (fse_code fse) (map vf_code formats))
  /\ (fst r = RET_OK ->
      fse_min_width (snd r)
      = clamp_t_u32 1 STFCAMSS_FRAME_MIN_WIDTH STFCAMSS_FRAME_MAX_WIDTH
      /\ fse_min_height (snd r)
         = clamp_t_u32 1 STFCAMSS_FRAME_MIN_HEIGHT STFCAMSS_FRAME_MAX_HEIGHT
      /\ fse_max_width (snd r) = STFCAMSS_FRAME_MAX_WIDTH
      /\ fse_max_height (snd r) = STFCAMSS_FRAME_MAX_HEIGHT
      /\ fse_min_width (snd r) <= fse_max_width (snd r)
      /\ fse_min_height (snd r) <= fse_max_height (snd r)
      /\ fse_index (snd r) = fse_index fse
      /\ fse_pad (snd r) = fse_pad fse
      /\ fse_code (snd r) = fse_code fse
      /\ fse_which (snd r) = fse_which fse).
Proof.
  intros Hne Hlim Hpad. cbv zeta.
  pose proof Hlim as (Hw1 & Hw2 & Hh1 & Hh2).
  unfold vin_enum_frame_size. rewrite Hpad.
  destruct (fse_index fse =? 0) eqn:Ei; cbn [negb].
  2:{ apply Z.eqb_neq in Ei. simpl. split; [|discriminate].
      split; [discriminate|]. intros [H _]. contradiction. }
  apply Z.eqb_eq in Ei.
  pose proof (vin_try_format_sink_spec formats store
                (probe_format (fse_code fse) 1 1) (fse_which fse) Hne Hlim)
    as Ht.
  cbv zeta in Ht.
  change (mbus_code (probe_format (fse_code fse) 1 1))
    with (fse_code fse) in Ht.
  pose proof (vin_try_format_sink_size formats store
                (probe_format (fse_code fse) 1 1) (fse_which fse))
    as [Hsw Hsh].
  change (mbus_width (probe_format (fse_code fse) 1 1)) with 1 in Hsw.
  change (mbus_height (probe_format (fse_code fse) 1 1)) with 1 in Hsh.
  remember (vin_try_format formats store STF_VIN_PAD_SINK
              (probe_format (fse_code fse) 1 1) (fse_which fse)) as f1
    eqn:Ef1.
  clear Ef1. destruct Ht as (Hin & Hkeep & Hrepl & _).
  destruct (mbus_code f1 =? fse_code fse) eqn:Ec; cbn [negb].
  - apply Z.eqb_eq in Ec. cbn [fst snd]. split.
    + split; [intros _|reflexivity]. split; [exact Ei|].
      rewrite <- Ec. exact Hin.
    + intros _. cbn [fse_min_width fse_min_height fse_max_width
                     fse_max_height fse_index fse_pad fse_code fse_which].
      match goal with
      | |- context [vin_try_format formats store STF_VIN_PAD_SINK ?g ?w] =>
          destruct (vin_try_format_sink_size formats store g w) as [E1 E2];
          rewrite E1, E2
      end.
      cbn [mbus_width mbus_height].
      rewrite !clamp_t_u32_max, Hsw, Hsh by lia.
      repeat split; try reflexivity;
        apply clamp_t_u32_bounds; lia.
  - apply Z.eqb_neq in Ec. cbn [fst]. split; [|discriminate].
    split; [discriminate|]. intros [_ Hin'].
    exfalso. apply Ec. apply Hkeep. exact Hin'.
Qed.

(** X18.  [vin_enum_mbus_code] with a non-negative index.  It succeeds on
    the sink pad exactly for the indices below the table length and then
    reports the code of that table entry with flags 0, so that the indices
    0, 1, ... enumerate the table in order.  On the source pad it fails
    for the same indices out of range and otherwise reports the code of
    the stored sink format, failing when that code is 0. *)
Theorem vin_enum_mbus_code_table
        (formats : list vin_format) (store : vin_fmt_store)
        (code : v4l2_subdev_mbus_code_enum) :
  0 <= ce_index code ->
  let r := vin_enum_mbus_code formats store code in
  match ce_pad code with
  | STF_VIN_PAD_SINK =>
      (fst r = RET_OK <-> ce_index code < Z.of_nat (length formats))
      /\ (fst r = RET_OK ->
          nth_error (map vf_code formats) (Z.to_nat (ce_index code))
          = Some (ce_code (snd r))
          /\ ce_flags (snd r) = 0)
  | STF_VIN_PAD_SRC =>
      (fst r = RET_OK
       <-> ce_index code < Z.of_nat (length formats)
           /\ mbus_code (__vin_get_format store STF_VIN_PAD_SINK
                                          (ce_which code)) <> 0)
      /\ (fst r = RET_OK ->
          ce_code (snd r)
          = mbus_code (__vin_get_format store STF_VIN_PAD_SINK
                                        (ce_which code))
          /\ ce_flags (snd r) = 0)
  end
  /\ (fst r = RET_EINVAL -> ce_flags (snd r) = ce_flags code).
Proof.
  intros Hidx. cbv zeta. unfold vin_enum_mbus_code.
  destruct (Z.of_nat (length formats) <=? ce_index code) eqn:El.
  - apply Z.leb_le in El. cbn [fst snd].
    destruct (ce_pad code); (split; [|reflexivity]);
      (split; [split; [discriminate|intros; lia]|discriminate]).
  - apply Z.leb_gt in El.
    destruct (ce_pad code).
    + cbn [fst snd ce_code ce_flags]. split; [|discriminate].
      split; [split; [intros _; exact El|reflexivity]|].
      intros _. split; [|reflexivity].
      unfold format_at. rewrite nth_error_map.
      destruct (nth_error formats (Z.to_nat (ce_index code))) as [f|] eqn:En.
      * rewrite (nth_error_nth _ _ _ En). reflexivity.
      * apply nth_error_None in En. lia.
    + destruct (mbus_code (__vin_get_format store STF_VIN_PAD_SINK
                             (ce_which code)) =? 0) eqn:Ec;
        cbn [fst snd ce_code ce_flags].
      * apply Z.eqb_eq in Ec. split; [|reflexivity].
        split; [split; [discriminate|intros [_ H]; contradiction]
               |discriminate].
      * apply Z.eqb_neq in Ec. split; [|discriminate].
        split; [split; [intros _; split; assumption|reflexivity]|].
        intros _. split; reflexivity.
Qed.

End FormatProperties.

(** * Properties of the link detection *)

Section LinkProperties.
Context {names : stf_names_h}.

Lemma vin_get_link_loop_sound (graph : nat -> media_entity) (l : link) :
  l <> LINK_ERROR ->
  forall (fuel : nat) (e : nat) (isp : bool),
    vin_get_link_loop fuel graph e isp = Some l ->
    exists (isps : list nat) (src : nat),
      (length isps < fuel)%nat
      /\ walk graph e (isps ++ [src])
      /\ Forall (is_isp graph) isps
      /\ source_link graph src
           (match isps with [] => isp | _ :: _ => true end) = Some l.
Proof.
  intros Hl. induction fuel as [|fuel IH]; intros e isp H; [discriminate|].
  simpl in H.
  destruct (pad0_is_sink (graph e)) eqn:Hsink; simpl in H;
    [|injection H as <-; contradiction].
  destruct (pad0_remote (graph e)) as [r|] eqn:Hrem;
    [|injection H as <-; contradiction].
  destruct (is_v4l2_subdev (graph r)) eqn:Hsub; simpl in H;
    [|injection H as <-; contradiction].
  assert (Hhop : hop graph e r) by (unfold hop; auto).
  destruct (has_prefix (subdev_name (graph r)) STF_CSI_NAME) eqn:Hcsi.
  { exists [], r. simpl. unfold source_link. rewrite Hcsi.
    repeat split; auto. lia. }
  destruct (has_prefix (subdev_name (graph r)) STF_DVP_NAME) eqn:Hdvp.
  { exists [], r. simpl. unfold source_link. rewrite Hcsi, Hdvp.
    repeat split; auto. lia. }
  destruct (has_prefix (subdev_name (graph r)) STF_ISP_NAME) eqn:Hisp;
    [|injection H as <-; contradiction].
  destruct (IH r true H) as (isps & src & Hlen & Hwalk & Hall & Hsrc).
  exists (r :: isps), src. simpl.
  split; [lia|]. split; [split; assumption|].
  split; [constructor; [unfold is_isp; auto|assumption]|].
  destruct isps; exact Hsrc.
Qed.

Lemma vin_get_link_loop_complete (graph : nat -> media_entity) (l : link) :
  forall (isps : list nat) (src e : nat) (isp : bool) (fuel : nat),
    walk graph e (isps ++ [src]) ->
    Forall (is_isp graph) isps ->
    source_link graph src
      (match isps with [] => isp | _ :: _ => true end) = Some l ->
    (length isps < fuel)%nat ->
    vin_get_link_loop fuel graph e isp = Some l.
Proof.
  induction isps as [|r isps IH]; intros src e isp fuel Hwalk Hall Hsrc Hlen;
    (destruct fuel as [|fuel]; [simpl in Hlen; lia|]);
    simpl in Hwalk; destruct Hwalk as [(Hsink & Hrem & Hsub) Hwalk];
    simpl; rewrite Hsink, Hrem, Hsub; simpl.
  - unfold source_link in Hsrc.
    destruct (has_prefix (subdev_name (graph src)) STF_CSI_NAME);
      [exact Hsrc|].
    destruct (has_prefix (subdev_name (graph src)) STF_DVP_NAME);
      [exact Hsrc|discriminate].
  - inversion Hall as [|x xs (Hc & Hd & Hi) Hall']; subst.
    rewrite Hc, Hd, Hi.
    apply (IH src r true fuel Hwalk Hall'); [|simpl in Hlen; lia].
    destruct isps; exact Hsrc.
Qed.

(** X19.  What [vin_get_link] reports.  It reports a link other than
    LINK_ERROR exactly when, going upstream from the entity through sink
    pads [pads[0]] and subdevices only, it passes some entities named as
    ISPs and then reaches an entity named as a CSI or a DVP; the link
    names that source, and it is a link to the ISP exactly when at least
    one ISP was passed.  One iteration per entity on the way suffices, and
    more iterations do not change the result. *)
Theorem vin_get_link_reports
        (graph : nat -> media_entity) (e : nat) (l : link) :
  l <> LINK_ERROR ->
  (forall fuel : nat,
      vin_get_link fuel graph e = Some l ->
      exists (isps : list nat) (src : nat),
        (length isps < fuel)%nat
        /\ walk graph e (isps ++ [src])
        /\ Forall (is_isp graph) isps
        /\ source_link graph src (negb (length isps =? 0)%nat) = Some l)
  /\ (forall (isps : list nat) (src : nat) (fuel : nat),
         walk graph e (isps ++ [src]) ->
         Forall (is_isp graph) isps ->
         source_link graph src (negb (length isps =? 0)%nat) = Some l ->
         (length isps < fuel)%nat ->
         vin_get_link fuel graph e = Some l).
Proof.
  intros Hl. unfold vin_get_link. split.
  - intros fuel H.
    destruct (vin_get_link_loop_sound graph l Hl fuel e false H)
      as (isps & src & Hlen & Hwalk & Hall & Hsrc).
    exists isps, src. repeat split; try assumption.
    destruct isps; exact Hsrc.
  - intros isps src fuel Hwalk Hall Hsrc Hlen.
    apply (vin_get_link_loop_complete graph l isps src e false fuel);
      try assumption.
    destruct isps; exact Hsrc.
Qed.

End LinkProperties.
(** * Closed instances *)

(** Against the reset to OFF of C1: flushing the streaming line
    [line_single_A] leaves the state SINGLE, not OFF. *)
Lemma vin_flush_buffers_keeps_state :
  state (output (fst (vin_flush_buffers line_single_A VB2_BUF_STATE_ERROR)))
  <> VIN_OUTPUT_OFF.
Proof. simpl. discriminate. Qed.

(** C7 at the failing input: stream-off on the untouched write line, with
    the line's stream count and the dummy-buffer stream count both zero,
    leaves both counters at -1, calls [vin_set_dummy_buffer] and reports
    nothing. *)
Theorem vin_set_stream_off_underflows :
  let r := @vin_set_stream stf_vin_h_two_lines dev_zero (line_zero 0)
                           false LINK_CSI_TO_WR in
  stream_count (line_zero 0) = 0
  /\ dummy_stream_count dev_zero STF_DUMMY_VIN = 0
  /\ stream_count (snd (fst r)) = -1
  /\ dummy_stream_count (fst (fst r)) STF_DUMMY_VIN = -1
  /\ snd r = [vin_set_dummy_buffer pad_stf_vin_map_isp_pad]
  /\ reported (snd r) = [].
Proof. cbv zeta. repeat split. Qed.

(** C2 on the write line with [buf_A] active and [buf_B] pending: [buf_B]
    takes slot 0, its address goes to ping and pong, [buf_A] is ready. *)
Lemma vin_change_buffer_rotation_witness :
  running (state (output line_single_A_pending_B)) = true
  /\ get_buf (output line_single_A_pending_B)
             (active_buf (output line_single_A_pending_B)) = Some buf_A
  /\ @line_id_ok stf_vin_h_two_lines (id line_single_A_pending_B)
  /\ let r := @vin_change_buffer stf_vin_h_two_lines
                                 line_single_A_pending_B in
     pending_bufs (output (fst r)) = []
     /\ get_buf (output (fst r)) false = Some buf_B
     /\ dma_writes (snd r)
        = [stf_vin_wr_set_ping_addr 8192; stf_vin_wr_set_pong_addr 8192]
     /\ state (output (fst r)) = VIN_OUTPUT_SINGLE
     /\ ready_bufs (output (fst r)) = [buf_A].
Proof.
  assert (H1 : running (state (output line_single_A_pending_B)) = true)
    by reflexivity.
  assert (H2 : get_buf (output line_single_A_pending_B)
                       (active_buf (output line_single_A_pending_B))
               = Some buf_A) by reflexivity.
  assert (H3 : @line_id_ok stf_vin_h_two_lines (id line_single_A_pending_B))
    by (left; reflexivity).
  destruct (@vin_change_buffer_rotation stf_vin_h_two_lines
              line_single_A_pending_B buf_A H1 H2 H3)
    as (_ & _ & Hp & Hb & Hw & Hs & _ & Hr & _).
  exact (conj H1 (conj H2 (conj H3
           (conj Hp (conj Hb (conj Hw (conj Hs Hr))))))).
Defined.

(** C3 on [line_ready_AB] at time 1000: [buf_A] and [buf_B] come back in
    this order with sequence numbers 7 and 8 and the one timestamp. *)
Lemma vin_buffer_done_drains_ready_witness :
  let r := vin_buffer_done line_ready_AB 1000 in
  ready_bufs (output (fst r)) = []
  /\ sequence (output (fst r)) = 9
  /\ nth_error (returned (snd r)) 0
     = Some (mk_buffer 1 1000 7 4096 6144, VB2_BUF_STATE_DONE)
  /\ nth_error (returned (snd r)) 1
     = Some (mk_buffer 2 1000 8 8192 10240, VB2_BUF_STATE_DONE)
  /\ length (returned (snd r)) = 2%nat.
Proof.
  destruct (vin_buffer_done_drains_ready line_ready_AB 1000)
    as (Hl & _ & Hn & Hi & _).
  cbv zeta. rewrite Hl.
  split; [reflexivity|]. split; [reflexivity|].
  split; [exact (Hi 0%nat buf_A eq_refl)|].
  split; [exact (Hi 1%nat buf_B eq_refl)|exact Hn].
Defined.

(** C4 on [line_single_A] with [buf_B] and [buf_C] queued in this order:
    the rotation events install [buf_B], then [buf_C]; the first rotation
    event, which finds [buf_A] in slot 0 and [buf_B], [buf_C] pending,
    takes [buf_B] and writes its address to ping and pong. *)
Lemma queue_buffer_fifo_witness :
  @queue_while_running stf_vin_h_two_lines line_single_A ops_queue_BC = true
  /\ @line_id_ok stf_vin_h_two_lines (id line_single_A)
  /\ pending_bufs (output line_single_A) ++ queued ops_queue_BC
     = map fst (@installs stf_vin_h_two_lines line_single_A ops_queue_BC)
       ++ pending_bufs
            (output (fst (@run stf_vin_h_two_lines line_single_A
                               ops_queue_BC)))
  /\ map fst (@installs stf_vin_h_two_lines line_single_A ops_queue_BC)
     = [buf_B; buf_C]
  /\ (let pre := [op_queue_buffer buf_B; op_queue_buffer buf_C] in
      let l := fst (@run stf_vin_h_two_lines line_single_A pre) in
      let l' := fst (@vin_change_buffer stf_vin_h_two_lines l) in
      running (state (output l)) = true
      /\ (buf0 (output l) <> None \/ buf1 (output l) <> None)
      /\ pending_bufs (output l) = [buf_B; buf_C]
      /\ @installs stf_vin_h_two_lines line_single_A
           (pre ++ [op_change_buffer])
         = [(buf_B, [stf_vin_wr_set_ping_addr 8192;
                     stf_vin_wr_set_pong_addr 8192])]
      /\ pending_bufs (output l') = [buf_C]
      /\ (buf0 (output l') = Some buf_B \/ buf1 (output l') = Some buf_B)
      /\ dma_writes (snd (@vin_change_buffer stf_vin_h_two_lines l))
         = [stf_vin_wr_set_ping_addr 8192; stf_vin_wr_set_pong_addr 8192]).
Proof.
  assert (H1 : @queue_while_running stf_vin_h_two_lines line_single_A
                                    ops_queue_BC = true) by reflexivity.
  assert (H2 : @line_id_ok stf_vin_h_two_lines (id line_single_A))
    by (left; reflexivity).
  assert (H3 : buf0 (output (fst (@run stf_vin_h_two_lines line_single_A
                 [op_queue_buffer buf_B; op_queue_buffer buf_C]))) <> None
               \/ buf1 (output (fst (@run stf_vin_h_two_lines line_single_A
                 [op_queue_buffer buf_B; op_queue_buffer buf_C]))) <> None)
    by (left; intros H; discriminate H).
  destruct (@queue_buffer_fifo stf_vin_h_two_lines line_single_A
              ops_queue_BC H1 H2) as (Hf & _ & _ & _ & Hp).
  destruct (Hp [op_queue_buffer buf_B; op_queue_buffer buf_C]
               [op_buffer_done 5; op_change_buffer] buf_B [buf_C]
               eq_refl eq_refl H3 eq_refl) as (Hi & Hq & Hs & Hd & _).
  exact (conj H1 (conj H2 (conj Hf (conj eq_refl
           (conj eq_refl (conj H3 (conj eq_refl
              (conj Hi (conj Hq (conj Hs Hd)))))))))).
Defined.

(** C5 on [line_underflow]: both slots are empty, the line is unchanged. *)
Lemma vin_change_buffer_gate_and_underflow_witness :
  running (state (output line_underflow)) = true
  /\ get_buf (output line_underflow) (active_buf (output line_underflow))
     = None
  /\ fst (@vin_change_buffer stf_vin_h_two_lines line_underflow)
     = line_underflow
  /\ dma_writes (snd (@vin_change_buffer stf_vin_h_two_lines line_underflow))
     = [].
Proof.
  assert (H1 : running (state (output line_underflow)) = true)
    by reflexivity.
  assert (H2 : get_buf (output line_underflow)
                       (active_buf (output line_underflow)) = None)
    by reflexivity.
  destruct (@vin_change_buffer_gate_and_underflow stf_vin_h_two_lines
              line_underflow) as (_ & Hu).
  destruct (Hu H1 H2) as (Hl & _ & Hw & _).
  exact (conj H1 (conj H2 (conj Hl Hw))).
Defined.

(** C6 on [line_stopping_A] with [buf_B] queued: [buf_A] is back in slot 0
    and [buf_B] is pending. *)
Lemma vin_queue_buffer_stopping_witness :
  state (output line_stopping_A) = VIN_OUTPUT_STOPPING
  /\ let out' := output (fst (@vin_queue_buffer stf_vin_h_two_lines
                                                line_stopping_A buf_B)) in
     state out' = VIN_OUTPUT_SINGLE
     /\ pending_bufs out' = [buf_B]
     /\ last_buffer out' = None
     /\ get_buf out' false = Some buf_A.
Proof.
  assert (H1 : state (output line_stopping_A) = VIN_OUTPUT_STOPPING)
    by reflexivity.
  destruct (@vin_queue_buffer_stopping stf_vin_h_two_lines
              line_stopping_A buf_B H1)
    as (_ & Hs & Hp & Hl & Hb & _).
  exact (conj H1 (conj Hs (conj Hp (conj Hl Hb)))).
Defined.

(** C8 on the untouched write line. *)
Lemma vin_enable_disable_round_trip_witness :
  state (output (line_zero 0)) = VIN_OUTPUT_OFF
  /\ pending_bufs (output (line_zero 0)) = []
  /\ ready_bufs (output (line_zero 0)) = []
  /\ buf0 (output (line_zero 0)) = None
  /\ buf1 (output (line_zero 0)) = None
  /\ let en := @vin_enable_output stf_vin_h_two_lines (line_zero 0) in
     let dis := vin_disable_output (fst en) in
     state (output (fst en)) = VIN_OUTPUT_IDLE
     /\ state (output (fst dis)) = VIN_OUTPUT_OFF
     /\ dma_writes (snd en ++ snd dis) = [].
Proof.
  destruct (@vin_enable_disable_round_trip stf_vin_h_two_lines (line_zero 0)
              eq_refl eq_refl eq_refl eq_refl eq_refl)
    as (He & Hd & _ & _ & Hw & _).
  exact (conj eq_refl (conj eq_refl (conj eq_refl (conj eq_refl
           (conj eq_refl (conj He (conj Hd Hw))))))).
Defined.

(** C10 on the untouched write line with [buf_A] queued. *)
Lemma vin_queue_buffer_off_reserved_witness :
  (state (output (line_zero 0)) = VIN_OUTPUT_OFF
   \/ state (output (line_zero 0)) = VIN_OUTPUT_RESERVED)
  /\ let r := @vin_queue_buffer stf_vin_h_two_lines (line_zero 0) buf_A in
     pending_bufs (output (fst r)) = [buf_A]
     /\ state (output (fst r)) = VIN_OUTPUT_OFF
     /\ snd r = [].
Proof.
  assert (H1 : state (output (line_zero 0)) = VIN_OUTPUT_OFF
               \/ state (output (line_zero 0)) = VIN_OUTPUT_RESERVED)
    by (left; reflexivity).
  destruct (@vin_queue_buffer_off_reserved stf_vin_h_two_lines
              (line_zero 0) buf_A H1) as (He & Hp & Hs & _).
  exact (conj H1 (conj Hp (conj Hs (f_equal snd He)))).
Defined.

(** * Closed instances of the further properties *)

(** X1 on [line_stopping_A]. *)
Lemma stopping_persists_witness :
  state (output line_stopping_A) = VIN_OUTPUT_STOPPING
  /\ forallb is_irq ops_irq = true
  /\ let r := @run stf_vin_h_two_lines line_stopping_A ops_irq in
     state (output (fst r)) = VIN_OUTPUT_STOPPING
     /\ last_buffer (output (fst r)) = Some buf_A
     /\ dma_writes (snd r) = [].
Proof.
  destruct (@stopping_persists stf_vin_h_two_lines line_stopping_A ops_irq
              eq_refl eq_refl) as (H1 & H2 & _ & _ & _ & _ & H7).
  exact (conj eq_refl (conj eq_refl (conj H1 (conj H2 H7)))).
Defined.


Lemma frozen_consistent_single_A : frozen_consistent (output line_single_A).
Proof. split; [reflexivity|discriminate]. Defined.

(** X5 on [line_single_A]: [buf_A], [buf_B] and [buf_C] are all accounted
    for after the flush. *)
Lemma descriptors_conserved_witness :
  frozen_consistent (output line_single_A)
  /\ forallb keeps_stream ops_queue_flush = true
  /\ let r := @run stf_vin_h_two_lines line_single_A ops_queue_flush in
     Permutation
       (map ptr (outstanding (output (fst r)))
        ++ map ptr (map fst (returned (snd r))))
       (map ptr (outstanding (output line_single_A))
        ++ map ptr (queued ops_queue_flush)).
Proof.
  destruct (@descriptors_conserved stf_vin_h_two_lines line_single_A
              ops_queue_flush frozen_consistent_single_A eq_refl)
    as (Hp & _).
  exact (conj frozen_consistent_single_A (conj eq_refl Hp)).
Defined.

(** X20 on [line_single_A]: the three descriptors are distinct at the
    start and still distinct once flushed. *)
Lemma descriptors_returned_once_witness :
  frozen_consistent (output line_single_A)
  /\ forallb keeps_stream ops_queue_flush = true
  /\ NoDup (map ptr (outstanding (output line_single_A)
                     ++ queued ops_queue_flush))
  /\ let r := @run stf_vin_h_two_lines line_single_A ops_queue_flush in
     NoDup (map ptr (outstanding (output (fst r))
                     ++ map fst (returned (snd r)))).
Proof.
  assert (Hnd : NoDup (map ptr (outstanding (output line_single_A)
                                ++ queued ops_queue_flush))).
  { simpl. repeat constructor; simpl; intuition discriminate. }
  exact (conj frozen_consistent_single_A
           (conj eq_refl
              (conj Hnd
                 (@descriptors_returned_once stf_vin_h_two_lines
                    line_single_A ops_queue_flush
                    frozen_consistent_single_A eq_refl Hnd)))).
Defined.

(** X6 on the untouched write line, enabled with nothing queued. *)
Lemma init_outputs_idle_empty_witness :
  let out := output (fst (@run stf_vin_h_two_lines
                               (vin_init_outputs (line_zero 0))
                               [op_enable])) in
  state out = VIN_OUTPUT_IDLE
  /\ buf0 out = None
  /\ pending_bufs out = [].
Proof.
  destruct (@init_outputs_idle_empty stf_vin_h_two_lines (line_zero 0)
              [op_enable] eq_refl) as (Hb & Hp).
  exact (conj eq_refl (conj Hb Hp)).
Defined.

Lemma single_buffered_single_A : single_buffered (output line_single_A).
Proof. split; [discriminate|split; reflexivity]. Defined.

Lemma idle_empty_single_A : idle_empty (output line_single_A).
Proof. intros H. discriminate H. Defined.

(** X7 on [line_single_A] with [buf_B] and [buf_C] queued. *)
Lemma completion_in_arrival_order_witness :
  single_buffered (output line_single_A)
  /\ frozen_consistent (output line_single_A)
  /\ idle_empty (output line_single_A)
  /\ forallb is_queue_or_irq ops_queue_BC = true
  /\ let r := @run stf_vin_h_two_lines line_single_A ops_queue_BC in
     map ptr (map fst (returned (snd r)))
     ++ map ptr (pipeline (output (fst r)))
     = [1; 2; 3]%nat.
Proof.
  destruct (@completion_in_arrival_order stf_vin_h_two_lines line_single_A
              ops_queue_BC single_buffered_single_A
              frozen_consistent_single_A idle_empty_single_A eq_refl)
    as (He & _).
  exact (conj single_buffered_single_A
           (conj frozen_consistent_single_A
              (conj idle_empty_single_A (conj eq_refl He)))).
Defined.

(** X8 on [line_ready_AB], whose counter stands at 7: two descriptors are
    completed and the counter ends at 9. *)
Lemma sequence_numbers_run_on_witness :
  forallb is_queue_or_irq ops_done_twice = true
  /\ let r := @run stf_vin_h_two_lines line_ready_AB ops_done_twice in
     sequence (output (fst r)) = 9
     /\ (forall (i : nat) (d : stfcamss_buffer * vb2_buffer_state),
            nth_error (returned (snd r)) i = Some d ->
            vb_sequence (fst d) = seq_after 7 i).
Proof.
  destruct (@sequence_numbers_run_on stf_vin_h_two_lines line_ready_AB
              ops_done_twice eq_refl) as (Hs & Hn).
  exact (conj eq_refl (conj Hs Hn)).
Defined.

Lemma link_csi_to_wr_valid : LINK_CSI_TO_WR <> LINK_ERROR.
Proof. intros H. discriminate H. Defined.


(** X10 with three stream-on and three stream-off calls on the write
    line. *)
Lemma stream_calls_nest_witness :
  stream_count (line_zero 0) = 0
  /\ dummy_stream_count dev_zero
       (@vin_line_to_dummy_module stf_vin_h_two_lines (line_zero 0)) = 0
  /\ LINK_CSI_TO_WR <> LINK_ERROR
  /\ (0 < 3)%nat
  /\ Z.of_nat 3 < 2 ^ 31
  /\ let r1 := @set_stream_times stf_vin_h_two_lines 3 dev_zero (line_zero 0)
                                 true LINK_CSI_TO_WR in
     let r2 := @set_stream_times stf_vin_h_two_lines 3 (fst (fst r1))
                                 (snd (fst r1)) false LINK_CSI_TO_WR in
     filter is_stream_switch (snd r1)
     = [vin_alloc_dummy_buffer STF_DUMMY_VIN;
        stf_vin_stream_set LINK_CSI_TO_WR;
        stf_vin_wr_irq_enable true; stf_vin_wr_stream_set]
     /\ stream_count (snd (fst r1)) = 3
     /\ filter is_stream_switch (snd r2)
        = [vin_free_dummy_buffer STF_DUMMY_VIN; stf_vin_wr_irq_enable false]
     /\ stream_count (snd (fst r2)) = 0.
Proof.
  assert (H4 : (0 < 3)%nat) by (repeat constructor).
  assert (H5 : Z.of_nat 3 < 2 ^ 31) by reflexivity.
  destruct (@stream_calls_nest stf_vin_h_two_lines 3 dev_zero (line_zero 0)
              LINK_CSI_TO_WR eq_refl eq_refl link_csi_to_wr_valid H4 H5)
    as (E1 & S1 & _ & E2 & S2 & _).
  exact (conj eq_refl (conj eq_refl (conj link_csi_to_wr_valid
           (conj H4 (conj H5 (conj E1 (conj S1 (conj E2 S2)))))))).
Defined.

Lemma vin_formats_wr_not_empty :
  @vin_formats_wr stfcamss_h_example <> [].
Proof. intros H. discriminate H. Defined.

Lemma frame_limits_ok_example : @frame_limits_ok stfcamss_h_example.
Proof. unfold frame_limits_ok; simpl. lia. Defined.

(** X13 on the write line: 4000 x 20 in RGB565 becomes 1920 x 64 in the
    first code of the table. *)
Lemma vin_try_format_sink_result_witness :
  @vin_formats_wr stfcamss_h_example <> []
  /\ @frame_limits_ok stfcamss_h_example
  /\ let f := @vin_try_format stfcamss_h_example
                (@vin_formats_wr stfcamss_h_example) store_720p
                STF_VIN_PAD_SINK fmt_request V4L2_SUBDEV_FORMAT_ACTIVE in
     In (mbus_code f) (map vf_code (@vin_formats_wr stfcamss_h_example))
     /\ 64 <= mbus_width f <= 1920
     /\ 64 <= mbus_height f <= 1080
     /\ mbus_flags f = 0.
Proof.
  destruct (@vin_try_format_sink_result stfcamss_h_example
              (@vin_formats_wr stfcamss_h_example) store_720p fmt_request
              V4L2_SUBDEV_FORMAT_ACTIVE vin_formats_wr_not_empty
              frame_limits_ok_example)
    as (Hin & _ & _ & Hw & Hh & _ & _ & Hf).
  exact (conj vin_formats_wr_not_empty
           (conj frame_limits_ok_example
              (conj Hin (conj Hw (conj Hh Hf))))).
Defined.

(** X14 on the same request. *)
Lemma vin_try_format_idempotent_witness :
  @vin_formats_wr stfcamss_h_example <> []
  /\ @frame_limits_ok stfcamss_h_example
  /\ @vin_try_format stfcamss_h_example
       (@vin_formats_wr stfcamss_h_example) store_720p STF_VIN_PAD_SINK
       (@vin_try_format stfcamss_h_example
          (@vin_formats_wr stfcamss_h_example) store_720p STF_VIN_PAD_SINK
          fmt_request V4L2_SUBDEV_FORMAT_ACTIVE)
       V4L2_SUBDEV_FORMAT_ACTIVE
     = @vin_try_format stfcamss_h_example
         (@vin_formats_wr stfcamss_h_example) store_720p STF_VIN_PAD_SINK
         fmt_request V4L2_SUBDEV_FORMAT_ACTIVE.
Proof.
  exact (conj vin_formats_wr_not_empty
           (conj frame_limits_ok_example
              (@vin_try_format_idempotent stfcamss_h_example
                 (@vin_formats_wr stfcamss_h_example) store_720p
                 STF_VIN_PAD_SINK fmt_request V4L2_SUBDEV_FORMAT_ACTIVE
                 vin_formats_wr_not_empty frame_limits_ok_example))).
Defined.

Lemma stream_count_single_A : stream_count line_single_A <> 0.
Proof. intros H. discriminate H. Defined.

(** X15 on the streaming line [line_single_A]: the request is answered
    with the stored 1280 x 720 format and nothing is stored. *)
Lemma vin_get_after_set_format_witness :
  stream_count line_single_A <> 0
  /\ let r := @vin_set_format stfcamss_h_example line_single_A
                (@vin_formats_wr stfcamss_h_example) store_720p
                (mk_subdev_format V4L2_SUBDEV_FORMAT_ACTIVE STF_VIN_PAD_SINK
                                  fmt_request) in
     snd (fst r) = store_720p
     /\ sf_format (snd r) = fmt_720p
     /\ vin_get_format (snd (fst r)) (snd r)
        = (RET_OK, snd r).
Proof.
  destruct (@vin_get_after_set_format stfcamss_h_example line_single_A
              (@vin_formats_wr stfcamss_h_example) store_720p
              (mk_subdev_format V4L2_SUBDEV_FORMAT_ACTIVE STF_VIN_PAD_SINK
                                fmt_request))
    as (_ & Hg & _ & _ & Hs).
  destruct (Hs stream_count_single_A) as (Hst & Hf).
  exact (conj stream_count_single_A (conj Hst (conj Hf Hg))).
Defined.

(** X16 on the idle write line: after a request on the sink pad both
    active pads hold 1920 x 64 in the first code of the table and the try
    formats are untouched. *)
Lemma vin_set_format_source_follows_sink_witness :
  stream_count (line_zero 0) = 0
  /\ let store' :=
       snd (fst (@vin_set_format stfcamss_h_example (line_zero 0)
                   (@vin_formats_wr stfcamss_h_example) store_720p
                   (mk_subdev_format V4L2_SUBDEV_FORMAT_ACTIVE
                                     STF_VIN_PAD_SINK fmt_request))) in
     active_src store' = active_sink store'
     /\ active_sink store' = mk_framefmt 1920 64 12303 1 8 0 0 0 0
     /\ try_sink store' = fmt_zero.
Proof.
  destruct (@vin_set_format_source_follows_sink stfcamss_h_example
              (line_zero 0) (@vin_formats_wr stfcamss_h_example) store_720p
              (mk_subdev_format V4L2_SUBDEV_FORMAT_ACTIVE STF_VIN_PAD_SINK
                                fmt_request) eq_refl)
    as (_ & (He & Hs) & Ho).
  exact (conj eq_refl (conj He (conj Hs (Ho STF_VIN_PAD_SINK)))).
Defined.

(** X17 on the write line for SGRBG10. *)
Lemma vin_enum_frame_size_sink_witness :
  @vin_formats_wr stfcamss_h_example <> []
  /\ @frame_limits_ok stfcamss_h_example
  /\ let r := @vin_enum_frame_size stfcamss_h_example
                (@vin_formats_wr stfcamss_h_example) store_720p
                (mk_size_enum 0 STF_VIN_PAD_SINK 12298 0 0 0 0
                              V4L2_SUBDEV_FORMAT_ACTIVE) in
     fst r = RET_OK
     /\ fse_min_width (snd r) = 64
     /\ fse_max_width (snd r) = 1920
     /\ fse_max_height (snd r) = 1080.
Proof.
  destruct (@vin_enum_frame_size_sink stfcamss_h_example
              (@vin_formats_wr stfcamss_h_example) store_720p
              (mk_size_enum 0 STF_VIN_PAD_SINK 12298 0 0 0 0
                            V4L2_SUBDEV_FORMAT_ACTIVE)
              vin_formats_wr_not_empty frame_limits_ok_example eq_refl)
    as (Hiff & Hok).
  assert (Hr : fst (@vin_enum_frame_size stfcamss_h_example
                      (@vin_formats_wr stfcamss_h_example) store_720p
                      (mk_size_enum 0 STF_VIN_PAD_SINK 12298 0 0 0 0
                                    V4L2_SUBDEV_FORMAT_ACTIVE)) = RET_OK).
  { apply (proj2 Hiff). split; [reflexivity|]. right. left. reflexivity. }
  destruct (Hok Hr) as (Hmw & _ & Hxw & Hxh & _).
  exact (conj vin_formats_wr_not_empty
           (conj frame_limits_ok_example
              (conj Hr (conj Hmw (conj Hxw Hxh))))).
Defined.

(** X18 on the write line: index 1 on the sink pad is SGRBG10. *)
Lemma vin_enum_mbus_code_table_witness :
  0 <= 1
  /\ let r := vin_enum_mbus_code
                (@vin_formats_wr stfcamss_h_example) store_720p
                (mk_code_enum STF_VIN_PAD_SINK 1 0 5
                              V4L2_SUBDEV_FORMAT_ACTIVE) in
     fst r = RET_OK /\ Some 12298 = Some (ce_code (snd r)).
Proof.
  assert (H0 : 0 <= 1) by (intros H; discriminate H).
  destruct (vin_enum_mbus_code_table
              (@vin_formats_wr stfcamss_h_example) store_720p
              (mk_code_enum STF_VIN_PAD_SINK 1 0 5
                            V4L2_SUBDEV_FORMAT_ACTIVE) H0)
    as ((Hiff & Hok) & _).
  assert (Hr : fst (vin_enum_mbus_code
                      (@vin_formats_wr stfcamss_h_example) store_720p
                      (mk_code_enum STF_VIN_PAD_SINK 1 0 5
                                    V4L2_SUBDEV_FORMAT_ACTIVE)) = RET_OK).
  { apply (proj2 Hiff). reflexivity. }
  exact (conj H0 (conj Hr (proj1 (Hok Hr)))).
Defined.

Lemma link_csi_to_isp_valid : LINK_CSI_TO_ISP <> LINK_ERROR.
Proof. intros H. discriminate H. Defined.

Lemma walk_csi_isp :
  walk graph_csi_isp 0%nat ([1%nat] ++ [2%nat]).
Proof. repeat split. Defined.

Lemma is_isp_csi_isp :
  Forall (@is_isp stf_names_h_example graph_csi_isp) [1%nat].
Proof. constructor; [repeat split|constructor]. Defined.

(** X19 on a CSI receiver feeding the ISP feeding the line. *)
Lemma vin_get_link_reports_witness :
  LINK_CSI_TO_ISP <> LINK_ERROR
  /\ @vin_get_link stf_names_h_example 2 graph_csi_isp 0%nat
     = Some LINK_CSI_TO_ISP.
Proof.
  destruct (@vin_get_link_reports stf_names_h_example graph_csi_isp 0%nat
              LINK_CSI_TO_ISP link_csi_to_isp_valid) as (_ & Hc).
  assert (Hlen : (length [1%nat] < 2)%nat) by (repeat constructor).
  exact (conj link_csi_to_isp_valid
           (Hc [1%nat] 2%nat 2%nat walk_csi_isp is_isp_csi_isp eq_refl
               Hlen)).
Defined.
